(** * Codex-32 orchestration core: registry, executor, supervisor

    A shallow embedding of the Python sources
      app/utils.py, app/bot_registry.py, app/container_engine.py,
      app/adaptive_executor.py and app/supervisor.py
    together with the properties claimed about them.

    Conventions of the embedding.
    - Python [str] values are Rocq strings read as ASCII text.
    - Python [dict] records are association lists in insertion order
      (a key occurs at most once; [dict_set] keeps that shape).
    - A [datetime] is the number of microseconds since the epoch (UTC).
    - An operation that mutates objects returns the new state; an operation
      that may raise returns a [result].
    - Whatever the operating system, the clock or an injected collaborator
      decides is an explicit input (a "script") of the embedded function. *)

From Stdlib Require Import ZArith List String Ascii Bool Lia.
From stdpp Require Import base option list gmap strings pretty.

Local Open Scope Z_scope.
Set Warnings "-register-all,-clear-no-such-hyp".

(* ===================================================================== *)
(** * Python text helpers *)
(* ===================================================================== *)

Module PyStr.

(** [c.isspace()] on ASCII: TAB..CR, FS..US and the blank. *)
Definition isspace (c : ascii) : bool :=
  let n := nat_of_ascii c in
  ((9 <=? n)%nat && (n <=? 13)%nat) || ((28 <=? n)%nat && (n <=? 32)%nat).

(** [c.isdigit()] on ASCII. *)
Definition isdigit (c : ascii) : bool :=
  let n := nat_of_ascii c in (48 <=? n)%nat && (n <=? 57)%nat.

Definition lower_char (c : ascii) : ascii :=
  let n := nat_of_ascii c in
  if ((65 <=? n)%nat && (n <=? 90)%nat)%bool then ascii_of_nat (n + 32) else c.

Fixpoint lstrip (s : string) : string :=
  match s with
  | String c s' => if isspace c then lstrip s' else s
  | EmptyString => EmptyString
  end.

(** Drops the blanks at the end: a character is kept when it is not
    blank or when something is kept after it. *)
Fixpoint rstrip (s : string) : string :=
  match s with
  | EmptyString => EmptyString
  | String c s' =>
      match rstrip s' with
      | EmptyString => if isspace c then EmptyString else String c EmptyString
      | r => String c r
      end
  end.

(** [s.strip()] of a text of ASCII characters *)
Definition strip (s : string) : string := rstrip (lstrip s).

(** [s.lower()] *)
Fixpoint lower (s : string) : string :=
  match s with
  | EmptyString => EmptyString
  | String c s' => String (lower_char c) (lower s')
  end.

(** The digits of [s], in order: the join over [ch for ch in s if ch.isdigit()]. *)
Fixpoint digits_of (s : string) : string :=
  match s with
  | EmptyString => EmptyString
  | String c s' => if isdigit c then String c (digits_of s') else digits_of s'
  end.

Definition digit_val (c : ascii) : Z := Z.of_nat (nat_of_ascii c) - 48.

Fixpoint int_of_digits_from (acc : Z) (s : string) : Z :=
  match s with
  | EmptyString => acc
  | String c s' => int_of_digits_from (10 * acc + digit_val c) s'
  end.

(** [int(s)] for a non-empty string of decimal digits. *)
Definition int_of_digits (s : string) : Z := int_of_digits_from 0 s.

(** [s.endswith(suffix)] *)
Definition endswith (s suffix : string) : bool :=
  let n := String.length s in
  let m := String.length suffix in
  (m <=? n)%nat && String.eqb (String.substring (n - m) m s) suffix.

(** [s.startswith(p)] *)
Definition startswith (s p : string) : bool := String.prefix p s.


Definition is_empty (s : string) : bool :=
  match s with EmptyString => true | _ => false end.

End PyStr.

(* ===================================================================== *)
(** * app/adaptive_executor.py: [_parse_mem_limit_mb] *)
(* ===================================================================== *)

(** The nested helper of [_run_bot_in_container] on a string argument
    ([None] and the empty text are both read as the empty text by the
    [or] of its first line). *)
Definition _parse_mem_limit_mb (v : string) : Z :=
  let raw := PyStr.lower (PyStr.strip v) in
  if PyStr.is_empty raw then 512
  else
    let digits := PyStr.digits_of raw in
    if PyStr.is_empty digits then 512
    else
      let n := PyStr.int_of_digits digits in
      if PyStr.endswith raw "gi" then n * 1024 else n.



(* ===================================================================== *)
(** * Python values, exceptions and results *)
(* ===================================================================== *)

(** The values a bot record can hold.  [VDatetime] is the only one the
    [json] module cannot write. *)
Inductive value : Type :=
| VNone
| VBool (b : bool)
| VInt (n : Z)
| VStr (s : string)
| VDatetime (t : Z)
| VList (xs : list value)
| VDict (kvs : list (string * value)).

(** A Python [dict] with string keys. *)
Abbreviation pydict := (list (string * value)).

(** What the Python runtime computes and this development leaves open:
    the text of a datetime, the text of a compound value, and [int] of a
    text. *)
Class PyRuntime := {
  isoformat : Z -> string;          (* [d.isoformat()] *)
  str_compound : value -> string;   (* [str(v)] for a datetime, list or dict *)
  int_of_text : string -> option Z  (* [int(s)]; [None] stands for ValueError *)
}.

(** The exception classes the code raises or tells apart. All of them
    derive from [Exception]. *)
Inductive exn_class :=
| FileNotFoundError
| OSError            (* also spelled IOError *)
| TimeoutError       (* asyncio.TimeoutError *)
| SubprocessError    (* subprocess.SubprocessError and its subclasses *)
| ContainerError
| ValueError
| TypeError
| AttributeError
| OtherException.

Record exn := Exn { exn_cls : exn_class; exn_msg : string }.

Inductive result (A : Type) :=
| Ok (a : A)
| Raise (e : exn).
Arguments Ok {A} a.
Arguments Raise {A} e.

Global Instance exn_class_eq_dec : EqDecision exn_class.
Proof. solve_decision. Defined.

Definition is_ok {A} (r : result A) : bool :=
  match r with Ok _ => true | Raise _ => false end.

Module Dict.

(** [d.get(k)] *)
Fixpoint get (k : string) (d : pydict) : option value :=
  match d with
  | [] => None
  | (k', v) :: d' => if String.eqb k' k then Some v else get k d'
  end.

(** [d[k] = v]: overwrite in place, or append a new key. *)
Fixpoint set (k : string) (v : value) (d : pydict) : pydict :=
  match d with
  | [] => [(k, v)]
  | (k', v') :: d' =>
      if String.eqb k' k then (k', v) :: d' else (k', v') :: set k v d'
  end.

Definition keys (d : pydict) : list string := map fst d.

End Dict.

(** [bool(v)] *)
Definition truthy (v : value) : bool :=
  match v with
  | VNone => false
  | VBool b => b
  | VInt n => negb (n =? 0)
  | VStr s => negb (PyStr.is_empty s)
  | VDatetime _ => true
  | VList xs => match xs with [] => false | _ => true end
  | VDict kvs => match kvs with [] => false | _ => true end
  end.

(** [d.get(k)], with [None] for a missing key. *)
Definition get_or_none (k : string) (d : pydict) : value :=
  default VNone (Dict.get k d).

(** [x or y] *)
Definition py_or (x y : value) : value := if truthy x then x else y.

Section Runtime.
Context `{PyRuntime}.

(** [str(v)] *)
Definition py_str (v : value) : string :=
  match v with
  | VNone => "None"
  | VBool true => "True"
  | VBool false => "False"
  | VInt n => pretty n
  | VStr s => s
  | _ => str_compound v
  end.

(** [int(v)] *)
Definition py_int (v : value) : result Z :=
  match v with
  | VInt n => Ok n
  | VBool b => Ok (if b then 1 else 0)
  | VStr s =>
      match int_of_text s with
      | Some n => Ok n
      | None => Raise (Exn ValueError "invalid literal for int()")
      end
  | _ => Raise (Exn TypeError "int() argument must be a string or a number")
  end.

(** [(v or {}).get(k)]: the value under [k] of an optional mapping.
    A true value that is no dict has no [get]. *)
Definition get_in (v : value) (k : string) : result value :=
  match py_or v (VDict []) with
  | VDict d => Ok (get_or_none k d)
  | _ => Raise (Exn AttributeError "object has no attribute 'get'")
  end.

End Runtime.

(** Whether [json.dump] accepts the value. *)
Fixpoint json_serializable (v : value) : bool :=
  match v with
  | VDatetime _ => false
  | VList xs => forallb json_serializable xs
  | VDict kvs => forallb (fun kv => json_serializable (snd kv)) kvs
  | _ => true
  end.

(** Whether a datetime occurs anywhere inside the value. *)
Fixpoint has_datetime (v : value) : bool :=
  match v with
  | VDatetime _ => true
  | VList xs => existsb has_datetime xs
  | VDict kvs => existsb (fun kv => has_datetime (snd kv)) kvs
  | _ => false
  end.

(* ===================================================================== *)
(** * app/utils.py: [atomic_save_json] *)
(* ===================================================================== *)

Module Utils.

(** What a file holds: the complete JSON text of a value, or a text whose
    writing did not finish. *)
Inductive fcontent :=
| Document (v : value)
| Unfinished.

(** The files, by path, and the journal of every [os.replace] that put a
    document in place (oldest first). *)
Record filesystem := {
  files : gmap string fcontent;
  journal : list (string * value)
}.

(** What the operating system answers to one call of [atomic_save_json]. *)
Record io_outcomes := {
  io_makedirs : option exn;    (* os.makedirs(path, exist_ok=True) *)
  io_mktemp : result string;   (* NamedTemporaryFile(..., delete=False, suffix=".tmp") *)
  io_write : option exn;       (* the writes of json.dump *)
  io_close : option exn;       (* closing the file at the end of [with] *)
  io_fsync : option exn;       (* open(tmp_path, "rb") and os.fsync *)
  io_replace : option exn;     (* os.replace(tmp_path, filename) *)
  io_remove : option exn;      (* os.remove(tmp_path) in the handler *)
  io_mtime : Z                 (* st_mtime of the target, when it is asked *)
}.

Definition put (p : string) (c : fcontent) (fs : filesystem) : filesystem :=
  {| files := <[p := c]> (files fs); journal := journal fs |}.

Definition exists_ (p : string) (fs : filesystem) : bool :=
  bool_decide (is_Some (files fs !! p)).

(** The handler's clean-up, reached with [tmp_path] bound. *)
Definition cleanup (o : io_outcomes) (tmp_path : string) (fs : filesystem)
  : filesystem :=
  if exists_ tmp_path fs then
    match io_remove o with
    | None => {| files := delete tmp_path (files fs); journal := journal fs |}
    | Some _ => fs       (* logged as a warning *)
    end
  else fs.

Definition atomic_save_failed (filename : string) : exn :=
  Exn OSError ("Atomic save failed for " +:+ filename).

Definition atomic_save_json (o : io_outcomes) (fs : filesystem)
    (filename : string) (data : value) : filesystem * result unit :=
  let failed := Raise (atomic_save_failed filename) in
  match io_makedirs o with
  | Some _ => (fs, failed)                 (* tmp_path is not bound yet *)
  | None =>
      match io_mktemp o with
      | Raise _ => (fs, failed)            (* tmp_path is not bound yet *)
      | Ok tmp_path =>
          let fs1 := put tmp_path Unfinished fs in
          if negb (json_serializable data) || bool_decide (is_Some (io_write o))
          then (fs1, failed)               (* json.dump raised: tmp_path is
                                              bound only after it *)
          else
            match io_close o with
            | Some _ => (cleanup o tmp_path fs1, failed)
            | None =>
                let fs2 := put tmp_path (Document data) fs in
                match io_fsync o with
                | Some _ => (cleanup o tmp_path fs2, failed)
                | None =>
                    match io_replace o with
                    | Some _ => (cleanup o tmp_path fs2, failed)
                    | None =>
                        ({| files := <[filename := Document data]>
                                       (delete tmp_path (files fs2));
                            journal := journal fs2 ++ [(filename, data)] |},
                         Ok tt)
                    end
                end
            end
      end
  end.

(** The outcomes of a call on which nothing goes wrong in the system. *)
Definition io_fine (o : io_outcomes) : Prop :=
  io_makedirs o = None /\ is_ok (io_mktemp o) = true /\ io_write o = None /\
  io_close o = None /\ io_fsync o = None /\ io_replace o = None.

(** The step at which a call goes wrong in the system. *)
Definition fails_before_write (o : io_outcomes) : bool :=
  bool_decide (is_Some (io_makedirs o)) || negb (is_ok (io_mktemp o)).

(** ** [load_json], [cleanup_file] and [AtomicFileWriter] *)

(** What the operating system and the [json] module answer to one
    [load_json]. *)
Record load_outcomes := {
  ld_read : option exn;        (* open(filename) and the reads of json.load *)
  ld_partial : option value    (* what json.load makes of a text whose writing
                                  did not finish; [None] is JSONDecodeError *)
}.

(** [load_json]: the empty dict for a missing file and for every failure. *)
Definition load_json (ld : load_outcomes) (fs : filesystem) (filename : string)
  : value :=
  match files fs !! filename with
  | None => VDict []
  | Some c =>
      match ld_read ld with
      | Some _ => VDict []
      | None =>
          match c with
          | Document v => v
          | Unfinished => default (VDict []) (ld_partial ld)
          end
      end
  end.

(** [cleanup_file]; the argument is what [os.remove] answers. *)
Definition cleanup_file (remove_failure : option exn) (filepath : string)
    (fs : filesystem) : filesystem * bool :=
  if exists_ filepath fs then
    match remove_failure with
    | None => ({| files := delete filepath (files fs); journal := journal fs |},
               true)
    | Some _ => (fs, false)
    end
  else (fs, false).

(** What the operating system answers to one use of [AtomicFileWriter]. *)
Record writer_outcomes := {
  aw_makedirs : option exn;    (* os.makedirs in __enter__ *)
  aw_mktemp : result string;   (* NamedTemporaryFile in __enter__ *)
  aw_close : option exn;       (* self.tmp_file.close() in __exit__ *)
  aw_fsync : option exn;
  aw_replace : option exn;
  aw_remove : option exn       (* os.remove in cleanup_file *)
}.

(** [with AtomicFileWriter(filepath) as f: body]: the body writes the
    content [c] and ends, or raises with the writing unfinished. *)
Definition atomic_file_writer (w : writer_outcomes) (body : result fcontent)
    (fs : filesystem) (filepath : string) : filesystem * result unit :=
  match aw_makedirs w with
  | Some e => (fs, Raise e)
  | None =>
      match aw_mktemp w with
      | Raise e => (fs, Raise e)
      | Ok tmp_path =>
          let fs1 := put tmp_path Unfinished fs in
          match aw_close w with
          | Some e => (fs1, Raise e)
          | None =>
              match body with
              | Raise e => (fst (cleanup_file (aw_remove w) tmp_path fs1), Raise e)
              | Ok c =>
                  let fs2 := put tmp_path c fs in
                  match aw_fsync w with
                  | Some e =>
                      (fst (cleanup_file (aw_remove w) tmp_path fs2), Raise e)
                  | None =>
                      match aw_replace w with
                      | Some e =>
                          (fst (cleanup_file (aw_remove w) tmp_path fs2), Raise e)
                      | None =>
                          ({| files := <[filepath := c]>
                                         (delete tmp_path (files fs2));
                              journal :=
                                match c with
                                | Document v => journal fs2 ++ [(filepath, v)]
                                | Unfinished => journal fs2
                                end |}, Ok tt)
                      end
                  end
              end
          end
      end
  end.

End Utils.

(* ===================================================================== *)
(** * app/bot_registry.py *)
(* ===================================================================== *)

(** [BotStatus] and the value each member carries. *)
Inductive BotStatus := CREATED | DEPLOYING | RUNNING | STOPPED | FAILED | ERROR.

Definition status_value (s : BotStatus) : string :=
  match s with
  | CREATED => "created" | DEPLOYING => "deploying" | RUNNING => "running"
  | STOPPED => "stopped" | FAILED => "failed" | ERROR => "error"
  end.

(** [_status_value(BotStatus.X)] as stored in a record. *)
Definition _status_value (s : BotStatus) : value := VStr (status_value s).

Section Registry.
Context `{PyRuntime}.

(** [_normalize_for_json]: the loop visits the items of the copied dict and
    overwrites the value of every item that is a datetime. *)
Definition _normalize_for_json (bot : pydict) : pydict :=
  map (fun kv => match snd kv with
                 | VDatetime t => (fst kv, VStr (isoformat t))
                 | _ => kv
                 end) bot.

(** The key of a record: [str(...).strip()] of its id, the id of a record
    without one being the empty text. *)
Definition bot_key (bot_d : pydict) : string :=
  PyStr.strip (py_str (default (VStr EmptyString) (Dict.get "id" bot_d))).

End Registry.

Module SecureRegistry.
Section Defs.
Context `{PyRuntime}.

Record t := {
  file : string;
  _cache : gmap string pydict;
  fs : Utils.filesystem
}.

Definition with_cache (r : t) (c : gmap string pydict) : t :=
  {| file := file r; _cache := c; fs := fs r |}.

(** The document [_save] writes. *)
Definition registry_document (o : Utils.io_outcomes) (r : t) : value :=
  VDict [("bots", VList (map (fun kb => VDict (snd kb)) (map_to_list (_cache r))));
         ("metadata",
          VDict [("total_bots", VInt (Z.of_nat (size (_cache r))));
                 ("last_updated",
                  if Utils.exists_ (file r) (fs r)
                  then VInt (Utils.io_mtime o) else VNone)])].

Definition _save (o : Utils.io_outcomes) (r : t) : t * result unit :=
  let '(fs', res) :=
    Utils.atomic_save_json o (fs r) (file r) (registry_document o r) in
  ({| file := file r; _cache := _cache r; fs := fs' |}, res).

(** [BotRecord(dict(bot)) if bot else None] *)
Definition get_bot_by_id (r : t) (bot_id : string) : option pydict :=
  match _cache r !! bot_id with
  | Some bot => if truthy (VDict bot) then Some bot else None
  | None => None
  end.

Definition get_all_bots (r : t) : list pydict :=
  map snd (map_to_list (_cache r)).

Definition register_bot (o : Utils.io_outcomes) (r : t) (bot : pydict)
  : t * result pydict :=
  let bot_id := bot_key bot in
  if PyStr.is_empty bot_id then
    (r, Raise (Exn ValueError "Bot must include non-empty 'id'"))
  else if bool_decide (is_Some (_cache r !! bot_id)) then
    (r, Raise (Exn ValueError ("Bot with ID '" +:+ bot_id +:+ "' already exists")))
  else
    let stored := _normalize_for_json bot in
    let '(r', res) := _save o (with_cache r (<[bot_id := stored]> (_cache r))) in
    match res with
    | Ok _ => (r', Ok stored)
    | Raise e => (r', Raise e)
    end.

Definition update_bot (o : Utils.io_outcomes) (r : t) (bot : pydict)
  : t * result pydict :=
  let bot_id := bot_key bot in
  if PyStr.is_empty bot_id then
    (r, Raise (Exn ValueError "Bot must include non-empty 'id'"))
  else if negb (bool_decide (is_Some (_cache r !! bot_id))) then
    (r, Raise (Exn ValueError
                 ("Bot with ID '" +:+ bot_id +:+ "' not found in registry")))
  else
    let stored := _normalize_for_json bot in
    let '(r', res) := _save o (with_cache r (<[bot_id := stored]> (_cache r))) in
    match res with
    | Ok _ => (r', Ok stored)
    | Raise e => (r', Raise e)
    end.

(** ** Loading, removing and bulk operations *)

(** [for d in v]: the items a loop over the value visits; a dict yields
    its keys, a text its characters, and the other values cannot be
    iterated. *)
Definition iter_values (v : value) : result (list value) :=
  match v with
  | VList xs => Ok xs
  | VDict kvs => Ok (map (fun kv => VStr (fst kv)) kvs)
  | VStr s => Ok (map (fun c => VStr (String c EmptyString)) (list_ascii_of_string s))
  | _ => Raise (Exn TypeError "object is not iterable")
  end.

(** The loop that files the records of a document under their ids: an item
    that is no dict or has a blank id is skipped, a later record replaces
    an earlier one with the same id. *)
Definition load_records (raw : list value) (c : gmap string pydict)
  : gmap string pydict :=
  fold_left (fun c d =>
               match d with
               | VDict kvs =>
                   let bot_id := bot_key kvs in
                   if PyStr.is_empty bot_id then c else <[bot_id := kvs]> c
               | _ => c
               end) raw c.

(** [data.get("bots", [])] of a loaded document, ready for the loop. *)
Definition document_records (data : value) : result (list value) :=
  match data with
  | VDict doc => iter_values (default (VList []) (Dict.get "bots" doc))
  | _ => Raise (Exn AttributeError "object has no attribute 'get'")
  end.

(** [_load_initial_data]: whatever goes wrong leaves an empty cache. *)
Definition _load_initial_data (ld : Utils.load_outcomes) (r : t) : t :=
  match document_records (Utils.load_json ld (fs r) (file r)) with
  | Ok raw => with_cache r (load_records raw ∅)
  | Raise _ => with_cache r ∅
  end.

(** [SecureRegistry(registry_file)] over the files [fs0]. *)
Definition init (ld : Utils.load_outcomes) (registry_file : string)
    (fs0 : Utils.filesystem) : t :=
  _load_initial_data ld {| file := registry_file; _cache := ∅; fs := fs0 |}.

(** A [status] argument: a member of the enumeration or anything else. *)
Inductive status_arg :=
| EnumStatus (s : BotStatus)
| OtherStatus (v : value).

(** [status.value if isinstance(status, Enum) else str(status)] *)
Definition status_target (status : status_arg) : string :=
  match status with
  | EnumStatus s => status_value s
  | OtherStatus v => py_str v
  end.

(** [str(bot.get(k, EmptyString))] *)
Definition text_field (k : string) (b : pydict) : string :=
  py_str (default (VStr EmptyString) (Dict.get k b)).

Definition get_bots_by_status (r : t) (status : status_arg) : list pydict :=
  filter (fun b => text_field "status" b = status_target status)
         (get_all_bots r).

Definition get_bots_by_role (r : t) (role : string) : list pydict :=
  filter (fun b => text_field "role" b = role) (get_all_bots r).

(** [for key, value in kwargs.items(): bot[key] = value] *)
Definition apply_kwargs (kwargs : pydict) (b : pydict) : pydict :=
  fold_left (fun b kv => Dict.set (fst kv) (snd kv) b) kwargs b.

(** [update_bot_status]: the cached dict itself is changed, before the
    save and without normalization. *)
Definition update_bot_status (o : Utils.io_outcomes) (r : t) (bot_id : string)
    (status : status_arg) (kwargs : pydict) : t * result (option pydict) :=
  match get_bot_by_id r bot_id with
  | None => (r, Ok None)
  | Some bot =>
      let bot' := apply_kwargs kwargs
                    (Dict.set "status" (VStr (status_target status)) bot) in
      let '(r', res) := _save o (with_cache r (<[bot_id := bot']> (_cache r))) in
      match res with
      | Ok _ => (r', Ok (Some bot'))
      | Raise e => (r', Raise e)
      end
  end.

Definition unregister_bot (o : Utils.io_outcomes) (r : t) (bot_id : string)
  : t * result bool :=
  if negb (bool_decide (is_Some (_cache r !! bot_id))) then (r, Ok false)
  else
    let '(r', res) := _save o (with_cache r (delete bot_id (_cache r))) in
    match res with
    | Ok _ => (r', Ok true)
    | Raise e => (r', Raise e)
    end.

(** The result of [get_registry_stats]. *)
Record registry_stats := {
  total_bots : Z;
  bots_by_status : gmap string Z;
  active_bots : Z;
  failed_bots : Z
}.

(** One turn of the loop of [get_registry_stats]. *)
Definition count_bot (acc : registry_stats) (b : pydict) : registry_stats :=
  let status_val := PyStr.lower (text_field "status" b) in
  {| total_bots := total_bots acc;
     bots_by_status :=
       if PyStr.is_empty status_val then bots_by_status acc
       else <[status_val := default 0 (bots_by_status acc !! status_val) + 1]>
              (bots_by_status acc);
     active_bots :=
       if String.eqb status_val (status_value RUNNING)
       then active_bots acc + 1 else active_bots acc;
     failed_bots :=
       if String.eqb status_val (status_value ERROR)
          || String.eqb status_val "error"
          || String.eqb status_val (status_value FAILED)
          || truthy (get_or_none "error" b)
          || truthy (get_or_none "error_message" b)
       then failed_bots acc + 1 else failed_bots acc |}.

Definition get_registry_stats (r : t) : registry_stats :=
  fold_left count_bot (get_all_bots r)
    {| total_bots := Z.of_nat (size (_cache r)); bots_by_status := ∅;
       active_bots := 0; failed_bots := 0 |}.

Definition clear_registry (o : Utils.io_outcomes) (r : t) : t * result unit :=
  _save o (with_cache r ∅).

(** The document [export_registry] writes. *)
Definition export_document (r : t) : value :=
  VDict [("bots", VList (map (fun kb => VDict (snd kb)) (map_to_list (_cache r))));
         ("metadata", VDict [("total_bots", VInt (Z.of_nat (size (_cache r))))])].

Definition export_registry (o : Utils.io_outcomes) (r : t) (filepath : string)
  : t * bool :=
  let '(fs', res) := Utils.atomic_save_json o (fs r) filepath (export_document r) in
  ({| file := file r; _cache := _cache r; fs := fs' |}, is_ok res).

(** [import_registry]: the cache is replaced or merged before the save, and
    every exception ends in [False]. *)
Definition import_registry (ld : Utils.load_outcomes) (o : Utils.io_outcomes)
    (r : t) (filepath : string) (merge : bool) : t * bool :=
  match document_records (Utils.load_json ld (fs r) filepath) with
  | Raise _ => (r, false)
  | Ok raw =>
      let imported_bots := load_records raw ∅ in
      let c := if merge then imported_bots ∪ _cache r else imported_bots in
      let '(r', res) := _save o (with_cache r c) in
      (r', is_ok res)
  end.

End Defs.
End SecureRegistry.

(* ===================================================================== *)
(** * app/container_engine.py *)
(* ===================================================================== *)

Module ContainerState.
Inductive t := CREATED | RUNNING | PAUSED | STOPPED | EXITED | FAILED.

Global Instance eq_dec : EqDecision t.
Proof. solve_decision. Defined.
End ContainerState.

Inductive IsolationType := MINIMAL | STANDARD | STRICT.

Record ResourceLimits := {
  cpu_limit_percent : Z;
  memory_limit_mb : Z;
  disk_io_limit_mbps : Z;
  max_processes : Z;
  max_open_files : Z
}.

Record ContainerConfig := {
  name : string;
  image : string;
  entrypoint : string;
  entrypoint_args : list string;
  environment : value;
  resource_limits : ResourceLimits;
  isolation_level : IsolationType;
  labels : list (string * string);
  auto_restart : value
}.

Record ContainerMetadata := {
  md_name : string;
  container_id : string;
  md_image : string;
  state : ContainerState.t;
  process_id : option Z;
  created_at : string;
  started_at : option string;
  stopped_at : option string;
  exit_code : option Z;
  error_message : option string;
  root_path : string
}.

Module Container.
Section Defs.
Context `{PyRuntime}.

(** A container object: [process] is the [Popen] handle (its pid) once the
    child was spawned; [monitor_task] tells whether a monitor was created. *)
Record t := {
  config : ContainerConfig;
  metadata : ContainerMetadata;
  process : option Z;
  monitor_task : bool
}.

Definition with_metadata (c : t) (m : ContainerMetadata) : t :=
  {| config := config c; metadata := m; process := process c;
     monitor_task := monitor_task c |}.

(** The object [Container.__init__] builds once the container's directory
    is made; the digest and the clock are inputs. *)
Definition init (cfg : ContainerConfig) (storage_dir digest12 : string)
    (now : Z) : t :=
  {| config := cfg;
     metadata := {| md_name := name cfg; container_id := digest12;
                    md_image := image cfg; state := ContainerState.CREATED;
                    process_id := None; created_at := isoformat now;
                    started_at := None; stopped_at := None;
                    exit_code := None; error_message := None;
                    root_path := storage_dir +:+ "/" +:+ name cfg +:+ "/rootfs" |};
     process := None;
     monitor_task := false |}.

(** [Container(config, storage_dir)]: the constructor makes the container's
    directory before anything else, and whatever [mkdir] raises (a name too
    long or with a NUL in it, a storage directory that cannot be written)
    leaves the caller; otherwise the object is the one [init] describes. *)
Definition construct (mkdir : option exn) (cfg : ContainerConfig)
    (storage_dir digest12 : string) (now : Z) : result t :=
  match mkdir with
  | Some e => Raise e
  | None => Ok (init cfg storage_dir digest12 now)
  end.

(** What the operating system answers during [start]. *)
Record start_os := {
  st_setup : option exn;       (* _setup_rootfs and _mount_volumes *)
  st_popen : result Z;         (* subprocess.Popen: the pid *)
  st_started_at : Z
}.

Definition start_failed (c : t) (e : exn) : t * bool :=
  let m := metadata c in
  (with_metadata c
     {| md_name := md_name m; container_id := container_id m;
        md_image := md_image m; state := ContainerState.FAILED;
        process_id := process_id m; created_at := created_at m;
        started_at := started_at m; stopped_at := stopped_at m;
        exit_code := exit_code m; error_message := Some (exn_msg e);
        root_path := root_path m |}, false).

Definition start (os : start_os) (c : t) : t * bool :=
  match st_setup os with
  | Some e => start_failed c e
  | None =>
      match environment (config c) with
      | VDict _ =>
          match st_popen os with
          | Raise e => start_failed c e
          | Ok pid =>
              let m := metadata c in
              ({| config := config c;
                  metadata :=
                    {| md_name := md_name m; container_id := container_id m;
                       md_image := md_image m; state := ContainerState.RUNNING;
                       process_id := Some pid; created_at := created_at m;
                       started_at := Some (isoformat (st_started_at os));
                       stopped_at := stopped_at m; exit_code := exit_code m;
                       error_message := error_message m;
                       root_path := root_path m |};
                  process := Some pid;
                  monitor_task := true |}, true)
          end
      | _ => start_failed c (Exn TypeError "environment is not a mapping")
      end
  end.

(** What the operating system answers during [stop]. *)
Record stop_os := {
  so_sigterm : option exn;     (* os.killpg(os.getpgid(pid), SIGTERM) *)
  so_alive_polls : list bool;  (* one entry for each poll of the loop that
                                  finds the child alive: is the time-out
                                  exceeded at that moment? After the last
                                  entry the poll finds the child gone. *)
  so_sigkill : option exn;     (* os.killpg(os.getpgid(pid), SIGKILL) *)
  so_monitor : option exn;     (* awaiting the cancelled monitor *)
  so_exit_code : option Z;     (* the final process.poll() *)
  so_stopped_at : Z
}.

(** The wait loop of [stop]: [true] when it leaves through the forced
    kill, [false] when the child is found gone. *)
Fixpoint wait_needs_kill (alive_polls : list bool) : bool :=
  match alive_polls with
  | [] => false
  | late :: rest => if late then true else wait_needs_kill rest
  end.

Definition stopped_metadata (os : stop_os) (m : ContainerMetadata)
  : ContainerMetadata :=
  {| md_name := md_name m; container_id := container_id m;
     md_image := md_image m; state := ContainerState.EXITED;
     process_id := process_id m; created_at := created_at m;
     started_at := started_at m;
     stopped_at := Some (isoformat (so_stopped_at os));
     exit_code := so_exit_code os; error_message := error_message m;
     root_path := root_path m |}.

Definition stop (os : stop_os) (c : t) : t * bool :=
  match process c with
  | None => (c, true)
  | Some _ =>
      match so_sigterm os with
      | Some _ => (c, false)
      | None =>
          let kill_failed :=
            wait_needs_kill (so_alive_polls os)
            && bool_decide (is_Some (so_sigkill os)) in
          if kill_failed then (c, false)
          else if monitor_task c && bool_decide (is_Some (so_monitor os))
          then (c, false)
          else (with_metadata c (stopped_metadata os (metadata c)), true)
      end
  end.

End Defs.
End Container.

Module ContainerEngine.
Section Defs.
Context `{PyRuntime}.

Record t := {
  storage_dir : string;
  containers : gmap string Container.t
}.

Definition with_containers (e : t) (cs : gmap string Container.t) : t :=
  {| storage_dir := storage_dir e; containers := cs |}.

Definition not_found (container_name : string) : exn :=
  Exn ValueError ("Container " +:+ container_name +:+ " not found").

(** [create_container]; [mkdir] is what making the container's directory
    answers inside the constructor. *)
Definition create_container (mkdir : option exn) (digest12 : string) (now : Z)
    (e : t) (cfg : ContainerConfig) : t * result Container.t :=
  if bool_decide (is_Some (containers e !! name cfg)) then
    (e, Raise (Exn ValueError ("Container " +:+ name cfg +:+ " already exists")))
  else
    match Container.construct mkdir cfg (storage_dir e +:+ "/running")
            digest12 now with
    | Raise ex => (e, Raise ex)
    | Ok c => (with_containers e (<[name cfg := c]> (containers e)), Ok c)
    end.

Definition start_container (os : Container.start_os) (e : t)
    (container_name : string) : t * result bool :=
  match containers e !! container_name with
  | None => (e, Raise (not_found container_name))
  | Some c =>
      let '(c', b) := Container.start os c in
      (with_containers e (<[container_name := c']> (containers e)), Ok b)
  end.

Definition stop_container (os : Container.stop_os) (e : t)
    (container_name : string) : t * result bool :=
  match containers e !! container_name with
  | None => (e, Raise (not_found container_name))
  | Some c =>
      let '(c', b) := Container.stop os c in
      (with_containers e (<[container_name := c']> (containers e)), Ok b)
  end.

Definition get_container_info (e : t) (container_name : string)
  : option ContainerMetadata :=
  Container.metadata <$> containers e !! container_name.

(** [_build_command] *)
Definition _build_command (c : Container.t) : list string :=
  entrypoint (Container.config c) :: entrypoint_args (Container.config c).

(** [get_container] *)
Definition get_container (e : t) (container_name : string)
  : option Container.t :=
  containers e !! container_name.

(** [list_containers], in the order of the map. *)
Definition list_containers (e : t) : list ContainerMetadata :=
  map (fun kc => Container.metadata (snd kc)) (map_to_list (containers e)).

(** What the operating system answers to one [remove_container]. *)
Record remove_os := {
  rm_stop : Container.stop_os;
  rm_cleanup : option exn      (* container.cleanup(): exists() and rmtree *)
}.

(** [remove_container]: [stop] catches what it meets, and the entry is
    deleted in the innermost [finally], whatever [cleanup] raised. *)
Definition remove_container (os : remove_os) (e : t) (container_name : string)
  : t * result bool :=
  match containers e !! container_name with
  | None => (e, Raise (not_found container_name))
  | Some c =>
      let '(_, _) := Container.stop (rm_stop os) c in
      let e' := with_containers e (delete container_name (containers e)) in
      match rm_cleanup os with
      | Some ex => (e', Raise ex)
      | None => (e', Ok true)
      end
  end.

(** The loop of [cleanup_all] over the names listed at its start. *)
Fixpoint cleanup_loop (os : string -> remove_os) (names : list string) (e : t)
  : t * result unit :=
  match names with
  | [] => (e, Ok tt)
  | container_name :: rest =>
      match remove_container (os container_name) e container_name with
      | (e', Ok _) => cleanup_loop os rest e'
      | (e', Raise ex) => (e', Raise ex)
      end
  end.

Definition cleanup_all (os : string -> remove_os) (e : t) : t * result unit :=
  cleanup_loop os (map fst (map_to_list (containers e))) e.

End Defs.
End ContainerEngine.

(* ===================================================================== *)
(** * Stateful code that may raise *)
(* ===================================================================== *)

(** A computation over the objects [S] that returns an [A] or raises. *)
Definition M (S A : Type) : Type := S -> S * result A.

Global Instance M_ret {S} : MRet (M S) := fun A a s => (s, Ok a).

Global Instance M_bind {S} : MBind (M S) := fun A B f m s =>
  match m s with
  | (s', Ok a) => f a s'
  | (s', Raise e) => (s', Raise e)
  end.

Definition raise {S A} (e : exn) : M S A := fun s => (s, Raise e).

(** [try: m except Exception as e: h e] *)
Definition try_except {S A} (m : M S A) (h : exn -> M S A) : M S A := fun s =>
  match m s with
  | (s', Ok a) => (s', Ok a)
  | (s', Raise e) => h e s'
  end.

Definition lift_result {S A} (r : result A) : M S A := fun s => (s, r).

Definition gets {S A} (f : S -> A) : M S A := fun s => (s, Ok (f s)).

Definition modify {S} (f : S -> S) : M S unit := fun s => (f s, Ok tt).

(** Raise when the operating system reports a failure. *)
Definition os_call {S} (failure : option exn) : M S unit :=
  match failure with
  | Some e => raise e
  | None => mret tt
  end.

(* ===================================================================== *)
(** * app/adaptive_executor.py *)
(* ===================================================================== *)

Record Settings := {
  BOTS_DIRECTORY : string;
  CONTAINER_ISOLATION_LEVEL : string
}.

(** [os.path.isabs] and [os.path.join] on POSIX paths (the second argument
    of the join is relative where the code calls it). *)
Definition isabs (p : string) : bool := PyStr.startswith p "/".

Definition path_join (a b : string) : string :=
  if isabs b then b
  else if PyStr.is_empty a || PyStr.endswith a "/" then a +:+ b
  else a +:+ "/" +:+ b.

Module AdaptiveExecutor.

(** The executor's tracking maps; a process handle is its pid. *)
Record t := {
  running_processes : gmap string Z;
  running_psutil : gmap string Z;
  process_creation_time : gmap string Z;
  running_containers : gmap string string
}.

(** The executor together with the registry it was built with. *)
Record system := {
  executor : t;
  registry : SecureRegistry.t
}.

(** A method at work: the system and the method's local [bot] dict. *)
Record frame := {
  sys : system;
  bot : pydict
}.

(** What the injected container engine answers. *)
Record container_handle := {
  h_container_id : value;      (* container.container_id *)
  h_process_id : value         (* container.metadata.process_id after the start *)
}.

Inductive start_outcome :=
| StartReturns (success : bool)
| StartRaises (e : exn)
| StartTimesOut.               (* still pending when the 10 s are over *)

Record container_script := {
  co_create : ContainerConfig -> result container_handle;
  co_start : string -> start_outcome;
  co_started_at : Z;
  co_updated_at : Z;
  co_save : Utils.io_outcomes
}.

Record local_script := {
  lo_popen : result Z;         (* subprocess.Popen(["python3", script_path], ...) *)
  lo_psutil : option exn;      (* psutil.Process(process.pid) *)
  lo_created : Z;
  lo_started_at : Z;
  lo_updated_at : Z;
  lo_save : Utils.io_outcomes
}.

Record run_script := {
  ru_exists : string -> bool;  (* os.path.exists *)
  ru_deploying_at : Z;
  ru_save_deploying : Utils.io_outcomes;
  ru_container : container_script;
  ru_save_fallback : Utils.io_outcomes;
  ru_local : local_script;
  ru_both_failed_at : Z;
  ru_save_both_failed : Utils.io_outcomes;
  ru_save_error : Utils.io_outcomes
}.

Section Defs.
Context `{PyRuntime}.

(** ** Actions on a frame *)

(** [bot[k] = v] *)
Definition set_bot (k : string) (v : value) : M frame unit :=
  modify (fun f => {| sys := sys f; bot := Dict.set k v (bot f) |}).

(** [bot.get(k)] *)
Definition get_bot (k : string) : M frame value :=
  gets (fun f => get_or_none k (bot f)).

Definition modify_executor (g : t -> t) : M frame unit :=
  modify (fun f =>
    {| sys := {| executor := g (executor (sys f)); registry := registry (sys f) |};
       bot := bot f |}).

(** [self.registry.update_bot(bot)] *)
Definition registry_update_bot (o : Utils.io_outcomes) : M frame pydict :=
  fun f =>
    let '(r', res) := SecureRegistry.update_bot o (registry (sys f)) (bot f) in
    ({| sys := {| executor := executor (sys f); registry := r' |}; bot := bot f |},
     res).

(** [bot["error_count"] = int(bot.get("error_count") or 0) + 1] *)
Definition bump_error_count : M frame unit :=
  c ← get_bot "error_count";
  n ← lift_result (py_int (py_or c (VInt 0)));
  set_bot "error_count" (VInt (n + 1)).

(** [str(bot.get("id"))] *)
Definition bot_id_text : M frame string :=
  gets (fun f => py_str (get_or_none "id" (bot f))).

(** ** [_run_bot_locally] *)

Definition _run_bot_locally (s : local_script) (script_path : string)
  : M frame bool :=
  (* bot_env = {**os.environ, **((bot.get("deployment_config") or {})
                                   .get("environment_vars") or {})} *)
  dc ← get_bot "deployment_config";
  ev ← lift_result (get_in dc "environment_vars");
  _ ← match py_or ev (VDict []) with
      | VDict _ => mret tt
      | _ => raise (Exn TypeError "environment_vars is not a mapping")
      end;
  pid ← lift_result (lo_popen s);
  bot_id ← bot_id_text;
  _ ← modify_executor (fun e =>
        {| running_processes := <[bot_id := pid]> (running_processes e);
           running_psutil := running_psutil e;
           process_creation_time := process_creation_time e;
           running_containers := running_containers e |});
  _ ← os_call (lo_psutil s);
  _ ← modify_executor (fun e =>
        {| running_processes := running_processes e;
           running_psutil := <[bot_id := pid]> (running_psutil e);
           process_creation_time :=
             <[bot_id := lo_created s]> (process_creation_time e);
           running_containers := running_containers e |});
  _ ← set_bot "status" (_status_value RUNNING);
  _ ← set_bot "process_id" (VInt pid);
  _ ← set_bot "started_at" (VStr (isoformat (lo_started_at s)));
  _ ← set_bot "updated_at" (VStr (isoformat (lo_updated_at s)));
  _ ← registry_update_bot (lo_save s);
  mret true.

(** ** [_run_bot_in_container] *)

(** [_parse_mem_limit_mb(config.get("memory_limit"))]: the argument, or
    the empty text when it is false, must
    have a [strip] method. *)
Definition mem_limit_of (v : value) : result Z :=
  match py_or v (VStr EmptyString) with
  | VStr s => Ok (_parse_mem_limit_mb s)
  | _ => Raise (Exn AttributeError "object has no attribute 'strip'")
  end.

Definition isolation_of (level : string) : IsolationType :=
  let raw := PyStr.lower (PyStr.strip
               (if PyStr.is_empty level then "standard" else level)) in
  if String.eqb raw "minimal" then MINIMAL
  else if String.eqb raw "strict" then STRICT
  else STANDARD.

(** [(v or {}).get(k, False)] *)
Definition get_in_or_false (v : value) (k : string) : result value :=
  match py_or v (VDict []) with
  | VDict d => Ok (default (VBool false) (Dict.get k d))
  | _ => Raise (Exn AttributeError "object has no attribute 'get'")
  end.

Definition container_name_of (bot_id : string) : string := "bot-" +:+ bot_id.

(** The [ContainerConfig(...)] the executor builds; the arguments are
    evaluated in the order of the call. *)
Definition container_config_of (cfg : Settings) (script_path : string)
    (b : pydict) : result ContainerConfig :=
  let dc := get_or_none "deployment_config" b in
  let bot_id := py_str (get_or_none "id" b) in
  match get_in dc "environment_vars" with
  | Raise e => Raise e
  | Ok env =>
      match get_in dc "memory_limit" with
      | Raise e => Raise e
      | Ok limit =>
          match mem_limit_of limit with
          | Raise e => Raise e
          | Ok mem =>
              match get_in dc "extra_config" with
              | Raise e => Raise e
              | Ok extra =>
                  match get_in_or_false extra "auto_restart" with
                  | Raise e => Raise e
                  | Ok restart =>
                      Ok {| name := container_name_of bot_id;
                            image := script_path;
                            entrypoint := "python3";
                            entrypoint_args := [script_path];
                            environment := env;
                            resource_limits :=
                              {| cpu_limit_percent := 100;
                                 memory_limit_mb := mem;
                                 disk_io_limit_mbps := 100;
                                 max_processes := 256;
                                 max_open_files := 1024 |};
                            isolation_level :=
                              isolation_of (CONTAINER_ISOLATION_LEVEL cfg);
                            labels :=
                              [("bot_id", bot_id);
                               ("bot_name", py_str (get_or_none "name" b))];
                            auto_restart := restart |}
                  end
              end
          end
      end
  end.

Definition container_run_failed (e : exn) : exn :=
  Exn ContainerError ("Failed to run bot in container: " +:+ exn_msg e).

Definition _run_bot_in_container (cfg : Settings) (s : container_script)
    (script_path : string) : M frame bool :=
  try_except
    (b ← gets bot;
     config ← lift_result (container_config_of cfg script_path b);
     container ← lift_result (co_create s config);
     bot_id ← bot_id_text;
     let container_name := container_name_of bot_id in
     success ←
       match co_start s container_name with
       | StartReturns b => mret b
       | StartRaises e => raise e
       | StartTimesOut =>
           (* stop_container and remove_container are tried, whatever they
              raise is dropped *)
           raise (Exn ContainerError
                    ("Timed out starting container for bot " +:+ bot_id +:+ ": "))
       end;
     if success : bool then
       _ ← modify_executor (fun e =>
             {| running_processes := running_processes e;
                running_psutil := running_psutil e;
                process_creation_time := process_creation_time e;
                running_containers :=
                  <[bot_id := container_name]> (running_containers e) |});
       _ ← set_bot "status" (_status_value RUNNING);
       _ ← set_bot "process_id" (h_process_id container);
       _ ← set_bot "k8s_pod_name" (h_container_id container);
       _ ← set_bot "started_at" (VStr (isoformat (co_started_at s)));
       _ ← set_bot "updated_at" (VStr (isoformat (co_updated_at s)));
       _ ← registry_update_bot (co_save s);
       mret true
     else
       (* remove_container is tried, whatever it raises is dropped *)
       raise (Exn ContainerError
                ("Failed to start container for bot " +:+ bot_id)))
    (fun e => raise (container_run_failed e)).

(** ** [run_bot] *)

(** The three outer handlers: they differ in the status only. *)
Definition on_run_error (o : Utils.io_outcomes) (e : exn) : M frame bool :=
  _ ← set_bot "status"
        (_status_value (if decide (exn_cls e = FileNotFoundError)
                        then FAILED else ERROR));
  _ ← set_bot "last_error" (VStr (exn_msg e));
  _ ← bump_error_count;
  _ ← registry_update_bot o;
  raise e.

Definition is_container_mode (deployment_raw : string) : bool :=
  String.eqb deployment_raw "custom_container"
  || String.eqb deployment_raw "container".

(** [str((bot.get("deployment_config") or {}).get("deployment_type")
         or "local_process").lower()] *)
Definition deployment_raw_of (b : pydict) : result string :=
  match get_in (get_or_none "deployment_config" b) "deployment_type" with
  | Ok v => Ok (PyStr.lower (py_str (py_or v (VStr "local_process"))))
  | Raise e => Raise e
  end.

Definition container_fallback_note (e : exn) : string :=
  "Container failed; fallback to local: " +:+ exn_msg e.

Definition both_failed_note (e local_e : exn) : string :=
  "Container failed (" +:+ exn_msg e +:+ "); local fallback failed ("
    +:+ exn_msg local_e +:+ ")".

(** The fallback taken when the container path raised [e]. *)
Definition local_fallback (s : run_script) (script_path : string) (e : exn)
  : M frame bool :=
  _ ← set_bot "last_error" (VStr (container_fallback_note e));
  _ ← bump_error_count;
  _ ← registry_update_bot (ru_save_fallback s);
  try_except
    (_run_bot_locally (ru_local s) script_path)
    (fun local_e =>
       _ ← set_bot "status" (_status_value ERROR);
       _ ← set_bot "last_error" (VStr (both_failed_note e local_e));
       _ ← bump_error_count;
       _ ← set_bot "updated_at" (VStr (isoformat (ru_both_failed_at s)));
       _ ← registry_update_bot (ru_save_both_failed s);
       raise local_e).

(** The script path of line 78, for a blueprint that is a text. *)
Definition script_path_of (cfg : Settings) (blueprint : string) : string :=
  if isabs blueprint then blueprint
  else path_join (BOTS_DIRECTORY cfg) blueprint.

Definition run_bot_body (cfg : Settings) (s : run_script) : M frame bool :=
  blueprint ← get_bot "blueprint";
  if negb (truthy blueprint) then
    raise (Exn FileNotFoundError "Bot blueprint not set")
  else
    match blueprint with
    | VStr bp =>
        let script_path := script_path_of cfg bp in
        if negb (ru_exists s script_path) then
          raise (Exn FileNotFoundError ("Bot script not found: " +:+ script_path))
        else
          _ ← set_bot "status" (_status_value DEPLOYING);
          _ ← set_bot "updated_at" (VStr (isoformat (ru_deploying_at s)));
          _ ← registry_update_bot (ru_save_deploying s);
          b ← gets bot;
          deployment_raw ← lift_result (deployment_raw_of b);
          if is_container_mode deployment_raw then
            try_except
              (_run_bot_in_container cfg (ru_container s) script_path)
              (fun e =>
                 if decide (exn_cls e = ContainerError)
                 then local_fallback s script_path e
                 else raise e)
          else
            _run_bot_locally (ru_local s) script_path
    | _ => raise (Exn TypeError "blueprint is not a path")
    end.

Definition run_bot (cfg : Settings) (s : run_script) (bot_in : pydict)
  : M system bool := fun sy =>
  let '(f, r) :=
    try_except (run_bot_body cfg s) (on_run_error (ru_save_error s))
      {| sys := sy; bot := bot_in |} in
  (sys f, r).

(** ** [stop_bot] *)

Record stop_script := {
  sp_stop_container : result bool;   (* engine.stop_container, first call *)
  sp_stop_again : result bool;       (* the retry after 0.25 s *)
  sp_stopped_at : Z;
  sp_log_timestamp : string;         (* get_timestamp() *)
  sp_save : Utils.io_outcomes;
  sp_killpg_term : option exn;       (* os.killpg(os.getpgid(pid), SIGTERM) *)
  sp_terminate : option exn;         (* process.terminate() *)
  sp_wait : option exn;              (* wait_for(to_thread(process.wait, 5), 6) *)
  sp_killpg_kill : option exn;       (* os.killpg(os.getpgid(pid), SIGKILL) *)
  sp_kill : option exn;              (* process.kill() *)
  sp_wait_again : option exn;        (* process.wait() *)
  sp_save_error : Utils.io_outcomes
}.

(** [stop_bot] at work: the system and its local [bot], which is [None]
    when the registry does not know the id. *)
Record stop_frame := {
  sf_sys : system;
  sf_bot : option pydict
}.

Definition set_stop_bot (k : string) (v : value) : M stop_frame unit :=
  modify (fun f => {| sf_sys := sf_sys f; sf_bot := Dict.set k v <$> sf_bot f |}).

Definition stop_update_bot (o : Utils.io_outcomes) (b : pydict)
  : M stop_frame pydict := fun f =>
  let '(r', res) := SecureRegistry.update_bot o (registry (sf_sys f)) b in
  ({| sf_sys := {| executor := executor (sf_sys f); registry := r' |};
      sf_bot := sf_bot f |}, res).

Definition stopped_entry (timestamp reason : string) : value :=
  VDict [("timestamp", VStr timestamp); ("event", VStr reason);
         ("status", VStr "stopped")].

(** [perf = bot.get("performance") or {}; logs = perf.get("logs") or [];
     logs.append(entry); perf["logs"] = logs]: the new [perf]. *)
Definition append_log (b : pydict) (entry : value) : result value :=
  match py_or (get_or_none "performance" b) (VDict []) with
  | VDict perf =>
      match py_or (get_or_none "logs" perf) (VList []) with
      | VList logs => Ok (VDict (Dict.set "logs" (VList (logs ++ [entry])) perf))
      | _ => Raise (Exn AttributeError "object has no attribute 'append'")
      end
  | _ => Raise (Exn AttributeError "object has no attribute 'get'")
  end.

(** The block under [if bot:] of both stopping paths. *)
Definition record_stopped (s : stop_script) (reason : string)
  : M stop_frame unit :=
  b0 ← gets sf_bot;
  match b0 with
  | None => mret tt
  | Some b0 =>
      if truthy (VDict b0) then
        _ ← set_stop_bot "status" (_status_value STOPPED);
        _ ← set_stop_bot "stopped_at" (VStr (isoformat (sp_stopped_at s)));
        perf ← lift_result
                 (append_log b0 (stopped_entry (sp_log_timestamp s) reason));
        _ ← set_stop_bot "performance" perf;
        b ← gets sf_bot;
        _ ← stop_update_bot (sp_save s) (default [] b);
        mret tt
      else mret tt
  end.

(** [x or y] after an [except Exception] around [x]. *)
Definition or_else {S} (failure fallback : option exn) : M S unit :=
  match failure with
  | None => mret tt
  | Some _ => os_call fallback
  end.

Definition stop_local_process (s : stop_script) (reason : string)
  : M stop_frame bool :=
  try_except
    (_ ← or_else (sp_killpg_term s) (sp_terminate s);
     _ ← match sp_wait s with
         | None => mret tt
         | Some e =>
             if decide (exn_cls e = TimeoutError) then
               _ ← or_else (sp_killpg_kill s) (sp_kill s);
               os_call (sp_wait_again s)
             else raise e
         end;
     _ ← record_stopped s reason;
     mret true)
    (fun e =>
       b ← gets sf_bot;
       match b with
       | Some b0 =>
           if truthy (VDict b0) then
             _ ← set_stop_bot "status" (_status_value ERROR);
             _ ← set_stop_bot "last_error" (VStr ("Stop failed: " +:+ exn_msg e));
             b' ← gets sf_bot;
             _ ← stop_update_bot (sp_save_error s) (default [] b');
             mret false
           else mret false
       | None => mret false
       end).

Definition stop_tracked_container (s : stop_script) (reason : string)
  : M stop_frame bool :=
  try_except
    (ok ← lift_result (sp_stop_container s);
     ok ← (if ok : bool then mret ok else lift_result (sp_stop_again s));
     (* remove_container is tried, whatever it raises is dropped *)
     _ ← record_stopped s reason;
     mret ok)
    (fun _ => mret false).

(** The four [pop(bot_id, None)] at the entry of [stop_bot]. *)
Definition untrack (e : t) (bot_id : string) : t :=
  {| running_processes := delete bot_id (running_processes e);
     running_psutil := delete bot_id (running_psutil e);
     process_creation_time := delete bot_id (process_creation_time e);
     running_containers := delete bot_id (running_containers e) |}.

Definition stop_bot (s : stop_script) (bot_id reason : string)
  : M system bool := fun sy =>
  let container_name := running_containers (executor sy) !! bot_id in
  let process := running_processes (executor sy) !! bot_id in
  let sy1 := {| executor := untrack (executor sy) bot_id;
                registry := registry sy |} in
  let f := {| sf_sys := sy1;
              sf_bot := SecureRegistry.get_bot_by_id (registry sy1) bot_id |} in
  if truthy (from_option VStr VNone container_name) then
    let '(f', r) := stop_tracked_container s reason f in (sf_sys f', r)
  else
    match process with
    | None => (sy1, Ok false)
    | Some _ =>
        let '(f', r) := stop_local_process s reason f in (sf_sys f', r)
    end.

(** [is_bot_running] *)
Definition is_bot_running (e : t) (bot_id : string) : bool :=
  bool_decide (is_Some (running_processes e !! bot_id))
  || bool_decide (is_Some (running_containers e !! bot_id)).

(** ** [restart_bot], [cleanup_all_bots] and [get_all_running_bots] *)

(** [get_all_running_bots]: the ids of both maps, each once, in the order
    the set gives them. *)
Definition get_all_running_bots (e : t) : list string :=
  elements (dom (running_processes e) ∪ dom (running_containers e) : gset string).

Record restart_script := {
  rs_stop : stop_script;
  rs_run : run_script;
  rs_save_failed : Utils.io_outcomes
}.

(** [registry.update_bot(b)] from a method without a frame. *)
Definition system_update_bot (o : Utils.io_outcomes) (b : pydict)
  : M system pydict := fun sy =>
  let '(r', res) := SecureRegistry.update_bot o (registry sy) b in
  ({| executor := executor sy; registry := r' |}, res).

(** [stop_bot] once more, keeping the local [bot] of its frame at the
    exit. *)
Definition stop_bot_frame (s : stop_script) (bot_id reason : string)
    (sy : system) : stop_frame * result bool :=
  let container_name := running_containers (executor sy) !! bot_id in
  let process := running_processes (executor sy) !! bot_id in
  let sy1 := {| executor := untrack (executor sy) bot_id;
                registry := registry sy |} in
  let f := {| sf_sys := sy1;
              sf_bot := SecureRegistry.get_bot_by_id (registry sy1) bot_id |} in
  if truthy (from_option VStr VNone container_name) then
    stop_tracked_container s reason f
  else
    match process with
    | None => (f, Ok false)
    | Some _ => stop_local_process s reason f
    end.

(** The record a caller fetched before [stop_bot], as it reads after it.
    [get_bot_by_id] copies the top level of the entry only, so the
    caller's copy and the copy [stop_bot] fetches hold one and the same
    [performance] object whenever [bot.get("performance") or {}] picks the
    stored one.  [logs.append(...)] and [perf["logs"] = logs] change that
    object in place: the caller's copy then shows under "performance" what
    [stop_bot]'s own copy shows there at its exit.  What [stop_bot] assigns
    to keys of its copy stays with that copy; a [performance] that is
    missing or falsy is replaced by a fresh dict there, which the caller
    never sees. *)
Definition seen_after_stop (b : pydict) (stopped : option pydict) : pydict :=
  match stopped with
  | Some sb =>
      if truthy (get_or_none "performance" b)
      then Dict.set "performance" (get_or_none "performance" sb) b
      else b
  | None => b
  end.

(** [restart_bot]: [bot] is fetched before the stop and shares its
    [performance] with the record the stop works on; [run_bot] copies what
    it is given, so the handler marks the record as the stop left it. *)
Definition restart_bot (cfg : Settings) (s : restart_script)
    (bot_id reason : string) : M system bool := fun sy =>
  match SecureRegistry.get_bot_by_id (registry sy) bot_id with
  | None => (sy, Ok false)
  | Some b =>
      let '(f, stopped) := stop_bot_frame (rs_stop s) bot_id reason sy in
      let bot := seen_after_stop b (sf_bot f) in
      try_except
        (_ ← lift_result stopped;
         run_bot cfg (rs_run s) bot)
        (fun e =>
           let b1 := Dict.set "status" (_status_value ERROR) bot in
           let b2 := Dict.set "last_error"
                       (VStr ("Restart failed: " +:+ exn_msg e)) b1 in
           _ ← system_update_bot (rs_save_failed s) b2;
           mret false) (sf_sys f)
  end.

(** The loop of [cleanup_all_bots] over the ids collected at its start. *)
Fixpoint cleanup_bots_loop (scripts : string -> stop_script)
    (ids : list string) (count : Z) : M system Z :=
  match ids with
  | [] => mret count
  | bot_id :: rest =>
      stopped ← stop_bot (scripts bot_id) bot_id "Application shutdown";
      cleanup_bots_loop scripts rest (if stopped : bool then count + 1 else count)
  end.

Definition cleanup_all_bots (scripts : string -> stop_script) : M system Z :=
  ids ← gets (fun sy => get_all_running_bots (executor sy));
  cleanup_bots_loop scripts ids 0.

End Defs.
End AdaptiveExecutor.

(* ===================================================================== *)
(** * app/supervisor.py *)
(* ===================================================================== *)

Module Incident.
Record t := {
  incident_id : string;
  bot_id : string;
  bot_name : string;
  kind : string;
  message : string;
  created_at : string;
  data : pydict
}.
End Incident.

Module IncidentLog.

(** [asdict(incident)] *)
Definition asdict (i : Incident.t) : pydict :=
  [("incident_id", VStr (Incident.incident_id i));
   ("bot_id", VStr (Incident.bot_id i));
   ("bot_name", VStr (Incident.bot_name i));
   ("kind", VStr (Incident.kind i));
   ("message", VStr (Incident.message i));
   ("created_at", VStr (Incident.created_at i));
   ("data", VDict (Incident.data i))].

(** [append]: one more line, unless the directory, the file or the
    serialization fails. *)
Definition append (failure : option exn) (i : Incident.t)
    (log : list Incident.t) : list Incident.t * result unit :=
  match failure with
  | Some e => (log, Raise e)
  | None =>
      if json_serializable (VDict (asdict i)) then (log ++ [i], Ok tt)
      else (log, Raise (Exn TypeError "Object is not JSON serializable"))
  end.

(** [tail] of a log whose lines [append] wrote: the last [limit] lines,
    each read back as the dict it was written from. *)
Definition tail (limit : Z) (log : list Incident.t) : list pydict :=
  let limit_n := Z.max 0 limit in
  if limit_n <=? 0 then []
  else map asdict (drop (length log - Z.to_nat limit_n) log).

End IncidentLog.

Module RestartState.
Record t := {
  failures : Z;
  last_attempt_at : option Z;
  next_allowed_at : option Z
}.

(** [RestartState()] *)
Definition fresh : t :=
  {| failures := 0; last_attempt_at := None; next_allowed_at := None |}.
End RestartState.

(** [timedelta(seconds=n)] in microseconds. *)
Definition timedelta_seconds (n : Z) : Z := n * 1000000.

Module BotSupervisor.
Import AdaptiveExecutor.

(** The supervisor's own state; [incidents] holds the lines of the
    incident log file, oldest first. *)
Record t := {
  interval_sec : Z;
  max_failures : Z;
  _restart_state : gmap string RestartState.t;
  incidents : list Incident.t
}.

(** The supervisor with the executor and registry it was built with. *)
Record world := {
  sup : t;
  system_ : system
}.

(** [BotSupervisor.__init__] on an empty incident log. *)
Definition init (interval_sec max_failures : Z) : t :=
  {| interval_sec := Z.max 1 interval_sec;
     max_failures := Z.max 1 max_failures;
     _restart_state := ∅;
     incidents := [] |}.

(** What the clock and the log file answer to one [_record]. *)
Record record_script := {
  rc_epoch : Z;                (* int(utcnow().timestamp()) *)
  rc_created_at : Z;           (* the default of Incident.created_at *)
  rc_append : option exn       (* opening or writing the log file *)
}.

Record heal_script := {
  he_quarantine_at : Z;
  he_save_quarantine : Utils.io_outcomes;
  he_rec_quarantined : record_script;
  he_rec_unhealthy : record_script;
  he_stop : stop_script;
  he_run : run_script;
  he_rec_restart : record_script;
  he_rec_restart_failed : record_script;
  he_fallback_at : Z;
  he_save_fallback : Utils.io_outcomes;
  he_run_fallback : run_script;
  he_rec_fallback : record_script;
  he_rec_fallback_failed : record_script
}.

Record health_script := {
  hs_meta : option ContainerState.t;  (* state in get_container_info(name) *)
  hs_process_alive : bool             (* psutil: exists, runs, is no zombie *)
}.

Record tick_script := {
  tk_health : health_script;
  tk_heal : heal_script
}.

Section Defs.
Context `{PyRuntime}.
Variable cfg : Settings.

Definition with_sup (w : world) (s : t) : world :=
  {| sup := s; system_ := system_ w |}.

(** Run an executor method on the supervisor's system. *)
Definition on_system {A} (m : M system A) : M world A := fun w =>
  let '(sy, r) := m (system_ w) in ({| sup := sup w; system_ := sy |}, r).

(** [self.registry.update_bot(bot)] *)
Definition registry_update (o : Utils.io_outcomes) (b : pydict)
  : M world pydict :=
  on_system (fun sy =>
    let '(r', res) := SecureRegistry.update_bot o (registry sy) b in
    ({| executor := executor sy; registry := r' |}, res)).

(** [_get_restart_state]: the entry is created on first use. *)
Definition _get_restart_state (bot_id : string) : M world RestartState.t :=
  fun w =>
    match _restart_state (sup w) !! bot_id with
    | Some st => (w, Ok st)
    | None =>
        (with_sup w
           {| interval_sec := interval_sec (sup w);
              max_failures := max_failures (sup w);
              _restart_state :=
                <[bot_id := RestartState.fresh]> (_restart_state (sup w));
              incidents := incidents (sup w) |},
         Ok RestartState.fresh)
    end.

(** Assignment to the fields of the shared [RestartState] object. *)
Definition set_restart_state (bot_id : string) (st : RestartState.t)
  : M world unit :=
  modify (fun w =>
    with_sup w
      {| interval_sec := interval_sec (sup w);
         max_failures := max_failures (sup w);
         _restart_state := <[bot_id := st]> (_restart_state (sup w));
         incidents := incidents (sup w) |}).

(** [_record]: a failure to write the line is logged and dropped. *)
Definition _record (rs : record_script) (b : pydict) (kind message : string)
    (data : pydict) : M world unit :=
  let incident :=
    {| Incident.incident_id :=
         "inc-" +:+ py_str (get_or_none "id" b) +:+ "-" +:+ pretty (rc_epoch rs);
       Incident.bot_id := py_str (get_or_none "id" b);
       Incident.bot_name := py_str (get_or_none "name" b);
       Incident.kind := kind;
       Incident.message := message;
       Incident.created_at := isoformat (rc_created_at rs);
       Incident.data := data |} in
  if bool_decide (is_Some (rc_append rs)) || negb (json_serializable (VDict data))
  then mret tt
  else
    modify (fun w =>
      with_sup w
        {| interval_sec := interval_sec (sup w);
           max_failures := max_failures (sup w);
           _restart_state := _restart_state (sup w);
           incidents := incidents (sup w) ++ [incident] |}).

(** [min(60, 2 ** failures)] seconds after [now]. *)
Definition backoff_deadline (now failures : Z) : Z :=
  now + timedelta_seconds (Z.min 60 (2 ^ failures)).

(** [(bot.get("deployment_config") or {}).get("deployment_type")] *)
Definition mode_of (b : pydict) : result value :=
  get_in (get_or_none "deployment_config" b) "deployment_type".

Definition quarantine_message (failures : Z) : string :=
  "Supervisor quarantined bot after " +:+ pretty failures
    +:+ " failed heal attempts".

(** The gate of [_handle_unhealthy]. *)
Definition gate_closed (st : RestartState.t) (now : Z) : bool :=
  match RestartState.next_allowed_at st with
  | Some deadline => now <? deadline
  | None => false
  end.

Definition allow_from (st : RestartState.t) (deadline : Z) : RestartState.t :=
  {| RestartState.failures := RestartState.failures st;
     RestartState.last_attempt_at := RestartState.last_attempt_at st;
     RestartState.next_allowed_at := Some deadline |}.

(** Step 3 of the strategy and the final assignment. *)
Definition fallback_step (s : heal_script) (b : pydict) (now : Z)
    (bot_id : string) (st : RestartState.t) : M world unit :=
  mode ← lift_result (mode_of b);
  let deployment_type := PyStr.lower (py_str (py_or mode (VStr EmptyString))) in
  let deadline := backoff_deadline now (RestartState.failures st) in
  done ←
    (if is_container_mode deployment_type then
       try_except
         (let dc := match py_or (get_or_none "deployment_config" b) (VDict []) with
                    | VDict d => d
                    | _ => []
                    end in
          let b1 := Dict.set "deployment_config"
                      (VDict (Dict.set "deployment_type" (VStr "local_process") dc)) b in
          let b2 := Dict.set "updated_at" (VStr (isoformat (he_fallback_at s))) b1 in
          _ ← registry_update (he_save_fallback s) b2;
          ok ← on_system (run_bot cfg (he_run_fallback s) b2);
          if ok : bool then
            _ ← set_restart_state bot_id (allow_from st deadline);
            _ ← _record (he_rec_fallback s) b2 "fallback"
                  "Fell back to local process and restarted successfully" [];
            mret true
          else mret false)
         (fun e =>
            (* the handler reads [bot], which the try block may have
               rebound fields of before it raised; only id and name are
               read *)
            _ ← _record (he_rec_fallback_failed s) b "fallback_failed"
                  ("Fallback restart failed: " +:+ exn_msg e) [];
            mret false)
     else mret false);
  if done : bool then mret tt
  else set_restart_state bot_id (allow_from st deadline).

Definition _handle_unhealthy (s : heal_script) (b : pydict) (now : Z)
  : M world unit :=
  let bot_id := py_str (get_or_none "id" b) in
  st ← _get_restart_state bot_id;
  if gate_closed st now then mret tt
  else
    let st1 := {| RestartState.failures := RestartState.failures st + 1;
                  RestartState.last_attempt_at := Some now;
                  RestartState.next_allowed_at := RestartState.next_allowed_at st |} in
    let n := RestartState.failures st1 in
    _ ← set_restart_state bot_id st1;
    limit ← gets (fun w => max_failures (sup w));
    if limit <? n then
      let b1 := Dict.set "status" (_status_value ERROR) b in
      let b2 := Dict.set "last_error" (VStr (quarantine_message n)) b1 in
      let b3 := Dict.set "updated_at" (VStr (isoformat (he_quarantine_at s))) b2 in
      _ ← registry_update (he_save_quarantine s) b3;
      _record (he_rec_quarantined s) b3 "quarantined"
        (py_str (get_or_none "last_error" b3)) [("failures", VInt n)]
    else
      _ ← _record (he_rec_unhealthy s) b "unhealthy"
            "Bot unhealthy; attempting self-heal" [("failures", VInt n)];
      _ ← try_except
            (_ ← on_system (stop_bot (he_stop s) bot_id "Supervisor self-heal");
             mret tt)
            (fun _ => mret tt);
      restarted ←
        try_except
          (ok ← on_system (run_bot cfg (he_run s) b);
           if ok : bool then
             _ ← set_restart_state bot_id
                   (allow_from st1 (backoff_deadline now n));
             mode ← lift_result (mode_of b);
             _ ← _record (he_rec_restart s) b "restart"
                   "Restarted bot successfully" [("mode", mode)];
             mret true
           else mret false)
          (fun e =>
             mode ← lift_result (mode_of b);
             _ ← _record (he_rec_restart_failed s) b "restart_failed"
                   ("Restart failed: " +:+ exn_msg e) [("mode", mode)];
             mret false);
      if restarted : bool then mret tt
      else fallback_step s b now bot_id st1.

(** [_is_bot_healthy] *)
Definition _is_bot_healthy (hs : health_script) (b : pydict) : M world bool :=
  let bot_id := py_str (get_or_none "id" b) in
  ex ← gets (fun w => executor (system_ w));
  match running_containers ex !! bot_id with
  | Some _ =>
      mret (match hs_meta hs with
            | Some st => bool_decide (st = ContainerState.RUNNING)
            | None => false
            end)
  | None =>
      let pid := get_or_none "process_id" b in
      if negb (truthy pid) then mret false
      else
        match pid with
        | VInt _ | VBool _ => mret (hs_process_alive hs)
        | _ => raise (Exn TypeError "pid must be an integer")
        end
  end.

(** The status test of [tick]: only bots expected to run are supervised. *)
Definition supervised (b : pydict) : bool :=
  let status_val := py_str (get_or_none "status" b) in
  String.eqb status_val (status_value RUNNING)
  || String.eqb status_val (status_value DEPLOYING).

(** The loop of [tick] over the records fetched at its start; the i-th
    record is handled with the i-th script. *)
Fixpoint tick_loop (now : Z) (scripts : nat -> tick_script) (i : nat)
    (bots : list pydict) : M world unit :=
  match bots with
  | [] => mret tt
  | b :: rest =>
      _ ← (if supervised b then
             healthy ← _is_bot_healthy (tk_health (scripts i)) b;
             if healthy : bool then mret tt
             else _handle_unhealthy (tk_heal (scripts i)) b now
           else mret tt);
      tick_loop now scripts (S i) rest
  end.

Definition tick (now : Z) (scripts : nat -> tick_script) : M world unit :=
  bots ← gets (fun w => SecureRegistry.get_all_bots (registry (system_ w)));
  tick_loop now scripts 0 bots.

End Defs.
End BotSupervisor.

(* ===================================================================== *)
(** * Vocabulary of the properties *)
(* ===================================================================== *)

(** A text made of decimal digits only. *)
Fixpoint all_digits (s : string) : bool :=
  match s with
  | EmptyString => true
  | String c s' => PyStr.isdigit c && all_digits s'
  end.


(** A record whose normal form [json.dump] accepts. *)
Definition storable `{PyRuntime} (b : pydict) : Prop :=
  json_serializable (VDict (_normalize_for_json b)) = true.

(** A cache all of whose records [json.dump] accepts. *)
Definition cache_ok (c : gmap string pydict) : Prop :=
  map_Forall (fun _ b => json_serializable (VDict b) = true) c.

(** [r'] is [r] with every top-level datetime replaced by its ISO text;
    keys and their order are kept. *)
Definition equal_modulo_datetimes `{PyRuntime} (r r' : pydict) : Prop :=
  Forall2 (fun kv kv' =>
             fst kv' = fst kv /\
             snd kv' = match snd kv with
                       | VDatetime t => VStr (isoformat t)
                       | v => v
                       end) r r'.

(** The registry after a successful [update_bot] or [register_bot] of [b]
    answered by [o]: the normal form is in the cache under the record's key,
    the registry file holds the new document, the temporary file is gone,
    and the journal has one more entry. *)
Definition saved `{PyRuntime} (o : Utils.io_outcomes) (r : SecureRegistry.t)
    (b : pydict) : SecureRegistry.t :=
  let r1 := SecureRegistry.with_cache r
              (<[bot_key b := _normalize_for_json b]> (SecureRegistry._cache r)) in
  let doc := SecureRegistry.registry_document o r1 in
  match Utils.io_mktemp o with
  | Ok tmp_path =>
      {| SecureRegistry.file := SecureRegistry.file r;
         SecureRegistry._cache := SecureRegistry._cache r1;
         SecureRegistry.fs :=
           {| Utils.files :=
                <[SecureRegistry.file r := Utils.Document doc]>
                  (delete tmp_path
                     (<[tmp_path := Utils.Document doc]>
                        (Utils.files (SecureRegistry.fs r))));
              Utils.journal :=
                Utils.journal (SecureRegistry.fs r)
                  ++ [(SecureRegistry.file r, doc)] |} |}
  | Raise _ => r1
  end.

(** The records of a registry document. *)
Definition document_bots (doc : value) : list value :=
  match doc with
  | VDict (("bots", VList bots) :: _) => bots
  | _ => []
  end.

(** The record is in the document the registry file holds. *)
Definition on_disk (r : SecureRegistry.t) (b : pydict) : Prop :=
  exists doc,
    Utils.files (SecureRegistry.fs r) !! SecureRegistry.file r
      = Some (Utils.Document doc)
    /\ VDict b ∈ document_bots doc.

(* ===================================================================== *)
(** * Sample inputs *)
(* ===================================================================== *)

(** A runtime for the samples: a datetime prints as T followed by its
    number, a compound value as a fixed text, and [int] reads digit runs. *)
Definition sample_runtime : PyRuntime :=
  {| isoformat := fun t => "T" +:+ pretty t;
     str_compound := fun _ => "<object>";
     int_of_text := fun s =>
       if PyStr.is_empty s || negb (all_digits s) then None
       else Some (PyStr.int_of_digits s) |}.

(** A system on which every call succeeds; the temporary file gets the
    given name. *)
Definition io_good (tmp_path : string) : Utils.io_outcomes :=
  {| Utils.io_makedirs := None; Utils.io_mktemp := Ok tmp_path;
     Utils.io_write := None; Utils.io_close := None; Utils.io_fsync := None;
     Utils.io_replace := None; Utils.io_remove := None; Utils.io_mtime := 0 |}.

(** The rename fails; removing the temporary file works. *)
Definition io_rename_fails (tmp_path : string) : Utils.io_outcomes :=
  {| Utils.io_makedirs := None; Utils.io_mktemp := Ok tmp_path;
     Utils.io_write := None; Utils.io_close := None; Utils.io_fsync := None;
     Utils.io_replace := Some (Exn OSError "rename refused");
     Utils.io_remove := None; Utils.io_mtime := 0 |}.

Definition empty_fs : Utils.filesystem :=
  {| Utils.files := ∅; Utils.journal := [] |}.

Definition empty_registry : SecureRegistry.t :=
  {| SecureRegistry.file := "registry.json";
     SecureRegistry._cache := ∅;
     SecureRegistry.fs := empty_fs |}.

(** A record with a datetime at the top and none below. *)
Definition sample_bot : pydict :=
  [("id", VStr "b1"); ("name", VStr "Bot1"); ("blueprint", VStr "ok.py");
   ("created_at", VDatetime 5);
   ("deployment_config", VDict [("deployment_type", VStr "custom_container")])].

(** The same record with its id padded by a blank. *)
Definition padded_bot : pydict :=
  [("id", VStr " b1"); ("name", VStr "Bot1"); ("blueprint", VStr "ok.py")].

(** A record with a datetime inside its performance logs. *)
Definition nested_datetime_bot : pydict :=
  [("id", VStr "b2"); ("name", VStr "Bot2");
   ("performance",
    VDict [("logs", VList [VDict [("metric_name", VStr "cpu");
                                  ("timestamp", VDatetime 7)]])])].

(** Whether one of the system calls of [Container.stop] fails on [c]. *)
Definition stop_os_fails (os : Container.stop_os) (c : Container.t) : bool :=
  bool_decide (is_Some (Container.so_sigterm os))
  || (Container.wait_needs_kill (Container.so_alive_polls os)
      && bool_decide (is_Some (Container.so_sigkill os)))
  || (Container.monitor_task c && bool_decide (is_Some (Container.so_monitor os))).

Definition sample_config : ContainerConfig :=
  {| name := "bot-b1"; image := "bots/ok.py"; entrypoint := "python3";
     entrypoint_args := ["bots/ok.py"]; environment := VDict [];
     resource_limits :=
       {| cpu_limit_percent := 100; memory_limit_mb := 512;
          disk_io_limit_mbps := 100; max_processes := 256;
          max_open_files := 1024 |};
     isolation_level := STANDARD;
     labels := [("bot_id", "b1"); ("bot_name", "Bot1")];
     auto_restart := VBool false |}.

Definition empty_engine : ContainerEngine.t :=
  {| ContainerEngine.storage_dir := "/tmp/codex32-containers";
     ContainerEngine.containers := ∅ |}.

(** A container that was created and never started, and an engine holding
    it. *)
Definition created_container : Container.t :=
  @Container.init sample_runtime sample_config
    "/tmp/codex32-containers/running" "0123456789ab" 3.

Definition engine_with_created : ContainerEngine.t :=
  {| ContainerEngine.storage_dir := "/tmp/codex32-containers";
     ContainerEngine.containers := {[ "bot-b1" := created_container ]} |}.

(** The child answers the first signal at once. *)
Definition stop_os_quick : Container.stop_os :=
  {| Container.so_sigterm := None; Container.so_alive_polls := [false; false];
     Container.so_sigkill := None; Container.so_monitor := None;
     Container.so_exit_code := Some (-15); Container.so_stopped_at := 9 |}.

(** A spawn that works. *)
Definition start_os_good : Container.start_os :=
  {| Container.st_setup := None; Container.st_popen := Ok 4242;
     Container.st_started_at := 4 |}.

(** The same container once started, and an engine holding it. *)
Definition running_container : Container.t :=
  fst (@Container.start sample_runtime start_os_good created_container).

Definition engine_with_running : ContainerEngine.t :=
  {| ContainerEngine.storage_dir := "/tmp/codex32-containers";
     ContainerEngine.containers := {[ "bot-b1" := running_container ]} |}.

(** The executor of a [stop_bot] at work. *)
Definition stop_frame_executor (f : AdaptiveExecutor.stop_frame)
  : AdaptiveExecutor.t :=
  AdaptiveExecutor.executor (AdaptiveExecutor.sf_sys f).

(** An executor that tracks nothing, and a system around it. *)
Definition idle_executor : AdaptiveExecutor.t :=
  {| AdaptiveExecutor.running_processes := ∅;
     AdaptiveExecutor.running_psutil := ∅;
     AdaptiveExecutor.process_creation_time := ∅;
     AdaptiveExecutor.running_containers := ∅ |}.

(** The registry after the sample record was registered. *)
Definition sample_registry : SecureRegistry.t :=
  fst (@SecureRegistry.register_bot sample_runtime
         (io_good "registry.json.q0.tmp") empty_registry sample_bot).

Definition idle_system : AdaptiveExecutor.system :=
  {| AdaptiveExecutor.executor := idle_executor;
     AdaptiveExecutor.registry := sample_registry |}.

(** Every stop succeeds at the first try. *)
Definition stop_script_good : AdaptiveExecutor.stop_script :=
  {| AdaptiveExecutor.sp_stop_container := Ok true;
     AdaptiveExecutor.sp_stop_again := Ok true;
     AdaptiveExecutor.sp_stopped_at := 30;
     AdaptiveExecutor.sp_log_timestamp := "T30Z";
     AdaptiveExecutor.sp_save := io_good "registry.json.s1.tmp";
     AdaptiveExecutor.sp_killpg_term := None;
     AdaptiveExecutor.sp_terminate := None;
     AdaptiveExecutor.sp_wait := None;
     AdaptiveExecutor.sp_killpg_kill := None;
     AdaptiveExecutor.sp_kill := None;
     AdaptiveExecutor.sp_wait_again := None;
     AdaptiveExecutor.sp_save_error := io_good "registry.json.s2.tmp" |}.

(** The container path fails at one of its engine calls: creation raises,
    the start raises, the start is still pending after the time-out, or
    the start returns false.  The exception is the one raised inside
    [_run_bot_in_container], before it is wrapped. *)
Inductive container_start_fails (s : AdaptiveExecutor.container_script)
    (config : ContainerConfig) (bot_id : string) : exn -> Prop :=
| create_raises e :
    AdaptiveExecutor.co_create s config = Raise e ->
    container_start_fails s config bot_id e
| start_raises h e :
    AdaptiveExecutor.co_create s config = Ok h ->
    AdaptiveExecutor.co_start s (AdaptiveExecutor.container_name_of bot_id)
      = AdaptiveExecutor.StartRaises e ->
    container_start_fails s config bot_id e
| start_times_out h :
    AdaptiveExecutor.co_create s config = Ok h ->
    AdaptiveExecutor.co_start s (AdaptiveExecutor.container_name_of bot_id)
      = AdaptiveExecutor.StartTimesOut ->
    container_start_fails s config bot_id
      (Exn ContainerError
         ("Timed out starting container for bot " +:+ bot_id +:+ ": "))
| start_returns_false h :
    AdaptiveExecutor.co_create s config = Ok h ->
    AdaptiveExecutor.co_start s (AdaptiveExecutor.container_name_of bot_id)
      = AdaptiveExecutor.StartReturns false ->
    container_start_fails s config bot_id
      (Exn ContainerError ("Failed to start container for bot " +:+ bot_id)).

(** The record [run_bot] persists before it picks the execution mode. *)
Definition deploying_record `{PyRuntime} (now : Z) (b : pydict) : pydict :=
  Dict.set "updated_at" (VStr (isoformat now))
    (Dict.set "status" (_status_value DEPLOYING) b).

(** The record after the container path raised [e], the error count having
    been [n]. *)
Definition fallback_marked (e : exn) (n : Z) (b : pydict) : pydict :=
  Dict.set "error_count" (VInt (n + 1))
    (Dict.set "last_error" (VStr (AdaptiveExecutor.container_fallback_note e)) b).

(** The record after the local fallback raised [local_e] as well. *)
Definition both_failed_record `{PyRuntime} (e local_e : exn) (n now : Z)
    (b : pydict) : pydict :=
  Dict.set "updated_at" (VStr (isoformat now))
    (Dict.set "error_count" (VInt (n + 1))
       (Dict.set "last_error"
          (VStr (AdaptiveExecutor.both_failed_note e local_e))
          (Dict.set "status" (_status_value ERROR) b))).

(** The record an outer handler of [run_bot] persists for [e]. *)
Definition run_error_record (e : exn) (n : Z) (b : pydict) : pydict :=
  Dict.set "error_count" (VInt (n + 1))
    (Dict.set "last_error" (VStr (exn_msg e))
       (Dict.set "status"
          (_status_value (if decide (exn_cls e = FileNotFoundError)
                          then FAILED else ERROR)) b)).

(** The error count a handler reads from the record. *)
Definition error_count_of `{PyRuntime} (b : pydict) : result Z :=
  py_int (py_or (get_or_none "error_count" b) (VInt 0)).

Definition sample_settings : Settings :=
  {| BOTS_DIRECTORY := "bots"; CONTAINER_ISOLATION_LEVEL := "standard" |}.

(** The engine of the fallback test: creating a container raises. *)
Definition failing_engine : AdaptiveExecutor.container_script :=
  {| AdaptiveExecutor.co_create := fun _ => Raise (Exn ContainerError "boom");
     AdaptiveExecutor.co_start :=
       fun _ => AdaptiveExecutor.StartRaises (Exn ContainerError "boom");
     AdaptiveExecutor.co_started_at := 21;
     AdaptiveExecutor.co_updated_at := 22;
     AdaptiveExecutor.co_save := io_good "registry.json.c1.tmp" |}.

(** A local spawn that works, and one for which the interpreter is
    missing. *)
Definition local_good : AdaptiveExecutor.local_script :=
  {| AdaptiveExecutor.lo_popen := Ok 4242;
     AdaptiveExecutor.lo_psutil := None;
     AdaptiveExecutor.lo_created := 31;
     AdaptiveExecutor.lo_started_at := 32;
     AdaptiveExecutor.lo_updated_at := 33;
     AdaptiveExecutor.lo_save := io_good "registry.json.l1.tmp" |}.

Definition local_missing_interpreter : AdaptiveExecutor.local_script :=
  {| AdaptiveExecutor.lo_popen :=
       Raise (Exn FileNotFoundError "No such file or directory: 'python3'");
     AdaptiveExecutor.lo_psutil := None;
     AdaptiveExecutor.lo_created := 31;
     AdaptiveExecutor.lo_started_at := 32;
     AdaptiveExecutor.lo_updated_at := 33;
     AdaptiveExecutor.lo_save := io_good "registry.json.l1.tmp" |}.

Definition run_script_with (c : AdaptiveExecutor.container_script)
    (l : AdaptiveExecutor.local_script) : AdaptiveExecutor.run_script :=
  {| AdaptiveExecutor.ru_exists := fun _ => true;
     AdaptiveExecutor.ru_deploying_at := 20;
     AdaptiveExecutor.ru_save_deploying := io_good "registry.json.r1.tmp";
     AdaptiveExecutor.ru_container := c;
     AdaptiveExecutor.ru_save_fallback := io_good "registry.json.r2.tmp";
     AdaptiveExecutor.ru_local := l;
     AdaptiveExecutor.ru_both_failed_at := 40;
     AdaptiveExecutor.ru_save_both_failed := io_good "registry.json.r3.tmp";
     AdaptiveExecutor.ru_save_error := io_good "registry.json.r4.tmp" |}.

(** A frame whose record the registry can take: the record has a key, the
    key is registered, and cache and record are fit for the save. *)
Definition frame_ok `{PyRuntime} (f : AdaptiveExecutor.frame) : Prop :=
  bot_key (AdaptiveExecutor.bot f) <> EmptyString
  /\ is_Some (SecureRegistry._cache
                (AdaptiveExecutor.registry (AdaptiveExecutor.sys f))
              !! bot_key (AdaptiveExecutor.bot f))
  /\ cache_ok (SecureRegistry._cache
                 (AdaptiveExecutor.registry (AdaptiveExecutor.sys f)))
  /\ storable (AdaptiveExecutor.bot f).

Definition mk_frame (ex : AdaptiveExecutor.t) (r : SecureRegistry.t)
    (b : pydict) : AdaptiveExecutor.frame :=
  {| AdaptiveExecutor.sys :=
       {| AdaptiveExecutor.executor := ex; AdaptiveExecutor.registry := r |};
     AdaptiveExecutor.bot := b |}.

(** The restart state the supervisor holds for a bot, the fresh one when it
    holds none yet. *)
Definition restart_state_of (w : BotSupervisor.world) (bot_id : string)
  : RestartState.t :=
  default RestartState.fresh
    (BotSupervisor._restart_state (BotSupervisor.sup w) !! bot_id).

(** What one handling of the bot [bot_id] that passed the gate at [now] has
    done to the supervisor when it is over, however it ended: the
    configuration and the other bots' restart states are as before, the
    bot's failure count is one higher, and every incident appended is about
    this bot; below the quarantine limit no appended incident is a
    quarantine. *)
Record handled (bot_id : string) (now : Z) (w w' : BotSupervisor.world)
  : Prop := {
  hd_interval :
    BotSupervisor.interval_sec (BotSupervisor.sup w')
    = BotSupervisor.interval_sec (BotSupervisor.sup w);
  hd_max :
    BotSupervisor.max_failures (BotSupervisor.sup w')
    = BotSupervisor.max_failures (BotSupervisor.sup w);
  hd_others :
    forall k, k <> bot_id ->
      BotSupervisor._restart_state (BotSupervisor.sup w') !! k
      = BotSupervisor._restart_state (BotSupervisor.sup w) !! k;
  hd_entry :
    is_Some (BotSupervisor._restart_state (BotSupervisor.sup w') !! bot_id);
  hd_failures :
    RestartState.failures (restart_state_of w' bot_id)
    = RestartState.failures (restart_state_of w bot_id) + 1;
  hd_attempt :
    RestartState.last_attempt_at (restart_state_of w' bot_id) = Some now;
  hd_incidents :
    exists incs,
      BotSupervisor.incidents (BotSupervisor.sup w')
      = BotSupervisor.incidents (BotSupervisor.sup w) ++ incs
      /\ Forall (fun i => Incident.bot_id i = bot_id) incs
      /\ (RestartState.failures (restart_state_of w bot_id) + 1
          <= BotSupervisor.max_failures (BotSupervisor.sup w) ->
          Forall (fun i => Incident.kind i <> "quarantined") incs)
}.

(** What may happen to the world between two handlings of the bot
    [bot_id]: anything that leaves its restart state and the limit alone. *)
Definition interference (bot_id : string) (w w' : BotSupervisor.world) : Prop :=
  BotSupervisor._restart_state (BotSupervisor.sup w') !! bot_id
  = BotSupervisor._restart_state (BotSupervisor.sup w) !! bot_id
  /\ BotSupervisor.max_failures (BotSupervisor.sup w')
     = BotSupervisor.max_failures (BotSupervisor.sup w).

(** [n] handlings of the bot [bot_id], each past the gate, with whatever
    interference between them. *)
Inductive handled_past_gate `{PyRuntime} (cfg : Settings) (bot_id : string)
  : nat -> BotSupervisor.world -> BotSupervisor.world -> Prop :=
| handled_none w w' :
    interference bot_id w w' ->
    handled_past_gate cfg bot_id 0 w w'
| handled_more n w0 w1 w2 s b now :
    handled_past_gate cfg bot_id n w0 w1 ->
    py_str (get_or_none "id" b) = bot_id ->
    BotSupervisor.gate_closed (restart_state_of w1 bot_id) now = false ->
    interference bot_id
      (fst (BotSupervisor._handle_unhealthy cfg s b now w1)) w2 ->
    handled_past_gate cfg bot_id (S n) w0 w2.

(** The weakest precondition of a computation. *)
Definition wp {S A : Type} (m : M S A) (Q : S -> result A -> Prop) (s : S)
  : Prop :=
  Q (fst (m s)) (snd (m s)).

(** The world with more lines in the incident log. *)
Definition add_incidents (w : BotSupervisor.world) (l : list Incident.t)
  : BotSupervisor.world :=
  BotSupervisor.with_sup w
    {| BotSupervisor.interval_sec := BotSupervisor.interval_sec (BotSupervisor.sup w);
       BotSupervisor.max_failures := BotSupervisor.max_failures (BotSupervisor.sup w);
       BotSupervisor._restart_state := BotSupervisor._restart_state (BotSupervisor.sup w);
       BotSupervisor.incidents := BotSupervisor.incidents (BotSupervisor.sup w) ++ l |}.

(** The record the supervisor persists when it quarantines a bot after
    [n] failures. *)
Definition quarantined_record `{PyRuntime} (n now : Z) (b : pydict) : pydict :=
  Dict.set "updated_at" (VStr (isoformat now))
    (Dict.set "last_error" (VStr (BotSupervisor.quarantine_message n))
       (Dict.set "status" (_status_value ERROR) b)).

(** The incident it then appends. *)
Definition quarantine_incident `{PyRuntime} (rs : BotSupervisor.record_script)
    (n : Z) (b : pydict) : Incident.t :=
  {| Incident.incident_id :=
       "inc-" +:+ py_str (get_or_none "id" b) +:+ "-"
         +:+ pretty (BotSupervisor.rc_epoch rs);
     Incident.bot_id := py_str (get_or_none "id" b);
     Incident.bot_name := py_str (get_or_none "name" b);
     Incident.kind := "quarantined";
     Incident.message := BotSupervisor.quarantine_message n;
     Incident.created_at := isoformat (BotSupervisor.rc_created_at rs);
     Incident.data := [("failures", VInt n)] |}.

(** The incidents of the log that are about one bot. *)
Definition incidents_about (bot_id : string) (l : list Incident.t)
  : list Incident.t :=
  filter (fun i => Incident.bot_id i = bot_id) l.

Definition record_script_good (epoch : Z) : BotSupervisor.record_script :=
  {| BotSupervisor.rc_epoch := epoch;
     BotSupervisor.rc_created_at := epoch * 1000000;
     BotSupervisor.rc_append := None |}.

(** A heal on which the engine refuses the container and the local start
    works. *)
Definition heal_script_good : BotSupervisor.heal_script :=
  {| BotSupervisor.he_quarantine_at := 50;
     BotSupervisor.he_save_quarantine := io_good "registry.json.h1.tmp";
     BotSupervisor.he_rec_quarantined := record_script_good 51;
     BotSupervisor.he_rec_unhealthy := record_script_good 52;
     BotSupervisor.he_stop := stop_script_good;
     BotSupervisor.he_run := run_script_with failing_engine local_good;
     BotSupervisor.he_rec_restart := record_script_good 53;
     BotSupervisor.he_rec_restart_failed := record_script_good 54;
     BotSupervisor.he_fallback_at := 55;
     BotSupervisor.he_save_fallback := io_good "registry.json.h2.tmp";
     BotSupervisor.he_run_fallback := run_script_with failing_engine local_good;
     BotSupervisor.he_rec_fallback := record_script_good 56;
     BotSupervisor.he_rec_fallback_failed := record_script_good 57 |}.

(** A supervisor just built, with the given limit, over the sample
    system. *)
Definition sample_world (max_failures : Z) : BotSupervisor.world :=
  {| BotSupervisor.sup := BotSupervisor.init 5 max_failures;
     BotSupervisor.system_ := idle_system |}.

(** The sample world after one handling of the sample bot at time 0. *)
Definition sample_world_after_one : BotSupervisor.world :=
  fst (@BotSupervisor._handle_unhealthy sample_runtime sample_settings
         heal_script_good sample_bot 0 (sample_world 1)).

(** Every record of the cache is filed under its own id, stripped, and no
    id is blank. *)
Definition keys_consistent `{PyRuntime} (c : gmap string pydict) : Prop :=
  map_Forall (fun k b => bot_key b = k /\ k <> EmptyString) c.

(** Every container of the engine is filed under the name its
    configuration and its metadata carry. *)
Definition names_consistent (e : ContainerEngine.t) : Prop :=
  map_Forall (fun k c => name (Container.config c) = k
                         /\ md_name (Container.metadata c) = k)
             (ContainerEngine.containers e).

(** Every clean-up works. *)
Definition remove_os_good (os : Container.stop_os) : ContainerEngine.remove_os :=
  {| ContainerEngine.rm_stop := os; ContainerEngine.rm_cleanup := None |}.

(** The ids the registry knows. *)
Definition registry_ids (r : SecureRegistry.t) : gset string :=
  dom (SecureRegistry._cache r).

Definition frame_ids (f : AdaptiveExecutor.frame) : gset string :=
  registry_ids (AdaptiveExecutor.registry (AdaptiveExecutor.sys f)).

Definition stop_frame_ids (f : AdaptiveExecutor.stop_frame) : gset string :=
  registry_ids (AdaptiveExecutor.registry (AdaptiveExecutor.sf_sys f)).

Definition system_ids (sy : AdaptiveExecutor.system) : gset string :=
  registry_ids (AdaptiveExecutor.registry sy).

Definition world_ids (w : BotSupervisor.world) : gset string :=
  system_ids (BotSupervisor.system_ w).

(** A system that tracks the sample bot in a container. *)
Definition container_system : AdaptiveExecutor.system :=
  {| AdaptiveExecutor.executor :=
       {| AdaptiveExecutor.running_processes := ∅;
          AdaptiveExecutor.running_psutil := ∅;
          AdaptiveExecutor.process_creation_time := ∅;
          AdaptiveExecutor.running_containers := {[ "b1" := "bot-b1" ]} |};
     AdaptiveExecutor.registry := sample_registry |}.

(** The record [_run_bot_locally] persists once the child runs. *)
Definition running_record `{PyRuntime} (pid started updated : Z) (b : pydict)
  : pydict :=
  Dict.set "updated_at" (VStr (isoformat updated))
    (Dict.set "started_at" (VStr (isoformat started))
       (Dict.set "process_id" (VInt pid)
          (Dict.set "status" (_status_value RUNNING) b))).

(** The executor once it tracks the local process [pid] of the bot. *)
Definition track_local (bot_id : string) (pid created : Z)
    (e : AdaptiveExecutor.t) : AdaptiveExecutor.t :=
  {| AdaptiveExecutor.running_processes :=
       <[bot_id := pid]> (AdaptiveExecutor.running_processes e);
     AdaptiveExecutor.running_psutil :=
       <[bot_id := pid]> (AdaptiveExecutor.running_psutil e);
     AdaptiveExecutor.process_creation_time :=
       <[bot_id := created]> (AdaptiveExecutor.process_creation_time e);
     AdaptiveExecutor.running_containers :=
       AdaptiveExecutor.running_containers e |}.

(** The record [stop_bot] persists after a stop that worked. *)
Definition stopped_record `{PyRuntime} (s : AdaptiveExecutor.stop_script)
    (perf : value) (b : pydict) : pydict :=
  Dict.set "performance" perf
    (Dict.set "stopped_at" (VStr (isoformat (AdaptiveExecutor.sp_stopped_at s)))
       (Dict.set "status" (_status_value STOPPED) b)).

(** The system calls of a local stop go well: the first signal is
    delivered one way or the other, and the child is gone in time or after
    the forced kill. *)
Definition local_stop_ok (s : AdaptiveExecutor.stop_script) : Prop :=
  (AdaptiveExecutor.sp_killpg_term s = None
   \/ AdaptiveExecutor.sp_terminate s = None)
  /\ (AdaptiveExecutor.sp_wait s = None
      \/ (exists e, AdaptiveExecutor.sp_wait s = Some e
                    /\ exn_cls e = TimeoutError
                    /\ (AdaptiveExecutor.sp_killpg_kill s = None
                        \/ AdaptiveExecutor.sp_kill s = None)
                    /\ AdaptiveExecutor.sp_wait_again s = None)).

(** The sample record, to be run as a local process. *)
Definition local_bot : pydict :=
  Dict.set "deployment_config"
    (VDict [("deployment_type", VStr "local_process")]) sample_bot.

(** The sample script of a start whose script is not there. *)
Definition run_script_no_file : AdaptiveExecutor.run_script :=
  {| AdaptiveExecutor.ru_exists := fun _ => false;
     AdaptiveExecutor.ru_deploying_at := 20;
     AdaptiveExecutor.ru_save_deploying := io_good "registry.json.r1.tmp";
     AdaptiveExecutor.ru_container := failing_engine;
     AdaptiveExecutor.ru_save_fallback := io_good "registry.json.r2.tmp";
     AdaptiveExecutor.ru_local := local_good;
     AdaptiveExecutor.ru_both_failed_at := 40;
     AdaptiveExecutor.ru_save_both_failed := io_good "registry.json.r3.tmp";
     AdaptiveExecutor.ru_save_error := io_good "registry.json.r4.tmp" |}.

(** The sample system once the sample bot runs as a local process. *)
Definition running_system : AdaptiveExecutor.system :=
  fst (@AdaptiveExecutor.run_bot sample_runtime sample_settings
         (run_script_with failing_engine local_good) local_bot idle_system).

(** A record whose performance holds a log list and a figure, with a
    blueprint that is not on disk. *)
Definition measured_bot : pydict :=
  [("id", VStr "b1"); ("name", VStr "Bot1"); ("blueprint", VStr "missing.py");
   ("performance", VDict [("logs", VList []); ("cpu_load", VInt 0)])].

(** A system that knows this record and tracks it as the local process
    4242. *)
Definition measured_system : AdaptiveExecutor.system :=
  {| AdaptiveExecutor.executor := track_local "b1" 4242 10 idle_executor;
     AdaptiveExecutor.registry :=
       fst (@SecureRegistry.register_bot sample_runtime
              (io_good "registry.json.q1.tmp") empty_registry measured_bot) |}.

(** A restart whose stop works and whose start finds no script. *)
Definition restart_script_no_file : AdaptiveExecutor.restart_script :=
  {| AdaptiveExecutor.rs_stop := stop_script_good;
     AdaptiveExecutor.rs_run := run_script_no_file;
     AdaptiveExecutor.rs_save_failed := io_good "registry.json.r9.tmp" |}.

(* ===================================================================== *)
(** * The memory-limit parser *)
(* ===================================================================== *)

Lemma is_empty_true (s : string) : PyStr.is_empty s = true <-> s = EmptyString.
Proof. destruct s; simpl; split; congruence. Qed.











(* ===================================================================== *)
(** * Atomic save *)
(* ===================================================================== *)

Lemma cleanup_removes (o : Utils.io_outcomes) (tmp_path : string)
    (fs : Utils.filesystem) :
  Utils.io_remove o = None ->
  Utils.files (Utils.cleanup o tmp_path fs) !! tmp_path = None.
Proof.
  intros Hrm. unfold Utils.cleanup, Utils.exists_. rewrite Hrm.
  case_bool_decide as Hex; simpl.
  - apply lookup_delete_eq.
  - destruct (Utils.files fs !! tmp_path) eqn:E; [|reflexivity].
    exfalso. apply Hex. eauto.
Qed.

(** C4, counterexample: the rename fails, the handler removes the temporary
    file without trouble, and the caller still gets the I/O error. *)
Lemma atomic_save_raises_although_cleanup_succeeds :
  let o := io_rename_fails "registry.json.k3.tmp" in
  let out := Utils.atomic_save_json o empty_fs "registry.json" (VDict []) in
  Utils.io_remove o = None
  /\ Utils.files (fst out) !! "registry.json.k3.tmp" = None
  /\ snd out = Raise (Utils.atomic_save_failed "registry.json")
  /\ snd out <> Ok tt.
Proof.
  split; [reflexivity|]. split; [reflexivity|]. split; [reflexivity|].
  vm_compute. discriminate.
Qed.

(** C4, amended: [atomic_save_json] returns normally only when every step
    succeeds; on any failure it raises the I/O error to the caller, whether
    or not the clean-up succeeds.  When the failure comes after the text was
    written (closing, fsync or rename) and removing the temporary file
    succeeds, the temporary file is gone; on success the temporary file is
    gone and the target holds the document. *)
Theorem atomic_save_json_outcome (o : Utils.io_outcomes)
    (fs : Utils.filesystem) (filename : string) (data : value) :
  let out := Utils.atomic_save_json o fs filename data in
  (snd out = Ok tt <-> Utils.io_fine o /\ json_serializable data = true)
  /\ (snd out <> Ok tt -> snd out = Raise (Utils.atomic_save_failed filename))
  /\ (forall tmp_path,
        Utils.io_mktemp o = Ok tmp_path ->
        Utils.io_makedirs o = None ->
        json_serializable data = true -> Utils.io_write o = None ->
        snd out <> Ok tt ->
        Utils.io_remove o = None ->
        Utils.files (fst out) !! tmp_path = None)
  /\ (forall tmp_path,
        Utils.io_mktemp o = Ok tmp_path -> tmp_path <> filename ->
        snd out = Ok tt ->
        Utils.files (fst out) !! tmp_path = None
        /\ Utils.files (fst out) !! filename = Some (Utils.Document data)).
Proof.
  unfold Utils.atomic_save_json, Utils.io_fine.
  destruct o as [mk tmp wr cl fsn rp rm mt]; simpl.
  destruct mk as [e1|]; simpl; [naive_solver|].
  destruct tmp as [tmp|e2]; simpl; [|naive_solver].
  destruct (json_serializable data) eqn:Hjs; simpl; [|naive_solver].
  destruct wr as [e3|]; simpl; [naive_solver|].
  assert (Hclean : forall c cl fsn rp,
             rm = None ->
             Utils.files
               (Utils.cleanup
                  {| Utils.io_makedirs := None; Utils.io_mktemp := Ok tmp;
                     Utils.io_write := None; Utils.io_close := cl;
                     Utils.io_fsync := fsn; Utils.io_replace := rp;
                     Utils.io_remove := rm; Utils.io_mtime := mt |}
                  tmp (Utils.put tmp c fs)) !! tmp = None).
  { intros c ? ? ? Hrm. now apply cleanup_removes. }
  destruct cl as [e4|]; simpl; [naive_solver|].
  destruct fsn as [e5|]; simpl; [naive_solver|].
  destruct rp as [e6|]; simpl; [naive_solver|].
  split; [naive_solver|]. split; [naive_solver|]. split; [naive_solver|].
  intros t Ht Hne _. injection Ht as <-. split.
  - rewrite lookup_insert_ne by congruence. apply lookup_delete_eq.
  - apply lookup_insert_eq.
Qed.

(** The amended statement where the rename fails and the removal works. *)
Lemma atomic_save_json_outcome_witness :
  let o := io_rename_fails "registry.json.k3.tmp" in
  let out := Utils.atomic_save_json o empty_fs "registry.json" (VDict []) in
  snd out = Raise (Utils.atomic_save_failed "registry.json")
  /\ Utils.files (fst out) !! "registry.json.k3.tmp" = None.
Proof.
  pose proof (atomic_save_json_outcome
                (io_rename_fails "registry.json.k3.tmp") empty_fs
                "registry.json" (VDict [])) as (_ & Hraise & Hgone & _).
  split.
  - apply Hraise. vm_compute. discriminate.
  - apply (Hgone "registry.json.k3.tmp"); try reflexivity.
    vm_compute. discriminate.
Defined.

(* ===================================================================== *)
(** * The registry *)
(* ===================================================================== *)

Section RegistryFacts.
Context `{PyRuntime}.

Lemma normalize_equal_modulo (b : pydict) :
  equal_modulo_datetimes b (_normalize_for_json b).
Proof.
  unfold equal_modulo_datetimes, _normalize_for_json.
  induction b as [|[k v] b IH]; simpl; constructor; [|exact IH].
  destruct v; simpl; auto.
Qed.

Lemma dict_get_normalize_str (k s : string) (b : pydict) :
  Dict.get k b = Some (VStr s) ->
  Dict.get k (_normalize_for_json b) = Some (VStr s).
Proof.
  unfold _normalize_for_json.
  induction b as [|[k' v] b IH]; simpl; [discriminate|].
  destruct (String.eqb k' k) eqn:E.
  - intros [= ->]. simpl. now rewrite E.
  - intros Hg. destruct v; simpl; rewrite E; auto.
Qed.

Lemma document_serializable (o : Utils.io_outcomes) (r : SecureRegistry.t) :
  cache_ok (SecureRegistry._cache r) ->
  json_serializable (SecureRegistry.registry_document o r) = true.
Proof.
  intros Hc. unfold SecureRegistry.registry_document.
  apply map_Forall_to_list in Hc.
  assert (Hbots : forallb json_serializable
                    (map (fun kb : string * pydict => VDict (snd kb))
                         (map_to_list (SecureRegistry._cache r))) = true).
  { induction Hc as [|[k b] l Hb Hl IH]; [reflexivity|].
    cbn [map forallb]. rewrite IH, andb_true_r. exact Hb. }
  cbn [json_serializable forallb snd]. cbn [json_serializable] in Hbots.
  rewrite Hbots. now destruct (Utils.exists_ _ _).
Qed.

Lemma cache_ok_insert (c : gmap string pydict) (k : string) (b : pydict) :
  cache_ok c -> json_serializable (VDict b) = true -> cache_ok (<[k := b]> c).
Proof. intros Hc Hb. now apply map_Forall_insert_2. Qed.

(** A save on which nothing goes wrong. *)
Lemma save_fine (o : Utils.io_outcomes) (r : SecureRegistry.t) :
  Utils.io_fine o -> cache_ok (SecureRegistry._cache r) ->
  exists tmp_path,
    Utils.io_mktemp o = Ok tmp_path
    /\ SecureRegistry._save o r =
       ({| SecureRegistry.file := SecureRegistry.file r;
           SecureRegistry._cache := SecureRegistry._cache r;
           SecureRegistry.fs :=
             {| Utils.files :=
                  <[SecureRegistry.file r :=
                      Utils.Document (SecureRegistry.registry_document o r)]>
                    (delete tmp_path
                       (<[tmp_path :=
                            Utils.Document (SecureRegistry.registry_document o r)]>
                          (Utils.files (SecureRegistry.fs r))));
                Utils.journal :=
                  Utils.journal (SecureRegistry.fs r)
                    ++ [(SecureRegistry.file r,
                         SecureRegistry.registry_document o r)] |} |}, Ok tt).
Proof.
  intros (Hmk & Htmp & Hwr & Hcl & Hfs & Hrp) Hc.
  destruct (Utils.io_mktemp o) as [tmp|e] eqn:Etmp; [|discriminate].
  exists tmp. split; [reflexivity|].
  unfold SecureRegistry._save, Utils.atomic_save_json.
  rewrite Hmk, Etmp, Hwr, Hcl, Hfs, Hrp, (document_serializable o r Hc).
  reflexivity.
Qed.

Lemma update_bot_saved (o : Utils.io_outcomes) (r : SecureRegistry.t)
    (b : pydict) :
  bot_key b <> EmptyString ->
  is_Some (SecureRegistry._cache r !! bot_key b) ->
  Utils.io_fine o -> cache_ok (SecureRegistry._cache r) -> storable b ->
  SecureRegistry.update_bot o r b = (saved o r b, Ok (_normalize_for_json b)).
Proof.
  intros Hne Hin Hio Hc Hb. unfold SecureRegistry.update_bot.
  destruct (PyStr.is_empty (bot_key b)) eqn:E.
  { apply is_empty_true in E. contradiction. }
  rewrite bool_decide_eq_true_2 by exact Hin. cbn [negb].
  set (r1 := SecureRegistry.with_cache r _).
  destruct (save_fine o r1 Hio) as (tmp & Etmp & Es).
  { apply cache_ok_insert; assumption. }
  rewrite Es. unfold saved. fold r1. rewrite Etmp. reflexivity.
Qed.

Lemma register_bot_saved (o : Utils.io_outcomes) (r : SecureRegistry.t)
    (b : pydict) :
  bot_key b <> EmptyString ->
  SecureRegistry._cache r !! bot_key b = None ->
  Utils.io_fine o -> cache_ok (SecureRegistry._cache r) -> storable b ->
  SecureRegistry.register_bot o r b = (saved o r b, Ok (_normalize_for_json b)).
Proof.
  intros Hne Hin Hio Hc Hb. unfold SecureRegistry.register_bot.
  destruct (PyStr.is_empty (bot_key b)) eqn:E.
  { apply is_empty_true in E. contradiction. }
  rewrite bool_decide_eq_false_2 by (rewrite Hin; apply is_Some_None).
  set (r1 := SecureRegistry.with_cache r _).
  destruct (save_fine o r1 Hio) as (tmp & Etmp & Es).
  { apply cache_ok_insert; assumption. }
  rewrite Es. unfold saved. fold r1. rewrite Etmp. reflexivity.
Qed.

Lemma saved_cache (o : Utils.io_outcomes) (r : SecureRegistry.t) (b : pydict) :
  SecureRegistry._cache (saved o r b)
  = <[bot_key b := _normalize_for_json b]> (SecureRegistry._cache r).
Proof. unfold saved. now destruct (Utils.io_mktemp o). Qed.

Lemma saved_file (o : Utils.io_outcomes) (r : SecureRegistry.t) (b : pydict) :
  SecureRegistry.file (saved o r b) = SecureRegistry.file r.
Proof. unfold saved. now destruct (Utils.io_mktemp o). Qed.

Lemma saved_cache_ok (o : Utils.io_outcomes) (r : SecureRegistry.t)
    (b : pydict) :
  cache_ok (SecureRegistry._cache r) -> storable b ->
  cache_ok (SecureRegistry._cache (saved o r b)).
Proof. intros. rewrite saved_cache. now apply cache_ok_insert. Qed.

Lemma saved_registered (o : Utils.io_outcomes) (r : SecureRegistry.t)
    (b : pydict) (k : string) :
  is_Some (SecureRegistry._cache r !! k) \/ k = bot_key b ->
  is_Some (SecureRegistry._cache (saved o r b) !! k).
Proof.
  intros Hk. rewrite saved_cache.
  destruct (decide (bot_key b = k)) as [<-|Hne].
  - rewrite lookup_insert_eq. eauto.
  - rewrite lookup_insert_ne by exact Hne. destruct Hk; congruence.
Qed.

(** After a save the registry file holds the record. *)
Lemma saved_on_disk (o : Utils.io_outcomes) (r : SecureRegistry.t)
    (b : pydict) :
  is_ok (Utils.io_mktemp o) = true ->
  on_disk (saved o r b) (_normalize_for_json b).
Proof.
  intros Hok. unfold on_disk, saved.
  destruct (Utils.io_mktemp o) as [tmp|e]; [|discriminate]. cbn.
  eexists. split; [apply lookup_insert_eq|].
  cbn. apply list_elem_of_fmap.
  exists (bot_key b, _normalize_for_json b). split; [reflexivity|].
  apply elem_of_map_to_list. apply lookup_insert_eq.
Qed.

End RegistryFacts.

(** C5, the defect at a concrete record: [register_bot] accepts a record
    whose performance logs hold a datetime, puts it in the cache with the
    datetime still inside, and the save then fails on it. *)
Theorem register_bot_keeps_nested_datetime :
  let out := @SecureRegistry.register_bot sample_runtime
               (io_good "registry.json.q1.tmp") empty_registry
               nested_datetime_bot in
  snd out = Raise (Utils.atomic_save_failed "registry.json")
  /\ exists stored,
       SecureRegistry._cache (fst out) !! "b2" = Some stored
       /\ has_datetime (VDict stored) = true
       /\ json_serializable (VDict stored) = false.
Proof.
  split; [reflexivity|].
  eexists. split; [reflexivity|]. split; reflexivity.
Qed.

(** C7, counterexample: a record whose id starts with a blank is stored
    under the stripped id, so looking up the record's own id finds
    nothing. *)
Lemma register_padded_id_then_get_misses :
  let out := @SecureRegistry.register_bot sample_runtime
               (io_good "registry.json.q2.tmp") empty_registry padded_bot in
  Dict.get "id" padded_bot = Some (VStr " b1")
  /\ SecureRegistry._cache empty_registry !! " b1" = None
  /\ is_ok (snd out) = true
  /\ SecureRegistry.get_bot_by_id (fst out) " b1" = None.
Proof. repeat split; reflexivity. Qed.

(** C7, amended: for every record whose id is a text without blanks around
    it, not empty and not yet in the registry, and whose normal form the
    save accepts, in a registry all of whose records the save accepts,
    [register_bot] succeeds (the system calls of the save going well),
    [get_bot_by_id] of that id then returns the record with its
    top-level datetimes replaced by their ISO texts, and registering a
    record with the same id again raises the "already exists" ValueError
    and leaves the registry as it was. *)
Theorem register_then_get `{PyRuntime} (o : Utils.io_outcomes)
    (r : SecureRegistry.t) (b : pydict) (i : string) :
  Dict.get "id" b = Some (VStr i) ->
  PyStr.strip i = i ->
  i <> EmptyString ->
  SecureRegistry._cache r !! i = None ->
  Utils.io_fine o ->
  cache_ok (SecureRegistry._cache r) ->
  storable b ->
  exists stored r',
    SecureRegistry.register_bot o r b = (r', Ok stored)
    /\ equal_modulo_datetimes b stored
    /\ SecureRegistry.get_bot_by_id r' i = Some stored
    /\ forall o' b',
         Dict.get "id" b' = Some (VStr i) ->
         SecureRegistry.register_bot o' r' b'
         = (r', Raise (Exn ValueError
                         ("Bot with ID '" +:+ i +:+ "' already exists"))).
Proof.
  intros Hid Hstrip Hne Hfree Hio Hc Hb.
  assert (Hkey : forall b', Dict.get "id" b' = Some (VStr i) -> bot_key b' = i).
  { intros b' Hb'. unfold bot_key. rewrite Hb'. exact Hstrip. }
  exists (_normalize_for_json b), (saved o r b).
  assert (Hlook : SecureRegistry._cache (saved o r b) !! i
                  = Some (_normalize_for_json b)).
  { rewrite saved_cache, (Hkey b Hid). apply lookup_insert_eq. }
  split; [|split; [|split]].
  - apply register_bot_saved; rewrite ?(Hkey b Hid); assumption.
  - apply normalize_equal_modulo.
  - unfold SecureRegistry.get_bot_by_id. rewrite Hlook.
    destruct b as [|kv b]; [discriminate|]. reflexivity.
  - intros o' b' Hb'. unfold SecureRegistry.register_bot.
    rewrite (Hkey b' Hb').
    destruct (PyStr.is_empty i) eqn:E.
    { apply is_empty_true in E. contradiction. }
    rewrite bool_decide_eq_true_2 by (rewrite Hlook; eauto).
    reflexivity.
Qed.

(** The amended statement at the sample record, on an empty registry. *)
Lemma register_then_get_witness :
  exists stored r',
    @SecureRegistry.register_bot sample_runtime (io_good "registry.json.q3.tmp")
      empty_registry sample_bot = (r', Ok stored)
    /\ @equal_modulo_datetimes sample_runtime sample_bot stored
    /\ SecureRegistry.get_bot_by_id r' "b1" = Some stored
    /\ forall o' b',
         Dict.get "id" b' = Some (VStr "b1") ->
         @SecureRegistry.register_bot sample_runtime o' r' b'
         = (r', Raise (Exn ValueError
                         ("Bot with ID '" +:+ "b1" +:+ "' already exists"))).
Proof.
  apply (@register_then_get sample_runtime (io_good "registry.json.q3.tmp")
           empty_registry sample_bot "b1").
  - reflexivity.
  - reflexivity.
  - discriminate.
  - reflexivity.
  - repeat split; reflexivity.
  - apply map_Forall_empty.
  - reflexivity.
Defined.

(* ===================================================================== *)
(** * Stopping a container *)
(* ===================================================================== *)

(** C8, counterexample: for a container that was created and never started,
    [stop_container] returns true and leaves the metadata alone: the state
    is still CREATED, and neither an exit code nor a stop time is set. *)
Lemma stop_container_never_started_stays_created :
  let out := @ContainerEngine.stop_container sample_runtime stop_os_quick
               engine_with_created "bot-b1" in
  is_Some (ContainerEngine.containers engine_with_created !! "bot-b1")
  /\ snd out = Ok true
  /\ (state <$> ContainerEngine.get_container_info (fst out) "bot-b1")
     = Some ContainerState.CREATED
  /\ (stopped_at <$> ContainerEngine.get_container_info (fst out) "bot-b1")
     = Some None
  /\ (state <$> ContainerEngine.get_container_info (fst out) "bot-b1")
     <> Some ContainerState.EXITED.
Proof.
  split; [vm_compute; eauto|]. split; [reflexivity|].
  split; [reflexivity|]. split; [reflexivity|].
  vm_compute. discriminate.
Qed.

(** C8, amended: for every container known to the engine,
    [stop_container] returns true with the metadata untouched when the
    container was never started; when a child was started and no system
    call of the stop fails, it records the exit code polled last, sets the
    state to EXITED, stamps [stopped_at] and returns true; when a system
    call fails it returns false and leaves the metadata untouched. *)
Theorem stop_container_outcome `{PyRuntime} (os : Container.stop_os)
    (e : ContainerEngine.t) (container_name : string) (c : Container.t) :
  ContainerEngine.containers e !! container_name = Some c ->
  let out := ContainerEngine.stop_container os e container_name in
  exists c',
    ContainerEngine.containers (fst out) !! container_name = Some c'
    /\ (Container.process c = None -> snd out = Ok true /\ c' = c)
    /\ (is_Some (Container.process c) -> stop_os_fails os c = true ->
        snd out = Ok false /\ c' = c)
    /\ (is_Some (Container.process c) -> stop_os_fails os c = false ->
        snd out = Ok true
        /\ state (Container.metadata c') = ContainerState.EXITED
        /\ exit_code (Container.metadata c') = Container.so_exit_code os
        /\ stopped_at (Container.metadata c')
           = Some (isoformat (Container.so_stopped_at os))
        /\ Container.process c' = Container.process c).
Proof.
  intros Hc. unfold ContainerEngine.stop_container. rewrite Hc.
  unfold Container.stop, stop_os_fails.
  destruct (Container.process c) as [pid|] eqn:Ep.
  2:{ exists c. cbn. rewrite lookup_insert_eq. naive_solver. }
  destruct (Container.so_sigterm os) as [e1|] eqn:E1.
  { exists c. cbn. rewrite lookup_insert_eq.
    naive_solver. }
  rewrite (bool_decide_eq_false_2 (is_Some None)) by apply is_Some_None.
  cbn [orb].
  destruct (Container.wait_needs_kill (Container.so_alive_polls os)
            && bool_decide (is_Some (Container.so_sigkill os))) eqn:E2.
  { exists c. cbn. rewrite lookup_insert_eq. naive_solver. }
  cbn [orb].
  destruct (Container.monitor_task c
            && bool_decide (is_Some (Container.so_monitor os))) eqn:E3.
  { exists c. cbn. rewrite lookup_insert_eq. naive_solver. }
  eexists. cbn. rewrite lookup_insert_eq.
  split; [reflexivity|]. split; [discriminate|].
  split; [discriminate|]. intros _ _. cbn. rewrite Ep. repeat split.
Qed.

(** The amended statement at a started container whose child exits on the
    first signal. *)
Lemma stop_container_outcome_witness :
  let out := @ContainerEngine.stop_container sample_runtime stop_os_quick
               engine_with_running "bot-b1" in
  exists c',
    ContainerEngine.containers (fst out) !! "bot-b1" = Some c'
    /\ snd out = Ok true
    /\ state (Container.metadata c') = ContainerState.EXITED
    /\ exit_code (Container.metadata c') = Some (-15).
Proof.
  assert (Hin : ContainerEngine.containers engine_with_running !! "bot-b1"
                = Some running_container) by reflexivity.
  destruct (@stop_container_outcome sample_runtime stop_os_quick
              engine_with_running "bot-b1" running_container Hin)
    as (c' & Hc' & _ & _ & Hgood).
  exists c'. split; [exact Hc'|].
  destruct Hgood as (Hr & Hs & Hx & _).
  - vm_compute. eauto.
  - reflexivity.
  - repeat split; assumption.
Defined.

(* ===================================================================== *)
(** * Parts of the state a computation leaves alone *)
(* ===================================================================== *)

(** [m] never changes the part [view] of the state, whether it returns or
    raises. *)
Definition preserves {S A X : Type} (view : S -> X) (m : M S A) : Prop :=
  forall s, view (fst (m s)) = view s.

Section Preserves.
Context {S X : Type} (view : S -> X).

Lemma preserves_ret {A} (a : A) : preserves view (mret a : M S A).
Proof. intros s. reflexivity. Qed.

Lemma preserves_raise {A} (e : exn) : preserves view (raise e : M S A).
Proof. intros s. reflexivity. Qed.

Lemma preserves_lift_result {A} (r : result A) :
  preserves view (lift_result r : M S A).
Proof. intros s. reflexivity. Qed.

Lemma preserves_gets {A} (f : S -> A) : preserves view (gets f).
Proof. intros s. reflexivity. Qed.

Lemma preserves_os_call (failure : option exn) :
  preserves view (os_call failure : M S unit).
Proof. intros s. now destruct failure. Qed.

Lemma preserves_modify (f : S -> S) :
  (forall s, view (f s) = view s) -> preserves view (modify f).
Proof. intros Hf s. apply Hf. Qed.

Lemma preserves_bind {A B} (m : M S A) (f : A -> M S B) :
  preserves view m -> (forall a, preserves view (f a)) ->
  preserves view (m ≫= f).
Proof.
  intros Hm Hf s. unfold mbind, M_bind. specialize (Hm s).
  destruct (m s) as [s' [a|e]]; simpl in *; [|exact Hm].
  now rewrite Hf.
Qed.

Lemma preserves_try_except {A} (m : M S A) (h : exn -> M S A) :
  preserves view m -> (forall e, preserves view (h e)) ->
  preserves view (try_except m h).
Proof.
  intros Hm Hh s. unfold try_except. specialize (Hm s).
  destruct (m s) as [s' [a|e]]; simpl in *; [exact Hm|].
  now rewrite Hh.
Qed.

End Preserves.

(** Breaks a goal [preserves view m] along the structure of [m]; what is
    left are the calls it does not know. *)
Ltac preserves_step :=
  first
    [ apply preserves_ret
    | apply preserves_raise
    | apply preserves_lift_result
    | apply preserves_gets
    | apply preserves_os_call
    | apply preserves_bind; [|intros ?]
    | apply preserves_try_except; [|intros ?]
    | apply preserves_modify; intros ?; reflexivity
    | match goal with
      | |- preserves _ (match ?x with _ => _ end) => destruct x
      | |- preserves _ (if ?x then _ else _) => destruct x
      end ].

(* ===================================================================== *)
(** * Stopping a bot *)
(* ===================================================================== *)

Section StopFacts.
Context `{PyRuntime}.
Import AdaptiveExecutor.

Lemma stop_update_bot_executor (o : Utils.io_outcomes) (b : pydict) :
  preserves stop_frame_executor (stop_update_bot o b).
Proof.
  intros f. unfold stop_update_bot, stop_frame_executor.
  now destruct (SecureRegistry.update_bot o (registry (sf_sys f)) b).
Qed.

Lemma record_stopped_executor (s : stop_script) (reason : string) :
  preserves stop_frame_executor (record_stopped s reason).
Proof.
  unfold record_stopped, set_stop_bot.
  repeat (apply stop_update_bot_executor || preserves_step).
Qed.

Lemma stop_tracked_container_executor (s : stop_script) (reason : string) :
  preserves stop_frame_executor (stop_tracked_container s reason).
Proof.
  unfold stop_tracked_container.
  repeat (apply record_stopped_executor || preserves_step).
Qed.

Lemma stop_local_process_executor (s : stop_script) (reason : string) :
  preserves stop_frame_executor (stop_local_process s reason).
Proof.
  unfold stop_local_process, or_else, set_stop_bot.
  repeat (apply record_stopped_executor || apply stop_update_bot_executor
          || preserves_step).
Qed.

(** Whatever [stop_bot] goes through, the executor it leaves is the one it
    had after the four pops. *)
Lemma stop_bot_executor (s : stop_script) (bot_id reason : string)
    (sy : system) :
  executor (fst (stop_bot s bot_id reason sy)) = untrack (executor sy) bot_id.
Proof.
  unfold stop_bot.
  destruct (truthy _).
  - match goal with
    | |- context [stop_tracked_container s reason ?f] =>
        pose proof (stop_tracked_container_executor s reason f) as Hp;
        destruct (stop_tracked_container s reason f) as [f' r]
    end.
    exact Hp.
  - destruct (running_processes (executor sy) !! bot_id); [|reflexivity].
    match goal with
    | |- context [stop_local_process s reason ?f] =>
        pose proof (stop_local_process_executor s reason f) as Hp;
        destruct (stop_local_process s reason f) as [f' r]
    end.
    exact Hp.
Qed.

End StopFacts.

(** C9: for a bot id tracked neither in [running_containers] nor in
    [running_processes], [stop_bot] returns false and the registry, cache
    and files alike, is what it was. *)
Theorem stop_bot_untracked `{PyRuntime} (s : AdaptiveExecutor.stop_script)
    (bot_id reason : string) (sy : AdaptiveExecutor.system) :
  AdaptiveExecutor.running_containers (AdaptiveExecutor.executor sy) !! bot_id
    = None ->
  AdaptiveExecutor.running_processes (AdaptiveExecutor.executor sy) !! bot_id
    = None ->
  snd (AdaptiveExecutor.stop_bot s bot_id reason sy) = Ok false
  /\ AdaptiveExecutor.registry (fst (AdaptiveExecutor.stop_bot s bot_id reason sy))
     = AdaptiveExecutor.registry sy.
Proof.
  intros Hc Hp. unfold AdaptiveExecutor.stop_bot. rewrite Hc, Hp.
  split; reflexivity.
Qed.

(** C10: when [stop_bot] is over, with true, with false or with an
    exception, the bot id is in none of the four tracking maps, and
    [is_bot_running] answers false. *)
Theorem stop_bot_untracks `{PyRuntime} (s : AdaptiveExecutor.stop_script)
    (bot_id reason : string) (sy : AdaptiveExecutor.system) :
  let ex' := AdaptiveExecutor.executor
               (fst (AdaptiveExecutor.stop_bot s bot_id reason sy)) in
  AdaptiveExecutor.running_containers ex' !! bot_id = None
  /\ AdaptiveExecutor.running_processes ex' !! bot_id = None
  /\ AdaptiveExecutor.running_psutil ex' !! bot_id = None
  /\ AdaptiveExecutor.process_creation_time ex' !! bot_id = None
  /\ AdaptiveExecutor.is_bot_running ex' bot_id = false.
Proof.
  cbv zeta. rewrite stop_bot_executor.
  unfold AdaptiveExecutor.is_bot_running, AdaptiveExecutor.untrack. cbn.
  rewrite !lookup_delete_eq.
  rewrite (bool_decide_eq_false_2 (is_Some None)) by apply is_Some_None.
  repeat split.
Qed.

(** C9 at the sample system, where nothing is tracked. *)
Lemma stop_bot_untracked_witness :
  snd (@AdaptiveExecutor.stop_bot sample_runtime stop_script_good "b1"
         "Manual stop" idle_system) = Ok false
  /\ AdaptiveExecutor.registry
       (fst (@AdaptiveExecutor.stop_bot sample_runtime stop_script_good "b1"
               "Manual stop" idle_system))
     = sample_registry.
Proof.
  apply (@stop_bot_untracked sample_runtime stop_script_good "b1"
           "Manual stop" idle_system); reflexivity.
Defined.

(* ===================================================================== *)
(** * Records and frames *)
(* ===================================================================== *)

Lemma dict_get_set (k k' : string) (v : value) (b : pydict) :
  Dict.get k (Dict.set k' v b)
  = if String.eqb k' k then Some v else Dict.get k b.
Proof.
  induction b as [|[k0 v0] b IH]; cbn [Dict.set Dict.get].
  - reflexivity.
  - destruct (String.eqb k0 k') eqn:E0; cbn [Dict.get].
    + apply String.eqb_eq in E0. subst k0.
      now destruct (String.eqb k' k).
    + rewrite IH. destruct (String.eqb k0 k) eqn:E1; [|reflexivity].
      apply String.eqb_eq in E1. subst k0. now rewrite String.eqb_sym, E0.
Qed.

Lemma get_or_none_set (k k' : string) (v : value) (b : pydict) :
  get_or_none k (Dict.set k' v b)
  = if String.eqb k' k then v else get_or_none k b.
Proof.
  unfold get_or_none. rewrite dict_get_set. now destruct (String.eqb k' k).
Qed.

Lemma serializable_set (k : string) (v : value) (d : pydict) :
  json_serializable (VDict d) = true -> json_serializable v = true ->
  json_serializable (VDict (Dict.set k v d)) = true.
Proof.
  intros Hd Hv. induction d as [|[k0 v0] d IH]; cbn [Dict.set].
  - cbn. now rewrite Hv.
  - cbn in Hd. apply andb_true_iff in Hd as [H0 Hd].
    destruct (String.eqb k0 k); cbn.
    + now rewrite Hv.
    + rewrite H0. apply IH. exact Hd.
Qed.

Section FrameFacts.
Context `{PyRuntime}.
Import AdaptiveExecutor.

Lemma bot_key_set (k : string) (v : value) (b : pydict) :
  String.eqb k "id" = false -> bot_key (Dict.set k v b) = bot_key b.
Proof. intros Hk. unfold bot_key. now rewrite dict_get_set, Hk. Qed.

Lemma normalize_set (k : string) (v : value) (b : pydict) :
  _normalize_for_json (Dict.set k v b)
  = Dict.set k (match v with VDatetime t => VStr (isoformat t) | _ => v end)
      (_normalize_for_json b).
Proof.
  unfold _normalize_for_json.
  induction b as [|[k0 v0] b IH]; cbn [Dict.set map].
  - now destruct v.
  - destruct (String.eqb k0 k) eqn:E; cbn [map snd fst].
    + destruct v0, v; cbn [Dict.set fst snd]; now rewrite E.
    + rewrite IH. destruct v0; cbn [Dict.set fst snd]; now rewrite E.
Qed.

Lemma storable_set (k : string) (v : value) (b : pydict) :
  storable b -> json_serializable v = true -> storable (Dict.set k v b).
Proof.
  unfold storable. intros Hb Hv. rewrite normalize_set.
  apply serializable_set; [exact Hb|]. now destruct v.
Qed.

Lemma bind_ok {S A B} (m : M S A) (f : A -> M S B) (s s' : S) (a : A) :
  m s = (s', Ok a) -> (m ≫= f) s = f a s'.
Proof. intros Hm. unfold mbind, M_bind. now rewrite Hm. Qed.

Lemma bind_raise {S A B} (m : M S A) (f : A -> M S B) (s s' : S) (e : exn) :
  m s = (s', Raise e) -> (m ≫= f) s = (s', Raise e).
Proof. intros Hm. unfold mbind, M_bind. now rewrite Hm. Qed.

Lemma try_ok {S A} (m : M S A) (h : exn -> M S A) (s s' : S) (a : A) :
  m s = (s', Ok a) -> try_except m h s = (s', Ok a).
Proof. intros Hm. unfold try_except. now rewrite Hm. Qed.

Lemma try_raise {S A} (m : M S A) (h : exn -> M S A) (s s' : S) (e : exn) :
  m s = (s', Raise e) -> try_except m h s = h e s'.
Proof. intros Hm. unfold try_except. now rewrite Hm. Qed.

(** The registry takes the record of a good frame. *)
Lemma registry_update_bot_saved (o : Utils.io_outcomes) (f : frame) :
  frame_ok f -> Utils.io_fine o ->
  registry_update_bot o f
  = (mk_frame (executor (sys f)) (saved o (registry (sys f)) (bot f)) (bot f),
     Ok (_normalize_for_json (bot f))).
Proof.
  intros (Hk & Hin & Hc & Hb) Hio. unfold registry_update_bot.
  now rewrite update_bot_saved.
Qed.

(** Once saved, the frame is still good, also after further fields that the
    save accepts were set. *)
Lemma frame_ok_saved (o : Utils.io_outcomes) (ex ex' : AdaptiveExecutor.t)
    (r : SecureRegistry.t) (b b' : pydict) :
  frame_ok (mk_frame ex r b) -> bot_key b' = bot_key b -> storable b' ->
  frame_ok (mk_frame ex' (saved o r b) b').
Proof.
  intros (Hk & Hin & Hc & Hb) Hkey Hb'. unfold frame_ok. cbn in *.
  rewrite Hkey. repeat split; try assumption.
  - apply saved_registered. now right.
  - now apply saved_cache_ok.
Qed.

Lemma frame_ok_set (ex : AdaptiveExecutor.t) (r : SecureRegistry.t)
    (b : pydict) (k : string) (v : value) :
  frame_ok (mk_frame ex r b) -> String.eqb k "id" = false ->
  json_serializable v = true ->
  frame_ok (mk_frame ex r (Dict.set k v b)).

Proof.
  intros (Hk & Hin & Hc & Hb) Hne Hv. unfold frame_ok. cbn in *.
  rewrite bot_key_set by exact Hne. repeat split; try assumption.
  now apply storable_set.
Qed.


End FrameFacts.

(* ===================================================================== *)
(** * Starting a bot *)
(* ===================================================================== *)

Section RunFacts.
Context `{PyRuntime}.
Import AdaptiveExecutor.

Lemma bump_error_count_eq (ex : AdaptiveExecutor.t) (r : SecureRegistry.t)
    (b : pydict) (n : Z) :
  error_count_of b = Ok n ->
  bump_error_count (mk_frame ex r b)
  = (mk_frame ex r (Dict.set "error_count" (VInt (n + 1)) b), Ok tt).
Proof.
  intros Hn. unfold bump_error_count, error_count_of in *.
  unfold mbind, M_bind, get_bot, gets, lift_result, set_bot, modify.
  cbn -[py_or py_int get_or_none Dict.set]. now rewrite Hn.
Qed.

Lemma error_count_of_bumped (n : Z) (b : pydict) :
  error_count_of (Dict.set "error_count" (VInt n) b) = Ok n.
Proof.
  unfold error_count_of. rewrite get_or_none_set. cbn.
  unfold py_or. cbn. destruct (n =? 0) eqn:E; cbn; [|reflexivity].
  apply Z.eqb_eq in E. now subst.
Qed.

Lemma error_count_of_set (k : string) (v : value) (b : pydict) :
  String.eqb k "error_count" = false ->
  error_count_of (Dict.set k v b) = error_count_of b.
Proof. intros Hk. unfold error_count_of. now rewrite get_or_none_set, Hk. Qed.

(** An outer handler of [run_bot] on a good frame. *)
Lemma on_run_error_eq (o : Utils.io_outcomes) (e : exn)
    (ex : AdaptiveExecutor.t) (r : SecureRegistry.t) (b : pydict) (n : Z) :
  frame_ok (mk_frame ex r b) -> error_count_of b = Ok n -> Utils.io_fine o ->
  on_run_error o e (mk_frame ex r b)
  = (mk_frame ex (saved o r (run_error_record e n b)) (run_error_record e n b),
     Raise e).
Proof.
  intros Hf Hn Hio. unfold on_run_error, run_error_record.
  set (st := _status_value _).
  set (b1 := Dict.set "last_error" (VStr (exn_msg e)) (Dict.set "status" st b)).
  assert (Hn1 : error_count_of b1 = Ok n).
  { unfold b1. now rewrite !error_count_of_set. }
  assert (Hok : frame_ok (mk_frame ex r (Dict.set "error_count" (VInt (n + 1)) b1))).
  { unfold b1. repeat (apply frame_ok_set; [|reflexivity|reflexivity]). exact Hf. }
  unfold mbind at 1, M_bind, set_bot, modify. cbn.
  unfold mbind at 1, M_bind. cbn. fold b1.
  rewrite (bind_ok _ _ _ _ _ (bump_error_count_eq ex r b1 n Hn1)).
  rewrite (bind_ok _ _ _ _ _ (registry_update_bot_saved o _ Hok Hio)).
  reflexivity.
Qed.

(** The container path on a frame whose engine calls fail: nothing is
    changed and the failure comes out wrapped in a ContainerError. *)
Lemma container_path_fails (cfg : Settings) (s : container_script)
    (script_path : string) (f : frame) (config : ContainerConfig) (e : exn) :
  container_config_of cfg script_path (bot f) = Ok config ->
  container_start_fails s config (py_str (get_or_none "id" (bot f))) e ->
  _run_bot_in_container cfg s script_path f = (f, Raise (container_run_failed e)).
Proof.
  intros Hcfg Hfail. unfold _run_bot_in_container, try_except.
  unfold mbind, M_bind, gets, lift_result, bot_id_text, raise. cbn.
  rewrite Hcfg.
  destruct Hfail as [e He|h e Hh He|h Hh He|h Hh He];
    rewrite ?Hh, ?He; cbn; rewrite ?He; reflexivity.
Qed.

(** When its save cannot fail, the local path raises only before it
    touches the record or the registry. *)
Lemma local_path_raise_frame (s : local_script) (script_path : string)
    (f f' : frame) (e : exn) :
  frame_ok f -> Utils.io_fine (lo_save s) ->
  _run_bot_locally s script_path f = (f', Raise e) ->
  bot f' = bot f /\ registry (sys f') = registry (sys f).
Proof.
  destruct f as [[ex r] b]. intros Hf Hio.
  unfold _run_bot_locally.
  unfold mbind, M_bind, get_bot, gets, lift_result, raise, bot_id_text,
    modify_executor, modify, os_call, set_bot.
  cbn -[get_or_none get_in py_or registry_update_bot Dict.set].
  destruct (get_in (get_or_none "deployment_config" b) "environment_vars")
    as [ev|e0]; [|intros Heq; inversion Heq; now split].
  destruct (py_or ev (VDict []));
    cbn -[get_or_none get_in py_or registry_update_bot Dict.set];
    try (intros Heq; inversion Heq; now split).
  destruct (lo_popen s) as [pid|e0]; [|intros Heq; inversion Heq; now split].
  destruct (lo_psutil s) as [e0|];
    cbn -[get_or_none get_in py_or registry_update_bot Dict.set];
    [intros Heq; inversion Heq; now split|].
  match goal with
  | |- context [registry_update_bot ?o ?fr] =>
      assert (Hok : frame_ok fr)
  end.
  { repeat (apply frame_ok_set; [|reflexivity|reflexivity]). exact Hf. }
  rewrite (registry_update_bot_saved _ _ Hok Hio). cbn. discriminate.
Qed.

Lemma deployment_raw_of_set (k : string) (v : value) (b : pydict) :
  String.eqb k "deployment_config" = false ->
  deployment_raw_of (Dict.set k v b) = deployment_raw_of b.
Proof.
  intros Hk. unfold deployment_raw_of. now rewrite get_or_none_set, Hk.
Qed.

Lemma container_config_of_set (cfg : Settings) (script_path k : string)
    (v : value) (b : pydict) :
  String.eqb k "deployment_config" = false -> String.eqb k "id" = false ->
  String.eqb k "name" = false ->
  container_config_of cfg script_path (Dict.set k v b)
  = container_config_of cfg script_path b.
Proof.
  intros H1 H2 H3. unfold container_config_of.
  now rewrite !get_or_none_set, H1, H2, H3.
Qed.

Ltac run_simpl :=
  cbn -[get_or_none get_in py_or registry_update_bot Dict.set
        _run_bot_in_container _run_bot_locally bump_error_count
        on_run_error local_fallback deployment_raw_of container_config_of
        error_count_of saved _normalize_for_json isoformat].

(** The fallback on a good frame, after the container path raised [e]. *)
Lemma local_fallback_eq (s : run_script) (script_path : string) (e : exn)
    (ex : AdaptiveExecutor.t) (r : SecureRegistry.t) (b : pydict) (n : Z) :
  let b2 := fallback_marked e n b in
  let r2 := saved (ru_save_fallback s) r b2 in
  frame_ok (mk_frame ex r b) -> error_count_of b = Ok n ->
  Utils.io_fine (ru_save_fallback s) -> Utils.io_fine (lo_save (ru_local s)) ->
  Utils.io_fine (ru_save_both_failed s) ->
  local_fallback s script_path e (mk_frame ex r b)
  = match _run_bot_locally (ru_local s) script_path (mk_frame ex r2 b2) with
    | (f3, Ok started) => (f3, Ok started)
    | (f3, Raise local_e) =>
        let b4 := both_failed_record e local_e (n + 1) (ru_both_failed_at s) b2 in
        (mk_frame (executor (sys f3)) (saved (ru_save_both_failed s) r2 b4) b4,
         Raise local_e)
    end.
Proof.
  intros b2 r2 Hf Hn Hio2 Hiol Hio4.
  assert (Hf1 : frame_ok (mk_frame ex r b2)).
  { unfold b2, fallback_marked.
    do 2 (apply frame_ok_set; [|reflexivity|reflexivity]). exact Hf. }
  assert (Hf2 : frame_ok (mk_frame ex r2 b2)).
  { unfold r2. apply (frame_ok_saved _ ex); [exact Hf1|reflexivity|apply Hf1]. }
  unfold local_fallback.
  unfold mbind at 1, M_bind at 1, set_bot at 1, modify at 1.
  unfold mbind at 1, M_bind at 1.
  change {| sys := sys (mk_frame ex r b);
            bot := Dict.set "last_error" (VStr (container_fallback_note e))
                     (bot (mk_frame ex r b)) |}
    with (mk_frame ex r
            (Dict.set "last_error" (VStr (container_fallback_note e)) b)).
  rewrite (bump_error_count_eq ex r _ n)
    by (now rewrite error_count_of_set).
  fold (fallback_marked e n b). fold b2.
  unfold mbind at 1, M_bind at 1.
  rewrite (registry_update_bot_saved _ _ Hf1 Hio2).
  change (saved (ru_save_fallback s) (registry (sys (mk_frame ex r b2)))
            (bot (mk_frame ex r b2))) with r2.
  change (executor (sys (mk_frame ex r b2))) with ex.
  change (bot (mk_frame ex r b2)) with b2.
  unfold try_except.
  destruct (_run_bot_locally (ru_local s) script_path (mk_frame ex r2 b2))
    as [f3 [started|local_e]] eqn:El; [reflexivity|].
  destruct (local_path_raise_frame _ _ _ _ _ Hf2 Hiol El) as [Hb3 Hr3].
  destruct f3 as [[ex3 r3] b3]. cbn in Hb3, Hr3. subst b3 r3.
  set (b3a := Dict.set "last_error" (VStr (both_failed_note e local_e))
                (Dict.set "status" (_status_value ERROR) b2)).
  assert (Hn3 : error_count_of b3a = Ok (n + 1)).
  { unfold b3a. rewrite !error_count_of_set by reflexivity.
    unfold b2, fallback_marked. apply error_count_of_bumped. }
  assert (Hf4 : frame_ok
                  (mk_frame ex3 r2
                     (both_failed_record e local_e (n + 1)
                        (ru_both_failed_at s) b2))).
  { unfold both_failed_record.
    do 4 (apply frame_ok_set; [|reflexivity|reflexivity]). exact Hf2. }
  unfold mbind at 1, M_bind at 1, set_bot at 1, modify at 1.
  unfold mbind at 1, M_bind at 1, set_bot at 1, modify at 1.
  unfold mbind at 1, M_bind at 1.
  change {| sys := sys {| sys := sys {| sys := {| executor := ex3; registry := r2 |};
                                        bot := b2 |};
                          bot := Dict.set "status" (_status_value ERROR)
                                   (bot {| sys := {| executor := ex3; registry := r2 |};
                                           bot := b2 |}) |};
            bot := _ |}
    with (mk_frame ex3 r2 b3a).
  rewrite (bump_error_count_eq ex3 r2 b3a (n + 1) Hn3).
  unfold mbind at 1, M_bind at 1, set_bot at 1, modify at 1.
  unfold mbind at 1, M_bind at 1.
  change {| sys := sys (mk_frame ex3 r2 (Dict.set "error_count" (VInt (n + 1 + 1)) b3a));
            bot := _ |}
    with (mk_frame ex3 r2
            (both_failed_record e local_e (n + 1) (ru_both_failed_at s) b2)).
  rewrite (registry_update_bot_saved _ _ Hf4 Hio4).
  reflexivity.
Qed.

(** C1: for a bot in a container mode whose container creation or start
    fails (it raises, times out or returns false), [run_bot] sets
    [last_error], increments [error_count] and persists the record, then
    runs the local path on that record and returns what it returns; if the
    local path raises too, the record is persisted with status ERROR, the
    note of both failures and the error count incremented again, and the
    local exception reaches the caller (the outer handler of [run_bot]
    persists the record once more on its way).  The saves are assumed to go
    well. *)
Theorem run_bot_container_fallback (cfg : Settings) (s : run_script)
    (sy : system) (b : pydict) (bp d : string) (config : ContainerConfig)
    (e0 : exn) (n : Z) :
  let script_path := script_path_of cfg bp in
  let b1 := deploying_record (ru_deploying_at s) b in
  let r1 := saved (ru_save_deploying s) (registry sy) b1 in
  let e := container_run_failed e0 in
  let b2 := fallback_marked e n b1 in
  let r2 := saved (ru_save_fallback s) r1 b2 in
  Dict.get "blueprint" b = Some (VStr bp) ->
  bp <> EmptyString ->
  ru_exists s script_path = true ->
  frame_ok (mk_frame (executor sy) (registry sy) b) ->
  error_count_of b = Ok n ->
  deployment_raw_of b = Ok d ->
  is_container_mode d = true ->
  container_config_of cfg script_path b = Ok config ->
  container_start_fails (ru_container s) config
    (py_str (get_or_none "id" b)) e0 ->
  Utils.io_fine (ru_save_deploying s) ->
  Utils.io_fine (ru_save_fallback s) ->
  Utils.io_fine (lo_save (ru_local s)) ->
  Utils.io_fine (ru_save_both_failed s) ->
  Utils.io_fine (ru_save_error s) ->
  on_disk r2 (_normalize_for_json b2)
  /\ Dict.get "last_error" b2 = Some (VStr (container_fallback_note e))
  /\ Dict.get "error_count" b2 = Some (VInt (n + 1))
  /\ match _run_bot_locally (ru_local s) script_path
             (mk_frame (executor sy) r2 b2) with
     | (f3, Ok started) => run_bot cfg s b sy = (sys f3, Ok started)
     | (f3, Raise local_e) =>
         let b4 := both_failed_record e local_e (n + 1)
                     (ru_both_failed_at s) b2 in
         let r4 := saved (ru_save_both_failed s) r2 b4 in
         let b5 := run_error_record local_e (n + 2) b4 in
         on_disk r4 (_normalize_for_json b4)
         /\ Dict.get "status" b4 = Some (_status_value ERROR)
         /\ Dict.get "last_error" b4 = Some (VStr (both_failed_note e local_e))
         /\ Dict.get "error_count" b4 = Some (VInt (n + 2))
         /\ run_bot cfg s b sy
            = ({| executor := executor (sys f3);
                  registry := saved (ru_save_error s) r4 b5 |},
               Raise local_e)
     end.
Proof.
  intros script_path b1 r1 e b2 r2 Hbp Hne Hex Hf Hn Hd Hmode Hcfg Hfail
    Hio1 Hio2 Hiol Hio4 Hio5.
  destruct sy as [ex r]. cbn [executor registry] in *.
  assert (Hio2' := Hio2). destruct Hio2' as (_ & Hok2 & _).
  assert (Hio4' := Hio4). destruct Hio4' as (_ & Hok4 & _).
  assert (Hf1 : frame_ok (mk_frame ex r b1)).
  { unfold b1, deploying_record.
    do 2 (apply frame_ok_set; [|reflexivity|reflexivity]). exact Hf. }
  assert (Hf1' : frame_ok (mk_frame ex r1 b1)).
  { unfold r1. apply (frame_ok_saved _ ex); [exact Hf1|reflexivity|apply Hf1]. }
  assert (Hn1 : error_count_of b1 = Ok n).
  { unfold b1, deploying_record. now rewrite !error_count_of_set. }
  assert (Hd1 : deployment_raw_of b1 = Ok d).
  { unfold b1, deploying_record. now rewrite !deployment_raw_of_set. }
  assert (Hcfg1 : container_config_of cfg script_path b1 = Ok config).
  { unfold b1, deploying_record. now rewrite !container_config_of_set. }
  assert (Hid1 : py_str (get_or_none "id" b1) = py_str (get_or_none "id" b)).
  { unfold b1, deploying_record. now rewrite !get_or_none_set. }
  assert (Hemp : PyStr.is_empty bp = false).
  { destruct bp; [contradiction|reflexivity]. }
  assert (Hgb : get_or_none "blueprint" b = VStr bp).
  { unfold get_or_none. now rewrite Hbp. }
  (* the body up to the fallback *)
  assert (Hbody : run_bot_body cfg s (mk_frame ex r b)
                  = local_fallback s script_path e (mk_frame ex r1 b1)).
  { unfold run_bot_body.
    unfold mbind at 1, M_bind at 1, get_bot at 1, gets at 1.
    change (get_or_none "blueprint" (bot (mk_frame ex r b)))
      with (get_or_none "blueprint" b).
    rewrite Hgb. cbn [truthy]. rewrite Hemp. cbn [negb].
    fold script_path. rewrite Hex. cbn [negb].
    unfold mbind at 1, M_bind at 1, set_bot at 1, modify at 1.
    unfold mbind at 1, M_bind at 1, set_bot at 1, modify at 1.
    unfold mbind at 1, M_bind at 1.
    change {| sys := sys {| sys := sys (mk_frame ex r b); bot := _ |};
              bot := _ |}
      with (mk_frame ex r b1).
    rewrite (registry_update_bot_saved _ _ Hf1 Hio1).
    change (mk_frame (executor (sys (mk_frame ex r b1)))
              (saved (ru_save_deploying s) (registry (sys (mk_frame ex r b1)))
                 (bot (mk_frame ex r b1))) (bot (mk_frame ex r b1)))
      with (mk_frame ex r1 b1).
    unfold mbind at 1, M_bind at 1, gets at 1.
    change (bot (mk_frame ex r1 b1)) with b1.
    unfold mbind at 1, M_bind at 1, lift_result at 1.
    rewrite Hd1, Hmode.
    rewrite (try_raise _ _ _ _ _
               (container_path_fails cfg (ru_container s) script_path
                  (mk_frame ex r1 b1) config e0 Hcfg1
                  ltac:(cbn [bot mk_frame]; rewrite Hid1; exact Hfail))).
    reflexivity. }
  assert (Hb2f : frame_ok (mk_frame ex r1 b2)).
  { unfold b2, fallback_marked.
    do 2 (apply frame_ok_set; [|reflexivity|reflexivity]). exact Hf1'. }
  split; [|split; [|split]].
  - unfold r2. now apply saved_on_disk.
  - unfold b2, fallback_marked. now rewrite !dict_get_set.
  - unfold b2, fallback_marked. now rewrite !dict_get_set.
  - pose proof (local_fallback_eq s script_path e ex r1 b1 n
                  Hf1' Hn1 Hio2 Hiol Hio4) as Hfb.
    cbv zeta in Hfb. fold b2 in Hfb. fold r2 in Hfb.
    destruct (_run_bot_locally (ru_local s) script_path (mk_frame ex r2 b2))
      as [f3 [started|local_e]] eqn:El.
    + unfold run_bot. rewrite (try_ok _ _ _ f3 started); [reflexivity|].
      change {| sys := {| executor := ex; registry := r |}; bot := b |}
        with (mk_frame ex r b).
      now rewrite Hbody.
    + cbv zeta.
      set (b4 := both_failed_record e local_e (n + 1) (ru_both_failed_at s) b2)
        in *.
      set (r4 := saved (ru_save_both_failed s) r2 b4) in *.
      assert (Hf2 : frame_ok (mk_frame ex r2 b2)).
      { unfold r2. apply (frame_ok_saved _ ex); [exact Hb2f|reflexivity|apply Hb2f]. }
      assert (Hf4 : frame_ok (mk_frame (executor (sys f3)) r2 b4)).
      { unfold b4, both_failed_record.
        do 4 (apply frame_ok_set; [|reflexivity|reflexivity]). exact Hf2. }
      assert (Hf4' : frame_ok (mk_frame (executor (sys f3)) r4 b4)).
      { unfold r4. apply (frame_ok_saved _ (executor (sys f3)));
          [exact Hf4|reflexivity|apply Hf4]. }
      assert (Hn4 : error_count_of b4 = Ok (n + 2)).
      { unfold b4, both_failed_record.
        rewrite error_count_of_set by reflexivity.
        replace (n + 2) with (n + 1 + 1) by lia.
        apply error_count_of_bumped. }
      split; [unfold r4; now apply saved_on_disk|].
      split; [unfold b4, both_failed_record; now rewrite !dict_get_set|].
      split; [unfold b4, both_failed_record; now rewrite !dict_get_set|].
      split.
      { unfold b4, both_failed_record. rewrite !dict_get_set. cbn.
        do 2 f_equal. lia. }
      unfold run_bot.
      change {| sys := {| executor := ex; registry := r |}; bot := b |}
        with (mk_frame ex r b).
      rewrite (try_raise _ _ _ _ _ (eq_trans Hbody Hfb)).
      rewrite (on_run_error_eq _ _ _ _ _ _ Hf4' Hn4 Hio5).
      reflexivity.
Qed.

End RunFacts.

Lemma sample_frame_ok :
  @frame_ok sample_runtime (mk_frame idle_executor sample_registry sample_bot).
Proof.
  unfold frame_ok. cbn [AdaptiveExecutor.bot AdaptiveExecutor.sys
                        AdaptiveExecutor.registry mk_frame].
  split; [vm_compute; discriminate|].
  split; [vm_compute; eauto|].
  split; [|reflexivity].
  change sample_registry
    with (@saved sample_runtime (io_good "registry.json.q0.tmp")
            empty_registry sample_bot).
  apply (@saved_cache_ok sample_runtime); [apply map_Forall_empty|reflexivity].
Qed.

(** C1 at the sample bot: the engine refuses to create the container and
    the interpreter of the local path is missing, so the caller gets the
    local exception. *)
Lemma run_bot_container_fallback_witness :
  exists sy',
    @AdaptiveExecutor.run_bot sample_runtime sample_settings
      (run_script_with failing_engine local_missing_interpreter)
      sample_bot idle_system
    = (sy', Raise (Exn FileNotFoundError "No such file or directory: 'python3'")).
Proof.
  destruct (@run_bot_container_fallback sample_runtime sample_settings
              (run_script_with failing_engine local_missing_interpreter)
              idle_system sample_bot "ok.py" "custom_container"
              {| name := "bot-b1"; image := "bots/ok.py";
                 entrypoint := "python3"; entrypoint_args := ["bots/ok.py"];
                 environment := VNone;
                 resource_limits :=
                   {| cpu_limit_percent := 100; memory_limit_mb := 512;
                      disk_io_limit_mbps := 100; max_processes := 256;
                      max_open_files := 1024 |};
                 isolation_level := STANDARD;
                 labels := [("bot_id", "b1"); ("bot_name", "Bot1")];
                 auto_restart := VBool false |}
              (Exn ContainerError "boom") 0)
    as (_ & _ & _ & Hrun).
  - reflexivity.
  - discriminate.
  - reflexivity.
  - exact sample_frame_ok.
  - reflexivity.
  - reflexivity.
  - reflexivity.
  - reflexivity.
  - apply create_raises. reflexivity.
  - repeat split; reflexivity.
  - repeat split; reflexivity.
  - repeat split; reflexivity.
  - repeat split; reflexivity.
  - repeat split; reflexivity.
  - match type of Hrun with
    | match AdaptiveExecutor._run_bot_locally ?l ?p ?f with _ => _ end =>
        replace (AdaptiveExecutor._run_bot_locally l p f)
          with (f, @Raise bool
                     (Exn FileNotFoundError
                        "No such file or directory: 'python3'"))
          in Hrun by reflexivity
    end.
    cbv zeta in Hrun. destruct Hrun as (_ & _ & _ & _ & Hrun).
    eexists. exact Hrun.
Defined.

(* ===================================================================== *)
(** * Weakest preconditions *)
(* ===================================================================== *)

Section WpRules.
Context {S : Type}.

Lemma wp_ret {A} (a : A) (Q : S -> result A -> Prop) (s : S) :
  Q s (Ok a) -> wp (mret a : M S A) Q s.
Proof. intros HQ. exact HQ. Qed.

Lemma wp_raise {A} (e : exn) (Q : S -> result A -> Prop) (s : S) :
  Q s (Raise e) -> wp (raise e) Q s.
Proof. intros HQ. exact HQ. Qed.

Lemma wp_lift_result {A} (r : result A) (Q : S -> result A -> Prop) (s : S) :
  Q s r -> wp (lift_result r) Q s.
Proof. intros HQ. exact HQ. Qed.

Lemma wp_gets {A} (f : S -> A) (Q : S -> result A -> Prop) (s : S) :
  Q s (Ok (f s)) -> wp (gets f) Q s.
Proof. intros HQ. exact HQ. Qed.

Lemma wp_modify (f : S -> S) (Q : S -> result unit -> Prop) (s : S) :
  Q (f s) (Ok tt) -> wp (modify f) Q s.
Proof. intros HQ. exact HQ. Qed.

Lemma wp_bind {A B} (m : M S A) (f : A -> M S B)
    (Q : S -> result B -> Prop) (s : S) :
  wp m (fun s' r => match r with
                    | Ok a => wp (f a) Q s'
                    | Raise e => Q s' (Raise e)
                    end) s ->
  wp (m ≫= f) Q s.
Proof.
  unfold wp, mbind, M_bind. destruct (m s) as [s' [a|e]]; cbn; auto.
Qed.

Lemma wp_try {A} (m : M S A) (h : exn -> M S A)
    (Q : S -> result A -> Prop) (s : S) :
  wp m (fun s' r => match r with
                    | Ok a => Q s' (Ok a)
                    | Raise e => wp (h e) Q s'
                    end) s ->
  wp (try_except m h) Q s.
Proof.
  unfold wp, try_except. destruct (m s) as [s' [a|e]]; cbn; auto.
Qed.

End WpRules.

Section SupervisorRules.
Context `{PyRuntime}.
Import AdaptiveExecutor BotSupervisor.

Lemma wp_on_system {A} (m : M system A) (Q : world -> result A -> Prop)
    (w : world) :
  (forall sy r, Q {| sup := sup w; system_ := sy |} r) ->
  wp (on_system m) Q w.
Proof.
  intros HQ. unfold wp, on_system. destruct (m (system_ w)) as [sy r]. apply HQ.
Qed.

Lemma wp_registry_update (o : Utils.io_outcomes) (b : pydict)
    (Q : world -> result pydict -> Prop) (w : world) :
  (forall sy r, Q {| sup := sup w; system_ := sy |} r) ->
  wp (registry_update o b) Q w.
Proof. apply wp_on_system. Qed.

Lemma add_no_incidents (w : world) : add_incidents w [] = w.
Proof.
  destruct w as [[i m r inc] sy]. unfold add_incidents, with_sup. cbn.
  now rewrite app_nil_r.
Qed.

Lemma wp_record (rs : record_script) (b : pydict) (kind message : string)
    (data : pydict) (Q : world -> result unit -> Prop) (w : world) :
  (forall l,
     Forall (fun i => Incident.bot_id i = py_str (get_or_none "id" b)
                      /\ Incident.kind i = kind) l ->
     Q (add_incidents w l) (Ok tt)) ->
  wp (_record rs b kind message data) Q w.
Proof.
  intros HQ. unfold wp, _record.
  destruct (_ || _).
  - cbn. rewrite <- (add_no_incidents w) at 1. apply HQ. constructor.
  - cbn. apply HQ. repeat constructor.
Qed.

End SupervisorRules.

(** Runs the rules over the structure of a computation; the goals left are
    the postcondition at each way out. *)
Ltac wp_step :=
  lazymatch goal with
  | |- wp (mret _) _ _ => apply wp_ret
  | |- wp (raise _) _ _ => apply wp_raise
  | |- wp (lift_result _) _ _ => apply wp_lift_result
  | |- wp (gets _) _ _ => apply wp_gets
  | |- wp (modify _) _ _ => apply wp_modify
  | |- wp (_ ≫= _) _ _ => apply wp_bind
  | |- wp (try_except _ _) _ _ => apply wp_try
  | |- wp (BotSupervisor._record _ _ _ _ _) _ _ => apply wp_record; intros ? ?
  | |- wp (BotSupervisor.registry_update _ _) _ _ =>
      apply wp_registry_update; intros ? [?|?]
  | |- wp (BotSupervisor.on_system _) _ _ => apply wp_on_system; intros ? [?|?]
  | |- wp (BotSupervisor.set_restart_state _ _) _ _ =>
      unfold BotSupervisor.set_restart_state; apply wp_modify
  | |- wp (BotSupervisor.fallback_step _ _ _ _ _ _) _ _ =>
      unfold BotSupervisor.fallback_step
  | |- wp (if ?c then _ else _) _ _ => destruct c eqn:?
  | |- wp (match ?x with _ => _ end) _ _ => destruct x eqn:?
  | |- wp (let _ := _ in _) _ _ => cbv zeta
  | |- match ?x with Ok _ => _ | Raise _ => _ end => destruct x eqn:?
  | |- (fun _ => _) _ => cbv beta
  | |- (fun _ => _) _ _ => cbv beta
  end.

Ltac wp_go := repeat wp_step.

(** Closes a goal [Forall P (l1 ++ ... ++ ln)] from what [wp_record] knows
    about each [li]; [tac] derives [P i] from that. *)
Ltac forall_incidents tac :=
  rewrite ?Forall_app; repeat split;
  try solve [constructor];
  (eapply Forall_impl; [eassumption|]; cbv beta; intros ? [? ?]; tac).

Section SupervisorFacts.
Context `{PyRuntime}.
Variable cfg : Settings.
Import AdaptiveExecutor BotSupervisor.

Lemma record_about_bot (b : pydict) (k : string) (v : value) (i : Incident.t) :
  String.eqb k "id" = false ->
  Incident.bot_id i = py_str (get_or_none "id" (Dict.set k v b)) ->
  Incident.bot_id i = py_str (get_or_none "id" b).
Proof. intros Hk ->. now rewrite get_or_none_set, Hk. Qed.

Lemma handle_unhealthy_handled (s : heal_script) (b : pydict) (now : Z)
    (w : world) :
  let bot_id := py_str (get_or_none "id" b) in
  gate_closed (restart_state_of w bot_id) now = false ->
  handled bot_id now w (fst (_handle_unhealthy cfg s b now w)).
Proof.
  intros bot_id Hgate.
  change (wp (_handle_unhealthy cfg s b now)
            (fun w' _ => handled bot_id now w w') w).
  unfold _handle_unhealthy. fold bot_id.
  apply wp_bind. unfold wp at 1, _get_restart_state.
  unfold restart_state_of in Hgate.
  destruct (_restart_state (sup w) !! bot_id) as [st|] eqn:Est;
    simpl in Hgate; cbn [fst snd]; rewrite Hgate.
  all: wp_go.
  all: unfold add_incidents, with_sup in *.
  all: constructor; unfold restart_state_of; cbn;
    rewrite ?lookup_insert_eq, ?Est; cbn.
  all: try reflexivity.
  all: try solve [eauto].
  all: try solve [intros k Hk; rewrite ?lookup_insert_ne by congruence;
                  reflexivity].
  all: first
    [ exists (@nil Incident.t); split; [now rewrite app_nil_r|];
      split; [constructor|intros _; constructor]
    | rewrite <- ?app_assoc; eexists; split; [reflexivity|]; split;
      [ forall_incidents
          ltac:(match goal with
                | Hx : Incident.bot_id _ = _ |- _ => rewrite Hx
                end; rewrite ?get_or_none_set; reflexivity)
      | intros Hlim;
        forall_incidents
          ltac:(match goal with
                | Hk : Incident.kind _ = _ |- _ => rewrite Hk
                end;
                first
                  [ discriminate
                  | exfalso;
                    match goal with
                    | Hlt : (_ <? _) = true |- _ =>
                        apply Z.ltb_lt in Hlt; cbn in Hlt; lia
                    end ]) ] ].
Qed.

(** Behind the gate nothing happens at all. *)
Lemma handle_unhealthy_gate_closed (s : heal_script) (b : pydict) (now : Z)
    (w : world) (st : RestartState.t) (deadline : Z) :
  _restart_state (sup w) !! py_str (get_or_none "id" b) = Some st ->
  RestartState.next_allowed_at st = Some deadline ->
  now < deadline ->
  _handle_unhealthy cfg s b now w = (w, Ok tt).
Proof.
  intros Hst Hd Hlt. unfold _handle_unhealthy.
  unfold mbind at 1, M_bind at 1, _get_restart_state. rewrite Hst.
  unfold gate_closed. rewrite Hd.
  now rewrite (proj2 (Z.ltb_lt now deadline) Hlt).
Qed.

(** Past the gate and below the limit, the handling returns normally and
    the next attempt is allowed from the backoff deadline on. *)
Lemma handle_unhealthy_backoff (s : heal_script) (b : pydict) (now : Z)
    (w : world) :
  let bot_id := py_str (get_or_none "id" b) in
  let st := restart_state_of w bot_id in
  gate_closed st now = false ->
  RestartState.failures st + 1 <= max_failures (sup w) ->
  is_ok (mode_of b) = true ->
  snd (_handle_unhealthy cfg s b now w) = Ok tt
  /\ _restart_state (sup (fst (_handle_unhealthy cfg s b now w))) !! bot_id
     = Some {| RestartState.failures := RestartState.failures st + 1;
               RestartState.last_attempt_at := Some now;
               RestartState.next_allowed_at :=
                 Some (backoff_deadline now (RestartState.failures st + 1)) |}.
Proof.
  intros bot_id st Hgate Hlim Hmode.
  change (wp (_handle_unhealthy cfg s b now)
            (fun w' r =>
               r = Ok tt
               /\ _restart_state (sup w') !! bot_id
                  = Some {| RestartState.failures := RestartState.failures st + 1;
                            RestartState.last_attempt_at := Some now;
                            RestartState.next_allowed_at :=
                              Some (backoff_deadline now
                                      (RestartState.failures st + 1)) |}) w).
  unfold _handle_unhealthy, fallback_step. fold bot_id.
  destruct (mode_of b) as [mode|] eqn:Em; [clear Hmode|discriminate].
  apply wp_bind. unfold wp at 1, _get_restart_state.
  unfold st, restart_state_of in *.
  destruct (_restart_state (sup w) !! bot_id) as [st0|] eqn:Est;
    simpl in Hgate, Hlim; cbn [fst snd]; rewrite Hgate.
  all: wp_go.
  all: unfold add_incidents, with_sup in *; cbn in *.
  all: try match goal with
           | Hlt : (_ <? _) = true |- _ => apply Z.ltb_lt in Hlt; lia
           end.
  all: split; [reflexivity|].
  all: now rewrite lookup_insert_eq.
Qed.

Lemma wp_registry_update_saved (o : Utils.io_outcomes) (b : pydict)
    (Q : world -> result pydict -> Prop) (w : world) :
  frame_ok (mk_frame (executor (system_ w)) (registry (system_ w)) b) ->
  Utils.io_fine o ->
  Q {| sup := sup w;
       system_ := {| executor := executor (system_ w);
                     registry := saved o (registry (system_ w)) b |} |}
    (Ok (_normalize_for_json b)) ->
  wp (registry_update o b) Q w.
Proof.
  intros (Hk & Hin & Hc & Hb) Hio HQ. unfold wp, registry_update, on_system.
  cbn in Hk, Hin, Hc, Hb.
  now rewrite update_bot_saved.
Qed.

Lemma wp_record_appended (rs : record_script) (b : pydict)
    (kind message : string) (data : pydict)
    (Q : world -> result unit -> Prop) (w : world) :
  rc_append rs = None -> json_serializable (VDict data) = true ->
  Q (add_incidents w
       [{| Incident.incident_id :=
             "inc-" +:+ py_str (get_or_none "id" b) +:+ "-"
               +:+ pretty (rc_epoch rs);
           Incident.bot_id := py_str (get_or_none "id" b);
           Incident.bot_name := py_str (get_or_none "name" b);
           Incident.kind := kind;
           Incident.message := message;
           Incident.created_at := isoformat (rc_created_at rs);
           Incident.data := data |}]) (Ok tt) ->
  wp (_record rs b kind message data) Q w.
Proof.
  intros Ha Hd HQ. unfold wp, _record. rewrite Ha, Hd.
  rewrite (bool_decide_eq_false_2 (is_Some None)) by apply is_Some_None.
  exact HQ.
Qed.

(** Past the gate and above the limit, with a record the registry takes
    and a log that can be written: the record is persisted as quarantined
    and exactly one incident, the quarantine, is appended. *)
Lemma handle_unhealthy_quarantine (s : heal_script) (b : pydict) (now : Z)
    (w : world) :
  let bot_id := py_str (get_or_none "id" b) in
  let st := restart_state_of w bot_id in
  let n := RestartState.failures st + 1 in
  let b3 := quarantined_record n (he_quarantine_at s) b in
  let w' := fst (_handle_unhealthy cfg s b now w) in
  gate_closed st now = false ->
  max_failures (sup w) < n ->
  frame_ok (mk_frame (executor (system_ w)) (registry (system_ w)) b) ->
  Utils.io_fine (he_save_quarantine s) ->
  rc_append (he_rec_quarantined s) = None ->
  snd (_handle_unhealthy cfg s b now w) = Ok tt
  /\ registry (system_ w') = saved (he_save_quarantine s) (registry (system_ w)) b3
  /\ executor (system_ w') = executor (system_ w)
  /\ incidents (sup w')
     = incidents (sup w) ++ [quarantine_incident (he_rec_quarantined s) n b].
Proof.
  intros bot_id st n b3 w' Hgate Hlim Hf Hio Happ.
  assert (Hf3 : frame_ok (mk_frame (executor (system_ w)) (registry (system_ w)) b3)).
  { unfold b3, quarantined_record.
    do 3 (apply frame_ok_set; [|reflexivity|reflexivity]). exact Hf. }
  unfold w'.
  change (wp (_handle_unhealthy cfg s b now)
            (fun w' r =>
               r = Ok tt
               /\ registry (system_ w')
                  = saved (he_save_quarantine s) (registry (system_ w)) b3
               /\ executor (system_ w') = executor (system_ w)
               /\ incidents (sup w')
                  = incidents (sup w)
                      ++ [quarantine_incident (he_rec_quarantined s) n b]) w).
  unfold _handle_unhealthy. fold bot_id.
  apply wp_bind. unfold wp at 1, _get_restart_state.
  unfold n, st, restart_state_of in *.
  destruct (_restart_state (sup w) !! bot_id) as [st0|] eqn:Est;
    simpl in Hgate, Hlim, b3; cbn [fst snd]; rewrite Hgate.
  all: apply wp_bind; unfold set_restart_state; apply wp_modify.
  all: apply wp_bind; apply wp_gets.
  all: match goal with
       | |- context [?a <? ?c] =>
           replace (a <? c) with true
             by (symmetry; apply Z.ltb_lt; cbn in *; lia)
       end.
  all: apply wp_bind.
  all: apply wp_registry_update_saved; [exact Hf3|exact Hio|].
  all: apply wp_record_appended; [exact Happ|reflexivity|].
  all: cbn.
  all: repeat split.
  all: unfold quarantine_incident, b3, quarantined_record.
  all: now rewrite !get_or_none_set.
Qed.

End SupervisorFacts.

Section TickFacts.
Context `{PyRuntime}.
Variable cfg : Settings.
Import AdaptiveExecutor BotSupervisor.

Lemma gate_closed_true (w : world) (bot_id : string) (now : Z) :
  gate_closed (restart_state_of w bot_id) now = true ->
  exists st deadline,
    _restart_state (sup w) !! bot_id = Some st
    /\ RestartState.next_allowed_at st = Some deadline /\ now < deadline.
Proof.
  unfold restart_state_of, gate_closed.
  destruct (_restart_state (sup w) !! bot_id) as [st|]; simpl; [|discriminate].
  destruct (RestartState.next_allowed_at st) as [d|] eqn:Ed; [|discriminate].
  intros Hlt%Z.ltb_lt. exists st, d. repeat split; assumption.
Qed.

Lemma gate_open_after (w : world) (bot_id : string) (now deadline : Z) :
  RestartState.next_allowed_at (restart_state_of w bot_id) = Some deadline ->
  gate_closed (restart_state_of w bot_id) now = false -> deadline <= now.
Proof.
  unfold gate_closed. intros ->. intros Hge%Z.ltb_ge. exact Hge.
Qed.

(** Whatever a handling does, the incidents it appends are about its bot. *)
Lemma handle_unhealthy_incidents (s : heal_script) (b : pydict) (now : Z)
    (w : world) :
  exists incs,
    incidents (sup (fst (_handle_unhealthy cfg s b now w)))
    = incidents (sup w) ++ incs
    /\ Forall (fun i => Incident.bot_id i = py_str (get_or_none "id" b)) incs.
Proof.
  destruct (gate_closed (restart_state_of w (py_str (get_or_none "id" b))) now)
    eqn:Hg.
  - apply gate_closed_true in Hg as (st & d & Hst & Hd & Hlt).
    rewrite (handle_unhealthy_gate_closed cfg s b now w st d Hst Hd Hlt).
    exists []. split; [now rewrite app_nil_r|constructor].
  - destruct (hd_incidents _ _ _ _ (handle_unhealthy_handled cfg s b now w Hg))
      as (incs & Hi & Hb & _).
    eauto.
Qed.

Lemma is_bot_healthy_world (hs : health_script) (b : pydict) :
  preserves (fun w : world => w) (_is_bot_healthy hs b).
Proof.
  unfold _is_bot_healthy. repeat preserves_step.
Qed.

Lemma incidents_about_others (bot_id k : string) (l incs : list Incident.t) :
  k <> bot_id -> Forall (fun i => Incident.bot_id i = k) incs ->
  incidents_about bot_id (l ++ incs) = incidents_about bot_id l.
Proof.
  intros Hk Hincs. unfold incidents_about. rewrite filter_app.
  induction Hincs as [|i incs Hi _ IH].
  - now rewrite app_nil_r.
  - rewrite filter_cons_False by congruence. exact IH.
Qed.

Lemma status_error_not_supervised (b : pydict) :
  get_or_none "status" b = _status_value ERROR -> supervised b = false.
Proof. intros Hs. unfold supervised. now rewrite Hs. Qed.

(** A tick appends nothing about a bot whose records it does not
    supervise. *)
Lemma tick_loop_incidents (bot_id : string) (now : Z)
    (scripts : nat -> tick_script) (bots : list pydict) :
  (forall b, b ∈ bots -> py_str (get_or_none "id" b) = bot_id ->
             supervised b = false) ->
  forall (i : nat) (w : world),
    incidents_about bot_id
      (incidents (sup (fst (tick_loop cfg now scripts i bots w))))
    = incidents_about bot_id (incidents (sup w)).
Proof.
  induction bots as [|b bots IH]; intros Hbots i w; [reflexivity|].
  cbn [tick_loop].
  set (step := if supervised b then _ else _).
  assert (Hstep : incidents_about bot_id (incidents (sup (fst (step w))))
                  = incidents_about bot_id (incidents (sup w))).
  { unfold step. destruct (supervised b) eqn:Hsup; [|reflexivity].
    assert (Hne : py_str (get_or_none "id" b) <> bot_id).
    { intros Heq. rewrite (Hbots b) in Hsup; [discriminate| |exact Heq].
      apply list_elem_of_here. }
    unfold mbind, M_bind.
    pose proof (is_bot_healthy_world (tk_health (scripts i)) b w) as Hw.
    destruct (_is_bot_healthy (tk_health (scripts i)) b w) as [w1 [[|]|e]];
      cbn in Hw; subst w1; try reflexivity.
    destruct (handle_unhealthy_incidents (tk_heal (scripts i)) b now w)
      as (incs & -> & Hincs).
    now apply (incidents_about_others bot_id (py_str (get_or_none "id" b))). }
  unfold mbind, M_bind.
  destruct (step w) as [w1 [[]|e]]; cbn in Hstep.
  - rewrite IH; [exact Hstep|].
    intros b' Hb'. apply Hbots. now apply list_elem_of_further.
  - exact Hstep.
Qed.

End TickFacts.

(* ===================================================================== *)
(** * The supervisor: backoff gate and quarantine *)
(* ===================================================================== *)

Section SupervisorClaims.
Context `{PyRuntime}.
Variable cfg : Settings.
Import AdaptiveExecutor BotSupervisor.

Lemma restart_state_of_interference (bot_id : string) (w w' : world) :
  interference bot_id w w' ->
  restart_state_of w' bot_id = restart_state_of w bot_id.
Proof. intros [Hr _]. unfold restart_state_of. now rewrite Hr. Qed.

(** Every handling past the gate counts as one failure. *)
Lemma handled_past_gate_count (bot_id : string) (n : nat) (w0 w1 : world) :
  handled_past_gate cfg bot_id n w0 w1 ->
  RestartState.failures (restart_state_of w1 bot_id)
  = RestartState.failures (restart_state_of w0 bot_id) + Z.of_nat n
  /\ max_failures (sup w1) = max_failures (sup w0).
Proof.
  induction 1 as [w w' Hi|n w0 w1 w2 s b now _ IH Hid Hgate Hi].
  - rewrite (restart_state_of_interference _ _ _ Hi).
    split; [cbn; lia|apply Hi].
  - destruct IH as [IHf IHm]. subst bot_id.
    pose proof (handle_unhealthy_handled cfg s b now w1 Hgate) as Hh.
    rewrite (restart_state_of_interference _ _ _ Hi).
    rewrite (hd_failures _ _ _ _ Hh), IHf.
    split; [lia|].
    destruct Hi as [_ ->]. now rewrite (hd_max _ _ _ _ Hh).
Qed.

(** C3: behind the gate, [_handle_unhealthy] returns at once and leaves
    the whole world as it is: no failure counted, no incident, no call of
    the executor.  Past the gate and below the quarantine limit (the bot's
    deployment_config being a mapping or empty), it returns normally with
    [next_allowed_at = now + min(60, 2^failures)] seconds, [failures] being
    the count after this attempt; so until that instant a further handling
    of the same bot does nothing, and one that passes the gate comes at
    least that much later. *)
Theorem handle_unhealthy_backoff_gate (s : heal_script) (b : pydict)
    (now : Z) (w : world) :
  let bot_id := py_str (get_or_none "id" b) in
  let st := restart_state_of w bot_id in
  (forall deadline,
     RestartState.next_allowed_at st = Some deadline -> now < deadline ->
     _handle_unhealthy cfg s b now w = (w, Ok tt))
  /\ (gate_closed st now = false ->
      RestartState.failures st + 1 <= max_failures (sup w) ->
      is_ok (mode_of b) = true ->
      let w' := fst (_handle_unhealthy cfg s b now w) in
      let failures := RestartState.failures st + 1 in
      let gap := timedelta_seconds (Z.min 60 (2 ^ failures)) in
      snd (_handle_unhealthy cfg s b now w) = Ok tt
      /\ RestartState.failures (restart_state_of w' bot_id) = failures
      /\ RestartState.next_allowed_at (restart_state_of w' bot_id)
         = Some (now + gap)
      /\ forall s2 b2 now2 w2,
           py_str (get_or_none "id" b2) = bot_id ->
           interference bot_id w' w2 ->
           (now2 < now + gap ->
            _handle_unhealthy cfg s2 b2 now2 w2 = (w2, Ok tt))
           /\ (gate_closed (restart_state_of w2 bot_id) now2 = false ->
               now + gap <= now2)).
Proof.
  intros bot_id st. split.
  - intros deadline Hd Hlt. unfold st, restart_state_of in Hd.
    destruct (_restart_state (sup w) !! bot_id) as [st0|] eqn:Est;
      [|discriminate].
    exact (handle_unhealthy_gate_closed cfg s b now w st0 deadline Est Hd Hlt).
  - intros Hgate Hlim Hmode w' failures gap.
    destruct (handle_unhealthy_backoff cfg s b now w Hgate Hlim Hmode)
      as [Hr Hst].
    fold bot_id st in Hst. fold w' in Hst.
    assert (Hst' : restart_state_of w' bot_id
                   = {| RestartState.failures := failures;
                        RestartState.last_attempt_at := Some now;
                        RestartState.next_allowed_at := Some (now + gap) |}).
    { unfold restart_state_of. now rewrite Hst. }
    split; [exact Hr|]. rewrite Hst'. split; [reflexivity|].
    split; [reflexivity|].
    intros s2 b2 now2 w2 Hid Hi.
    pose proof (restart_state_of_interference _ _ _ Hi) as Hw2.
    rewrite Hst' in Hw2. split.
    + intros Hlt. destruct Hi as [Hi _]. rewrite Hst in Hi.
      rewrite <- Hid in Hi.
      exact (handle_unhealthy_gate_closed cfg s2 b2 now2 w2 _ (now + gap)
               Hi eq_refl Hlt).
    + intros Hopen. apply (gate_open_after w2 bot_id); [|exact Hopen].
      now rewrite Hw2.
Qed.

(** C2: a supervisor built with a limit [m >= 1] that has handled the bot
    [m] times past the gate, from a fresh restart state, quarantines it at
    the next handling past the gate: the record the registry then holds
    under the bot's id, in the cache and on disk, has the status error and
    as [last_error] the text Supervisor quarantined bot after N failed heal
    attempts, N being m + 1; and exactly one incident is appended, of kind
    quarantined, about this bot, with that same text as its message (the
    registry taking the record and the log being writable).  A handling
    below the limit appends no quarantined incident.  A tick appends no
    incident about a bot all of whose records have status ERROR. *)
Theorem supervisor_quarantine (interval m : Z) (w0 w1 : world)
    (s : heal_script) (b : pydict) (now : Z) :
  let bot_id := py_str (get_or_none "id" b) in
  let b3 := quarantined_record (m + 1) (he_quarantine_at s) b in
  let w2 := fst (_handle_unhealthy cfg s b now w1) in
  1 <= m ->
  sup w0 = init interval m ->
  handled_past_gate cfg bot_id (Z.to_nat m) w0 w1 ->
  gate_closed (restart_state_of w1 bot_id) now = false ->
  frame_ok (mk_frame (executor (system_ w1)) (registry (system_ w1)) b) ->
  Utils.io_fine (he_save_quarantine s) ->
  rc_append (he_rec_quarantined s) = None ->
  (snd (_handle_unhealthy cfg s b now w1) = Ok tt
   /\ registry (system_ w2)
      = saved (he_save_quarantine s) (registry (system_ w1)) b3
   /\ on_disk (registry (system_ w2)) (_normalize_for_json b3)
   /\ Dict.get "status" b3 = Some (_status_value ERROR)
   /\ Dict.get "last_error" b3 = Some (VStr (quarantine_message (m + 1)))
   /\ incidents (sup w2)
      = incidents (sup w1)
          ++ [quarantine_incident (he_rec_quarantined s) (m + 1) b]
   /\ (exists stored,
         SecureRegistry.get_bot_by_id (registry (system_ w2)) (bot_key b)
           = Some stored
         /\ on_disk (registry (system_ w2)) stored
         /\ Dict.get "status" stored = Some (VStr "error")
         /\ Dict.get "last_error" stored
            = Some (VStr ("Supervisor quarantined bot after "
                            +:+ pretty (m + 1) +:+ " failed heal attempts")))
   /\ (exists i,
         incidents (sup w2) = incidents (sup w1) ++ [i]
         /\ Incident.kind i = "quarantined"
         /\ Incident.bot_id i = bot_id
         /\ Incident.message i
            = "Supervisor quarantined bot after "
                +:+ pretty (m + 1) +:+ " failed heal attempts"
         /\ Incident.data i = [("failures", VInt (m + 1))]))
  /\ (forall s' b' now' w,
        gate_closed (restart_state_of w (py_str (get_or_none "id" b'))) now'
          = false ->
        RestartState.failures
          (restart_state_of w (py_str (get_or_none "id" b'))) + 1
          <= max_failures (sup w) ->
        exists incs,
          incidents (sup (fst (_handle_unhealthy cfg s' b' now' w)))
          = incidents (sup w) ++ incs
          /\ Forall (fun i => Incident.kind i <> "quarantined") incs)
  /\ (forall now' scripts w,
        (forall rec,
           rec ∈ SecureRegistry.get_all_bots (registry (system_ w)) ->
           py_str (get_or_none "id" rec) = bot_id ->
           get_or_none "status" rec = _status_value ERROR) ->
        incidents_about bot_id
          (incidents (sup (fst (tick cfg now' scripts w))))
        = incidents_about bot_id (incidents (sup w))).
Proof.
  intros bot_id b3 w2 Hm Hinit Hpast Hgate Hf Hio Happ.
  destruct (handled_past_gate_count bot_id _ _ _ Hpast) as [Hcount Hmax].
  assert (Hfresh : restart_state_of w0 bot_id = RestartState.fresh).
  { unfold restart_state_of. rewrite Hinit. cbn. now rewrite lookup_empty. }
  rewrite Hfresh in Hcount. cbn in Hcount. rewrite Z2Nat.id in Hcount by lia.
  rewrite Hinit in Hmax. cbn in Hmax. rewrite Z.max_r in Hmax by lia.
  assert (Hover : max_failures (sup w1)
                  < RestartState.failures (restart_state_of w1 bot_id) + 1)
    by lia.
  destruct (handle_unhealthy_quarantine cfg s b now w1 Hgate Hover Hf Hio Happ)
    as (Hr & Hreg & _ & Hinc).
  fold bot_id in Hreg, Hinc. rewrite Hcount in Hreg, Hinc.
  cbn [Z.add] in Hreg, Hinc.
  assert (E : 0 + m + 1 = m + 1) by lia.
  rewrite ?E in Hreg, Hinc. fold w2 in Hreg, Hinc. fold b3 in Hreg.
  destruct Hio as (Hio1 & Hio2 & Hio').
  split; [|split].
  - split; [exact Hr|]. split; [exact Hreg|].
    split; [rewrite Hreg; now apply saved_on_disk|].
    split; [unfold b3, quarantined_record; now rewrite !dict_get_set|].
    split; [unfold b3, quarantined_record; now rewrite !dict_get_set|].
    split; [exact Hinc|]. split.
    + exists (_normalize_for_json b3).
      assert (Hk3 : bot_key b3 = bot_key b).
      { unfold b3, quarantined_record. now rewrite !bot_key_set. }
      split; [|split; [|split]].
      * unfold SecureRegistry.get_bot_by_id.
        rewrite Hreg, saved_cache, Hk3, lookup_insert_eq.
        destruct (_normalize_for_json b3) eqn:En; [|reflexivity].
        unfold _normalize_for_json in En. apply map_eq_nil in En.
        unfold b3, quarantined_record in En. exfalso. revert En.
        generalize (Dict.set "last_error" (VStr (quarantine_message (m + 1)))
                      (Dict.set "status" (_status_value ERROR) b)).
        intros [|[k0 v0] d0]; cbn; [discriminate|].
        destruct (String.eqb k0 "updated_at"); discriminate.
      * rewrite Hreg. now apply saved_on_disk.
      * apply dict_get_normalize_str.
        unfold b3, quarantined_record. now rewrite !dict_get_set.
      * apply dict_get_normalize_str.
        unfold b3, quarantined_record. now rewrite !dict_get_set.
    + eexists. split; [exact Hinc|]. repeat split.
  - intros s' b' now' w Hg Hl.
    destruct (hd_incidents _ _ _ _ (handle_unhealthy_handled cfg s' b' now' w Hg))
      as (incs & Hi & _ & Hk).
    exists incs. split; [exact Hi|]. apply Hk. exact Hl.
  - intros now' scripts w Hrec. unfold tick.
    unfold mbind, M_bind, gets. cbn [fst snd].
    apply tick_loop_incidents.
    intros rec Hin Hid. apply status_error_not_supervised.
    now apply Hrec.
Qed.

End SupervisorClaims.

Lemma sample_world_after_one_frame_ok :
  @frame_ok sample_runtime
    (mk_frame (AdaptiveExecutor.executor (BotSupervisor.system_ sample_world_after_one))
              (AdaptiveExecutor.registry (BotSupervisor.system_ sample_world_after_one))
              sample_bot).
Proof.
  unfold frame_ok. cbn [AdaptiveExecutor.bot AdaptiveExecutor.sys
                        AdaptiveExecutor.registry mk_frame].
  split; [vm_compute; discriminate|].
  split; [vm_compute; eauto|].
  split; [|reflexivity].
  apply map_Forall_to_list. vm_compute. repeat constructor.
Qed.

(** C3 at the sample bot: the first handling, at time 0, sets the deadline
    two seconds later, and a handling one second later does nothing. *)
Lemma handle_unhealthy_backoff_gate_witness :
  RestartState.next_allowed_at (restart_state_of sample_world_after_one "b1")
  = Some 2000000
  /\ @BotSupervisor._handle_unhealthy sample_runtime sample_settings
       heal_script_good sample_bot 1000000 sample_world_after_one
     = (sample_world_after_one, Ok tt).
Proof.
  destruct (@handle_unhealthy_backoff_gate sample_runtime sample_settings
              heal_script_good sample_bot 0 (sample_world 1)) as [_ Hpast].
  destruct Hpast as (_ & _ & Hnext & _);
    [reflexivity | vm_compute; discriminate | reflexivity |].
  split; [exact Hnext|].
  destruct (@handle_unhealthy_backoff_gate sample_runtime sample_settings
              heal_script_good sample_bot 1000000 sample_world_after_one)
    as [Hgate _].
  apply (Hgate 2000000); [exact Hnext | reflexivity].
Defined.

(** C2 at the sample bot and the limit 1: the second handling past the gate
    quarantines, and the incident carries the text for two failures. *)
Lemma supervisor_quarantine_witness :
  exists i,
    BotSupervisor.incidents
      (BotSupervisor.sup
         (fst (@BotSupervisor._handle_unhealthy sample_runtime sample_settings
                 heal_script_good sample_bot 5000000 sample_world_after_one)))
    = BotSupervisor.incidents (BotSupervisor.sup sample_world_after_one) ++ [i]
    /\ Incident.kind i = "quarantined"
    /\ Incident.message i
       = "Supervisor quarantined bot after 2 failed heal attempts".
Proof.
  destruct (@supervisor_quarantine sample_runtime sample_settings 5 1
              (sample_world 1) sample_world_after_one heal_script_good
              sample_bot 5000000) as [Hq _].
  - lia.
  - reflexivity.
  - apply (@handled_more sample_runtime sample_settings _ 0 (sample_world 1)
             (sample_world 1) sample_world_after_one heal_script_good
             sample_bot 0).
    + apply handled_none. split; reflexivity.
    + reflexivity.
    + reflexivity.
    + split; reflexivity.
  - reflexivity.
  - exact sample_world_after_one_frame_ok.
  - repeat split.
  - reflexivity.
  - destruct Hq as (_ & _ & _ & _ & _ & _ & _ & i & Hi & Hk & _ & Hm & _).
    exists i. split; [exact Hi|]. split; [exact Hk|exact Hm].
Defined.

(* ===================================================================== *)
(** * app/utils.py: what a save leaves behind *)
(* ===================================================================== *)

Lemma cleanup_other (o : Utils.io_outcomes) (tmp_path p : string)
    (fs : Utils.filesystem) :
  p <> tmp_path ->
  Utils.files (Utils.cleanup o tmp_path fs) !! p = Utils.files fs !! p
  /\ Utils.journal (Utils.cleanup o tmp_path fs) = Utils.journal fs.
Proof.
  intros Hne. unfold Utils.cleanup.
  destruct (Utils.exists_ tmp_path fs); [|done].
  destruct (Utils.io_remove o); [done|]. simpl.
  split; [|done]. now apply lookup_delete_ne.
Qed.

(** X1: a call of [atomic_save_json] that raises leaves every file other
    than its temporary file as it was, the target included, and puts no
    document in place; a call that returns changes no file besides the
    target and the temporary file. *)
Theorem atomic_save_json_atomic (o : Utils.io_outcomes)
    (fs : Utils.filesystem) (filename : string) (data : value) (p : string) :
  let out := Utils.atomic_save_json o fs filename data in
  (forall tmp_path, Utils.io_mktemp o = Ok tmp_path -> p <> tmp_path) ->
  (snd out <> Ok tt ->
   Utils.files (fst out) !! p = Utils.files fs !! p
   /\ Utils.journal (fst out) = Utils.journal fs)
  /\ (snd out = Ok tt -> p <> filename ->
      Utils.files (fst out) !! p = Utils.files fs !! p).
Proof.
  intros out Htmp. subst out. unfold Utils.atomic_save_json.
  destruct (Utils.io_makedirs o); [done|].
  destruct (Utils.io_mktemp o) as [tmp|]; [|done].
  assert (Hne : p <> tmp) by now apply Htmp.
  assert (Hput : forall c, Utils.files (Utils.put tmp c fs) !! p
                           = Utils.files fs !! p).
  { intros c. simpl. now apply lookup_insert_ne. }
  destruct (negb (json_serializable data) || _); [by rewrite <- (Hput Utils.Unfinished)|].
  destruct (Utils.io_close o).
  { simpl. split; [|done]. intros _.
    destruct (cleanup_other o tmp p (Utils.put tmp Utils.Unfinished fs) Hne)
      as [-> ->]. by rewrite Hput. }
  destruct (Utils.io_fsync o).
  { simpl. split; [|done]. intros _.
    destruct (cleanup_other o tmp p (Utils.put tmp (Utils.Document data) fs) Hne)
      as [-> ->]. by rewrite Hput. }
  destruct (Utils.io_replace o).
  { simpl. split; [|done]. intros _.
    destruct (cleanup_other o tmp p (Utils.put tmp (Utils.Document data) fs) Hne)
      as [-> ->]. by rewrite Hput. }
  simpl. split; [done|]. intros _ Hp.
  rewrite lookup_insert_ne by done. rewrite lookup_delete_ne by done.
  now apply lookup_insert_ne.
Qed.

(** X1 at the sample registry file: the rename fails and the file keeps
    its document. *)
Lemma atomic_save_json_atomic_witness :
  let fs := SecureRegistry.fs sample_registry in
  Utils.files
    (fst (Utils.atomic_save_json (io_rename_fails "registry.json.k4.tmp") fs
            "registry.json" (VDict []))) !! "registry.json"
  = Utils.files fs !! "registry.json".
Proof.
  intros fs.
  destruct (atomic_save_json_atomic (io_rename_fails "registry.json.k4.tmp") fs
              "registry.json" (VDict []) "registry.json") as [Hfail _].
  - intros tmp_path Htmp. injection Htmp as <-. discriminate.
  - apply Hfail. vm_compute. discriminate.
Defined.

(** X2: what [atomic_save_json] has saved, [load_json] reads back
    unchanged, whenever the file can be read. *)
Theorem load_json_after_save (o : Utils.io_outcomes) (ld : Utils.load_outcomes)
    (fs : Utils.filesystem) (filename : string) (data : value) :
  let out := Utils.atomic_save_json o fs filename data in
  snd out = Ok tt ->
  Utils.ld_read ld = None ->
  Utils.load_json ld (fst out) filename = data.
Proof.
  intros out Hok Hread. subst out. unfold Utils.load_json. rewrite Hread.
  revert Hok. unfold Utils.atomic_save_json.
  destruct (Utils.io_makedirs o); [done|].
  destruct (Utils.io_mktemp o) as [tmp|]; [|done].
  destruct (negb (json_serializable data) || _); [done|].
  destruct (Utils.io_close o); [done|].
  destruct (Utils.io_fsync o); [done|].
  destruct (Utils.io_replace o); [done|].
  intros _. simpl. now rewrite lookup_insert_eq.
Qed.

(** X2 at a small document. *)
Lemma load_json_after_save_witness :
  Utils.load_json {| Utils.ld_read := None; Utils.ld_partial := None |}
    (fst (Utils.atomic_save_json (io_good "cfg.json.k5.tmp") empty_fs
            "cfg.json" (VDict [("n", VInt 3)]))) "cfg.json"
  = VDict [("n", VInt 3)].
Proof.
  apply (load_json_after_save (io_good "cfg.json.k5.tmp")
           {| Utils.ld_read := None; Utils.ld_partial := None |} empty_fs
           "cfg.json" (VDict [("n", VInt 3)])); reflexivity.
Defined.

(** X3: a [with AtomicFileWriter(filepath)] block that ends normally has
    put what its body wrote in the target; one that raises leaves every
    file other than the temporary one as it was; and an exception of the
    body reaches the caller as it is once the temporary file is closed. *)
Theorem atomic_file_writer_outcome (w : Utils.writer_outcomes)
    (body : result Utils.fcontent) (fs : Utils.filesystem)
    (filepath p : string) :
  let out := Utils.atomic_file_writer w body fs filepath in
  (forall tmp_path, Utils.aw_mktemp w = Ok tmp_path -> p <> tmp_path) ->
  (snd out = Ok tt ->
   exists c, body = Ok c /\ Utils.files (fst out) !! filepath = Some c)
  /\ (snd out <> Ok tt -> Utils.files (fst out) !! p = Utils.files fs !! p)
  /\ (forall e, body = Raise e ->
        Utils.aw_makedirs w = None -> is_ok (Utils.aw_mktemp w) = true ->
        Utils.aw_close w = None ->
        snd out = Raise e).
Proof.
  intros out Htmp. subst out. unfold Utils.atomic_file_writer.
  destruct (Utils.aw_makedirs w); [naive_solver|].
  destruct (Utils.aw_mktemp w) as [tmp|]; [|naive_solver].
  assert (Hne : p <> tmp) by now apply Htmp.
  assert (Hclean : forall c,
             Utils.files
               (fst (Utils.cleanup_file (Utils.aw_remove w) tmp
                       (Utils.put tmp c fs))) !! p
             = Utils.files fs !! p).
  { intros c. unfold Utils.cleanup_file.
    destruct (Utils.exists_ tmp _); [|simpl; now apply lookup_insert_ne].
    destruct (Utils.aw_remove w); simpl.
    - now apply lookup_insert_ne.
    - rewrite lookup_delete_ne by done. now apply lookup_insert_ne. }
  destruct (Utils.aw_close w).
  { simpl. split; [done|]. split; [|done]. intros _. now apply lookup_insert_ne. }
  destruct body as [c|e].
  - destruct (Utils.aw_fsync w); [naive_solver|].
    destruct (Utils.aw_replace w); [naive_solver|].
    simpl. split; [|naive_solver]. intros _. exists c.
    split; [done|]. apply lookup_insert_eq.
  - naive_solver.
Qed.

(** X3 where the body of the block raises. *)
Lemma atomic_file_writer_outcome_witness :
  snd (Utils.atomic_file_writer
         {| Utils.aw_makedirs := None; Utils.aw_mktemp := Ok "out.k6.tmp";
            Utils.aw_close := None; Utils.aw_fsync := None;
            Utils.aw_replace := None; Utils.aw_remove := None |}
         (Raise (Exn ValueError "bad row")) empty_fs "out.csv")
  = Raise (Exn ValueError "bad row").
Proof.
  refine (proj2 (proj2 (atomic_file_writer_outcome
           {| Utils.aw_makedirs := None; Utils.aw_mktemp := Ok "out.k6.tmp";
              Utils.aw_close := None; Utils.aw_fsync := None;
              Utils.aw_replace := None; Utils.aw_remove := None |}
           (Raise (Exn ValueError "bad row")) empty_fs "out.csv" "out.csv" _))
           _ eq_refl eq_refl eq_refl eq_refl).
  intros tmp_path Htmp. vm_compute in Htmp. injection Htmp as <-. discriminate.
Defined.

(* ===================================================================== *)
(** * The registry: loading, removing, bulk operations *)
(* ===================================================================== *)

Lemma atomic_save_ok_target (o : Utils.io_outcomes) (fs : Utils.filesystem)
    (filename : string) (data : value) :
  snd (Utils.atomic_save_json o fs filename data) = Ok tt ->
  Utils.files (fst (Utils.atomic_save_json o fs filename data)) !! filename
  = Some (Utils.Document data).
Proof.
  unfold Utils.atomic_save_json.
  destruct (Utils.io_makedirs o); [done|].
  destruct (Utils.io_mktemp o) as [tmp|]; [|done].
  destruct (negb (json_serializable data) || _); [done|].
  destruct (Utils.io_close o); [done|].
  destruct (Utils.io_fsync o); [done|].
  destruct (Utils.io_replace o); [done|].
  intros _. simpl. now rewrite lookup_insert_eq.
Qed.

Lemma atomic_save_result (o : Utils.io_outcomes) (fs : Utils.filesystem)
    (filename : string) (data : value) :
  snd (Utils.atomic_save_json o fs filename data) = Ok tt
  \/ snd (Utils.atomic_save_json o fs filename data)
     = Raise (Utils.atomic_save_failed filename).
Proof.
  unfold Utils.atomic_save_json.
  destruct (Utils.io_makedirs o); [by right|].
  destruct (Utils.io_mktemp o) as [tmp|]; [|by right].
  destruct (negb (json_serializable data) || _); [by right|].
  destruct (Utils.io_close o); [by right|].
  destruct (Utils.io_fsync o); [by right|].
  destruct (Utils.io_replace o); [by right|by left].
Qed.

Lemma atomic_save_json_files_kept (o : Utils.io_outcomes)
    (fs : Utils.filesystem) (filename : string) (data : value) (p : string) :
  (forall tmp_path, Utils.io_mktemp o = Ok tmp_path -> p <> tmp_path) ->
  snd (Utils.atomic_save_json o fs filename data) <> Ok tt ->
  Utils.files (fst (Utils.atomic_save_json o fs filename data)) !! p
  = Utils.files fs !! p.
Proof.
  intros Htmp. unfold Utils.atomic_save_json.
  destruct (Utils.io_makedirs o); [done|].
  destruct (Utils.io_mktemp o) as [tmp|]; [|done].
  assert (Hne : p <> tmp) by now apply Htmp.
  assert (Hput : forall c, Utils.files (Utils.put tmp c fs) !! p
                           = Utils.files fs !! p).
  { intros c. simpl. now apply lookup_insert_ne. }
  assert (Hclean : forall c,
             Utils.files (Utils.cleanup o tmp (Utils.put tmp c fs)) !! p
             = Utils.files fs !! p).
  { intros c. unfold Utils.cleanup.
    destruct (Utils.exists_ tmp _); [|apply Hput].
    destruct (Utils.io_remove o); [apply Hput|]. simpl.
    rewrite lookup_delete_ne by done. now apply lookup_insert_ne. }
  destruct (negb (json_serializable data) || _); [intros _; apply Hput|].
  destruct (Utils.io_close o); [intros _; apply Hclean|].
  destruct (Utils.io_fsync o); [intros _; apply Hclean|].
  destruct (Utils.io_replace o); [intros _; apply Hclean|].
  simpl. intros Hf. now contradiction Hf.
Qed.

Section RegistryMore.
Context `{PyRuntime}.
Import SecureRegistry.

Lemma save_cache (o : Utils.io_outcomes) (r : t) :
  _cache (fst (_save o r)) = _cache r /\ file (fst (_save o r)) = file r.
Proof. unfold _save. now destruct (Utils.atomic_save_json _ _ _ _). Qed.

Lemma save_result (o : Utils.io_outcomes) (r : t) :
  snd (_save o r) = Ok tt
  \/ snd (_save o r) = Raise (Utils.atomic_save_failed (file r)).
Proof.
  unfold _save.
  pose proof (atomic_save_result o (fs r) (file r) (registry_document o r)) as Hr.
  destruct (Utils.atomic_save_json _ _ _ _). exact Hr.
Qed.

Lemma save_ok_file (o : Utils.io_outcomes) (r : t) :
  snd (_save o r) = Ok tt ->
  Utils.files (fs (fst (_save o r))) !! file r
  = Some (Utils.Document (registry_document o r)).
Proof.
  unfold _save.
  pose proof (atomic_save_ok_target o (fs r) (file r) (registry_document o r))
    as Hr.
  destruct (Utils.atomic_save_json _ _ _ _). exact Hr.
Qed.

Lemma save_fine_ok (o : Utils.io_outcomes) (r : t) :
  Utils.io_fine o -> cache_ok (_cache r) -> snd (_save o r) = Ok tt.
Proof.
  intros Hio Hc. destruct (save_fine o r Hio Hc) as (tmp & _ & ->). reflexivity.
Qed.

(** ** Loading *)

Lemma load_records_consistent (raw : list value) (c : gmap string pydict) :
  keys_consistent c -> keys_consistent (load_records raw c).
Proof.
  revert c. induction raw as [|d raw IH]; intros c Hc; [exact Hc|].
  unfold load_records. cbn [fold_left]. apply IH.
  destruct d; try exact Hc.
  destruct (PyStr.is_empty (bot_key kvs)) eqn:E; [exact Hc|].
  apply map_Forall_insert_2; [|exact Hc].
  split; [reflexivity|]. intros Hk. apply is_empty_true in Hk. congruence.
Qed.

Lemma load_records_inserts (l : list (string * pydict))
    (c : gmap string pydict) :
  Forall (fun kb => bot_key (snd kb) = fst kb /\ fst kb <> EmptyString) l ->
  load_records (map (fun kb => VDict (snd kb)) l) c
  = fold_left (fun m kb => <[fst kb := snd kb]> m) l c.
Proof.
  intros Hl. revert c. induction Hl as [|[k b] l [Hk Hne] _ IH]; intros c;
    [reflexivity|].
  unfold load_records in *. cbn [map fold_left fst snd] in *.
  rewrite Hk. destruct (PyStr.is_empty k) eqn:E.
  { apply is_empty_true in E. contradiction. }
  apply IH.
Qed.

Lemma fold_insert_list_to_map (l : list (string * pydict)) :
  NoDup (l.*1) ->
  fold_left (fun m kb => <[fst kb := snd kb]> m) l (∅ : gmap string pydict)
  = list_to_map l.
Proof.
  induction l as [|[k b] l IH] using rev_ind; intros Hnd; [reflexivity|].
  rewrite fold_left_app. cbn [fold_left fst snd].
  rewrite fmap_app in Hnd. apply NoDup_app in Hnd as (Hl & Hk & _).
  rewrite IH by exact Hl. symmetry. apply list_to_map_snoc.
  intros Hin. apply (Hk k Hin). cbn. left.
Qed.

(** The records of a saved document, filed again, give the cache back. *)
Lemma load_records_document (c : gmap string pydict) :
  keys_consistent c ->
  load_records (map (fun kb => VDict (snd kb)) (map_to_list c)) ∅ = c.
Proof.
  intros Hc. rewrite load_records_inserts.
  - rewrite fold_insert_list_to_map by apply NoDup_fst_map_to_list.
    apply list_to_map_to_list.
  - apply Forall_forall. intros [k b] Hin.
    apply elem_of_map_to_list in Hin. exact (Hc k b Hin).
Qed.

Lemma init_after_save (o : Utils.io_outcomes) (ld : Utils.load_outcomes)
    (r : t) :
  keys_consistent (_cache r) ->
  snd (_save o r) = Ok tt ->
  Utils.ld_read ld = None ->
  _cache (init ld (file r) (fs (fst (_save o r)))) = _cache r.
Proof.
  intros Hc Hok Hread. unfold init, _load_initial_data. cbn [file fs].
  unfold Utils.load_json. rewrite (save_ok_file o r Hok), Hread.
  unfold registry_document, document_records. cbn [Dict.get String.eqb].
  cbn. now rewrite load_records_document.
Qed.

Lemma bot_key_normalize (b : pydict) :
  (forall d, Dict.get "id" b <> Some (VDatetime d)) ->
  bot_key (_normalize_for_json b) = bot_key b.
Proof.
  intros Hid. unfold bot_key. f_equal. f_equal. f_equal.
  unfold _normalize_for_json.
  induction b as [|[k v] b IH]; [reflexivity|].
  cbn [map Dict.get fst snd] in *.
  destruct (String.eqb k "id") eqn:E.
  - destruct v as [| | | |d| |]; cbn [fst Dict.get]; rewrite ?E;
      try reflexivity.
    exfalso. now apply (Hid d).
  - destruct v; cbn [fst Dict.get]; rewrite E; apply IH; exact Hid.
Qed.

End RegistryMore.

Section RegistryExtras.
Context `{PyRuntime}.
Import SecureRegistry.

(** X4: whatever the registry file holds, a registry built over it files
    every record under the record's own id, stripped and not blank; over a
    missing file it is empty. *)
Theorem init_keys_consistent (ld : Utils.load_outcomes)
    (registry_file : string) (fs0 : Utils.filesystem) :
  keys_consistent (_cache (init ld registry_file fs0))
  /\ (Utils.files fs0 !! registry_file = None ->
      _cache (init ld registry_file fs0) = ∅).
Proof.
  unfold init, _load_initial_data. cbn [file fs]. split.
  - destruct (document_records _); cbn [_cache with_cache].
    + apply load_records_consistent, map_Forall_empty.
    + apply map_Forall_empty.
  - intros Hnone. unfold Utils.load_json. rewrite Hnone. reflexivity.
Qed.

(** X5: a record that [register_bot] has stored survives a restart: a
    registry built afterwards over the same file holds the same cache, and
    [get_bot_by_id] finds the stored record in it. *)
Theorem register_bot_survives_restart (o : Utils.io_outcomes)
    (ld : Utils.load_outcomes) (r r' : t) (b stored : pydict) :
  keys_consistent (_cache r) ->
  (forall d, Dict.get "id" b <> Some (VDatetime d)) ->
  register_bot o r b = (r', Ok stored) ->
  Utils.ld_read ld = None ->
  _cache (init ld (file r') (fs r')) = _cache r'
  /\ get_bot_by_id (init ld (file r') (fs r')) (bot_key b) = Some stored.
Proof.
  intros Hc Hid Hreg Hread. unfold register_bot in Hreg.
  destruct (PyStr.is_empty (bot_key b)) eqn:E; [discriminate|].
  destruct (bool_decide _); [discriminate|].
  set (r1 := with_cache r _) in Hreg.
  pose proof (save_cache o r1) as [Hcache Hfile].
  pose proof (init_after_save o ld r1) as Hinit.
  destruct (_save o r1) as [r2 [[]|e]] eqn:Es; [|discriminate].
  injection Hreg as <- <-. cbn [fst snd] in *.
  assert (Hc1 : keys_consistent (_cache r1)).
  { apply map_Forall_insert_2; [|exact Hc]. split.
    - now apply bot_key_normalize.
    - intros Hk. apply is_empty_true in Hk. congruence. }
  rewrite Hfile at 1. change (file r1) with (file r) in *.
  assert (Hsame : _cache (init ld (file r) (fs r2)) = _cache r2).
  { rewrite Hcache. now apply Hinit. }
  rewrite Hfile. split; [exact Hsame|].
  unfold get_bot_by_id. rewrite Hsame, Hcache. cbn [_cache with_cache r1].
  rewrite lookup_insert_eq.
  destruct (_normalize_for_json b) eqn:En; [|reflexivity].
  destruct b; [|discriminate]. vm_compute in E. discriminate.
Qed.

End RegistryExtras.

Lemma sample_registry_keys :
  @keys_consistent sample_runtime (SecureRegistry._cache empty_registry).
Proof. apply map_Forall_empty. Qed.

(** X5 at the sample registry. *)
Lemma register_bot_survives_restart_witness :
  let ld := {| Utils.ld_read := None; Utils.ld_partial := None |} in
  SecureRegistry.get_bot_by_id
    (@SecureRegistry.init sample_runtime ld
       (SecureRegistry.file sample_registry) (SecureRegistry.fs sample_registry))
    "b1"
  = Some (@_normalize_for_json sample_runtime sample_bot).
Proof.
  intros ld.
  apply (@register_bot_survives_restart sample_runtime
           (io_good "registry.json.q0.tmp") ld empty_registry sample_registry
           sample_bot (@_normalize_for_json sample_runtime sample_bot)).
  - exact sample_registry_keys.
  - intros d. vm_compute. discriminate.
  - reflexivity.
  - reflexivity.
Defined.

Section RegistryExtras2.
Context `{PyRuntime}.
Import SecureRegistry.

(** X6: [unregister_bot] of an id the cache does not hold answers [False]
    and changes nothing.  Of an id it holds, the record is gone from the
    cache whether or not the save succeeds, the other records stay, and the
    call answers [True] or raises the I/O error of the save; it answers
    [True] when the save goes well. *)
Theorem unregister_bot_outcome (o : Utils.io_outcomes) (r : t)
    (bot_id : string) :
  let out := unregister_bot o r bot_id in
  (_cache r !! bot_id = None -> out = (r, Ok false))
  /\ (is_Some (_cache r !! bot_id) ->
      get_bot_by_id (fst out) bot_id = None
      /\ (forall k, k <> bot_id -> _cache (fst out) !! k = _cache r !! k)
      /\ (snd out = Ok true
          \/ snd out = Raise (Utils.atomic_save_failed (file r)))
      /\ (Utils.io_fine o -> cache_ok (_cache r) -> snd out = Ok true)).
Proof.
  unfold unregister_bot. split.
  - intros Hnone. rewrite bool_decide_eq_false_2; [reflexivity|].
    rewrite Hnone. apply is_Some_None.
  - intros Hin. rewrite bool_decide_eq_true_2 by exact Hin. cbn [negb].
    set (r1 := with_cache r _).
    pose proof (save_cache o r1) as [Hcache _].
    pose proof (save_result o r1) as Hres.
    pose proof (save_fine_ok o r1) as Hfine.
    destruct (_save o r1) as [r2 res]. cbn [fst snd] in *.
    assert (Hc2 : _cache (fst (match res with
                               | Ok _ => (r2, Ok true)
                               | Raise e => (r2, Raise e)
                               end)) = delete bot_id (_cache r)).
    { destruct res; exact Hcache. }
    split; [|split; [|split]].
    + unfold get_bot_by_id. rewrite Hc2, lookup_delete_eq. reflexivity.
    + intros k Hk. rewrite Hc2. now apply lookup_delete_ne.
    + destruct Hres as [-> | ->]; [by left|by right].
    + intros Hio Hc. rewrite Hfine; [reflexivity|exact Hio|].
      apply map_Forall_delete. exact Hc.
Qed.

Lemma dict_get_set_eq (k : string) (v : value) (b : pydict) :
  Dict.get k (Dict.set k v b) = Some v.
Proof.
  induction b as [|[k' v'] b IH]; cbn.
  - now rewrite String.eqb_refl.
  - destruct (String.eqb k' k) eqn:E; cbn; now rewrite E.
Qed.

Lemma dict_get_set_ne (k k' : string) (v : value) (b : pydict) :
  k <> k' -> Dict.get k' (Dict.set k v b) = Dict.get k' b.
Proof.
  intros Hne. induction b as [|[k0 v0] b IH]; cbn.
  - destruct (String.eqb k k') eqn:E; [|reflexivity].
    apply String.eqb_eq in E. contradiction.
  - destruct (String.eqb k0 k) eqn:E; cbn.
    + apply String.eqb_eq in E. subst k0.
      destruct (String.eqb k k') eqn:E'; [|reflexivity].
      apply String.eqb_eq in E'. contradiction.
    + now rewrite IH.
Qed.

Lemma apply_kwargs_other (kwargs b : pydict) (k : string) :
  k ∉ kwargs.*1 -> Dict.get k (apply_kwargs kwargs b) = Dict.get k b.
Proof.
  unfold apply_kwargs. revert b.
  induction kwargs as [|[k0 v0] kw IH]; intros b Hk; [reflexivity|].
  cbn [fold_left fst snd]. rewrite IH.
  - apply dict_get_set_ne. intros ->. apply Hk. cbn. left.
  - intros Hin. apply Hk. cbn. now right.
Qed.

Lemma apply_kwargs_given (kwargs b : pydict) (k : string) (v : value) :
  NoDup (kwargs.*1) -> (k, v) ∈ kwargs ->
  Dict.get k (apply_kwargs kwargs b) = Some v.
Proof.
  unfold apply_kwargs. revert b.
  induction kwargs as [|[k0 v0] kw IH]; intros b Hnd Hin.
  - inversion Hin.
  - cbn [fold_left fst snd]. cbn in Hnd. apply NoDup_cons in Hnd as [Hk0 Hnd].
    apply elem_of_cons in Hin as [[= -> ->]|Hin].
    + fold (apply_kwargs kw (Dict.set k0 v0 b)).
      rewrite apply_kwargs_other by exact Hk0. apply dict_get_set_eq.
    + now apply IH.
Qed.

(** X7: [update_bot_status] of an id that [get_bot_by_id] does not find
    answers [None] and changes nothing (nothing is saved).  Of a known id,
    the cached record gets the status and every keyword argument, keeps its
    other fields, and stays in the cache even when the save raises; the
    other records are untouched. *)
Theorem update_bot_status_outcome (o : Utils.io_outcomes) (r : t)
    (bot_id : string) (status : status_arg) (kwargs : pydict) :
  let out := update_bot_status o r bot_id status kwargs in
  NoDup (kwargs.*1) ->
  "status" ∉ kwargs.*1 ->
  (get_bot_by_id r bot_id = None -> out = (r, Ok None))
  /\ (forall bot, get_bot_by_id r bot_id = Some bot ->
      exists bot',
        _cache (fst out) !! bot_id = Some bot'
        /\ Dict.get "status" bot' = Some (VStr (status_target status))
        /\ (forall k v, (k, v) ∈ kwargs -> Dict.get k bot' = Some v)
        /\ (forall k, k <> "status" -> k ∉ kwargs.*1 ->
              Dict.get k bot' = Dict.get k bot)
        /\ (forall k, k <> bot_id -> _cache (fst out) !! k = _cache r !! k)
        /\ (snd out = Ok (Some bot')
            \/ snd out = Raise (Utils.atomic_save_failed (file r)))).
Proof.
  intros out Hnd Hst. subst out. unfold update_bot_status. split.
  - intros ->. reflexivity.
  - intros bot ->.
    set (bot' := apply_kwargs kwargs _).
    set (r1 := with_cache r _).
    pose proof (save_cache o r1) as [Hcache _].
    pose proof (save_result o r1) as Hres.
    destruct (_save o r1) as [r2 res]. cbn [fst snd] in *.
    exists bot'.
    assert (Hc2 : _cache (fst (match res with
                               | Ok _ => (r2, Ok (Some bot'))
                               | Raise e => (r2, Raise e)
                               end)) = <[bot_id := bot']> (_cache r)).
    { destruct res; exact Hcache. }
    rewrite Hc2. split; [apply lookup_insert_eq|].
    split.
    { unfold bot'. rewrite apply_kwargs_other by exact Hst.
      apply dict_get_set_eq. }
    split.
    { intros k v Hin. unfold bot'. now apply apply_kwargs_given. }
    split.
    { intros k Hk Hnot. unfold bot'. rewrite apply_kwargs_other by exact Hnot.
      apply dict_get_set_ne. congruence. }
    split.
    { intros k Hk. now apply lookup_insert_ne. }
    destruct Hres as [-> | ->]; [by left|by right].
Qed.

End RegistryExtras2.

(** X7 at the sample registry. *)
Lemma update_bot_status_outcome_witness :
  exists bot',
    SecureRegistry._cache
      (fst (@SecureRegistry.update_bot_status sample_runtime
              (io_good "registry.json.q5.tmp") sample_registry "b1"
              (SecureRegistry.EnumStatus STOPPED) [("last_error", VNone)]))
      !! "b1" = Some bot'
    /\ Dict.get "status" bot' = Some (VStr "stopped")
    /\ Dict.get "last_error" bot' = Some VNone.
Proof.
  destruct (@update_bot_status_outcome sample_runtime
              (io_good "registry.json.q5.tmp") sample_registry "b1"
              (SecureRegistry.EnumStatus STOPPED) [("last_error", VNone)])
    as [_ Hknown].
  - repeat constructor. intros Hin. inversion Hin.
  - intros Hin. apply elem_of_cons in Hin as [Hin|Hin]; [discriminate|].
    inversion Hin.
  - destruct (Hknown (@_normalize_for_json sample_runtime sample_bot) eq_refl)
      as (bot' & Hc & Hs & Hkw & _).
    exists bot'. split; [exact Hc|]. split; [exact Hs|].
    apply Hkw. left.
Defined.

Section RegistryExtras3.
Context `{PyRuntime}.
Import SecureRegistry.

Lemma count_bot_invariant (l : list pydict) (acc : registry_stats) :
  active_bots acc = default 0 (bots_by_status acc !! "running") ->
  let st := fold_left count_bot l acc in
  active_bots st = default 0 (bots_by_status st !! "running")
  /\ total_bots st = total_bots acc
  /\ active_bots acc <= active_bots st <= active_bots acc + Z.of_nat (length l)
  /\ failed_bots acc <= failed_bots st <= failed_bots acc + Z.of_nat (length l).
Proof.
  revert acc. induction l as [|b l IH]; intros acc Hacc.
  - cbn. split; [exact Hacc|]. split; [reflexivity|]. lia.
  - cbn [fold_left].
    assert (Hstep : active_bots (count_bot acc b)
                    = default 0 (bots_by_status (count_bot acc b) !! "running")).
    { unfold count_bot. cbn [active_bots bots_by_status status_value].
      set (sv := PyStr.lower (text_field "status" b)).
      destruct (String.eqb sv "running") eqn:E.
      - apply String.eqb_eq in E. rewrite E. cbn [PyStr.is_empty].
        rewrite lookup_insert_eq. cbn. rewrite Hacc. reflexivity.
      - destruct (PyStr.is_empty sv); [exact Hacc|].
        rewrite lookup_insert_ne; [exact Hacc|].
        intros ->. now rewrite String.eqb_refl in E. }
    destruct (IH (count_bot acc b) Hstep) as (Ha & Ht & Hab & Hfb).
    split; [exact Ha|]. split; [rewrite Ht; reflexivity|].
    assert (active_bots acc <= active_bots (count_bot acc b) <= active_bots acc + 1).
    { unfold count_bot. cbn [active_bots]. destruct (String.eqb _ _); lia. }
    assert (failed_bots acc <= failed_bots (count_bot acc b) <= failed_bots acc + 1).
    { unfold count_bot. cbn [failed_bots]. destruct (_ || _); lia. }
    cbn [length]. lia.
Qed.

(** X8: in the result of [get_registry_stats], [active_bots] is the count
    that [bots_by_status] gives for running (zero when it has none),
    [total_bots] is the number of records, and neither [active_bots] nor
    [failed_bots] is negative or exceeds [total_bots]. *)
Theorem registry_stats_consistent (r : t) :
  let st := get_registry_stats r in
  active_bots st = default 0 (bots_by_status st !! "running")
  /\ total_bots st = Z.of_nat (length (get_all_bots r))
  /\ 0 <= active_bots st <= total_bots st
  /\ 0 <= failed_bots st <= total_bots st.
Proof.
  unfold get_registry_stats.
  set (acc := {| total_bots := _; bots_by_status := ∅; active_bots := 0;
                 failed_bots := 0 |}).
  destruct (count_bot_invariant (get_all_bots r) acc eq_refl)
    as (Ha & Ht & Hab & Hfb).
  assert (Hlen : Z.of_nat (length (get_all_bots r)) = total_bots acc).
  { unfold get_all_bots, acc. cbn [total_bots].
    rewrite length_map, length_map_to_list. reflexivity. }
  cbn zeta. rewrite Ht, <- Hlen. cbn [active_bots failed_bots acc] in Hab, Hfb.
  split; [exact Ha|]. split; [reflexivity|]. lia.
Qed.

(** X9: what [export_registry] wrote, [import_registry] reads back: after
    a successful export of a registry whose records are filed under their
    own ids, an import of that file without merging makes the cache equal
    to the exported one, and with merging adds the exported records to the
    cache, the imported one winning where both hold an id; whether the
    save that follows succeeds or not. *)
Theorem export_then_import (o1 o2 : Utils.io_outcomes)
    (ld : Utils.load_outcomes) (r r1 r2 : t) (filepath : string)
    (merge : bool) :
  keys_consistent (_cache r) ->
  export_registry o1 r filepath = (r1, true) ->
  Utils.files (fs r2) !! filepath = Utils.files (fs r1) !! filepath ->
  Utils.ld_read ld = None ->
  _cache (fst (import_registry ld o2 r2 filepath merge))
  = if merge then _cache r ∪ _cache r2 else _cache r.
Proof.
  intros Hc Hexp Hfile Hread. unfold export_registry in Hexp.
  pose proof (atomic_save_ok_target o1 (fs r) filepath (export_document r))
    as Htarget.
  destruct (Utils.atomic_save_json o1 (fs r) filepath (export_document r))
    as [fs' res].
  injection Hexp as <- Hres. destruct res; [|discriminate].
  destruct a. specialize (Htarget eq_refl). cbn [fst fs] in *.
  unfold import_registry, Utils.load_json.
  rewrite Hfile, Htarget, Hread.
  change (document_records (export_document r))
    with (Ok (map (fun kb : string * pydict => VDict (snd kb))
                  (map_to_list (_cache r))) : result (list value)).
  cbv beta iota zeta. rewrite load_records_document by exact Hc.
  set (c := if merge then _ else _).
  pose proof (save_cache o2 (with_cache r2 c)) as [Hcache _].
  destruct (_save o2 (with_cache r2 c)). exact Hcache.
Qed.

(** X10: [import_registry] from a file that does not exist takes the empty
    dict [load_json] answers for a list of no records: without merging it
    empties the cache, with merging it keeps it; then it saves, and answers
    [True] when the save goes well. *)
Theorem import_registry_missing_file (ld : Utils.load_outcomes)
    (o : Utils.io_outcomes) (r : t) (filepath : string) (merge : bool) :
  Utils.files (fs r) !! filepath = None ->
  let out := import_registry ld o r filepath merge in
  _cache (fst out) = (if merge then _cache r else ∅)
  /\ (Utils.io_fine o -> cache_ok (_cache r) -> snd out = true).
Proof.
  intros Hnone out. subst out. unfold import_registry, Utils.load_json.
  rewrite Hnone. cbn [document_records Dict.get default iter_values load_records
                      fold_left].
  set (c := if merge then _ else _).
  assert (Ec : c = if merge then _cache r else ∅).
  { unfold c. destruct merge; [apply (left_id_L ∅ (∪))|reflexivity]. }
  pose proof (save_cache o (with_cache r c)) as [Hcache _].
  pose proof (save_fine_ok o (with_cache r c)) as Hfine.
  destruct (_save o (with_cache r c)) as [r' res]. cbn [fst snd] in *.
  split; [now rewrite Hcache|].
  intros Hio Hc. rewrite Hfine; [reflexivity|exact Hio|].
  cbn [_cache with_cache]. rewrite Ec.
  destruct merge; [exact Hc|apply map_Forall_empty].
Qed.

(** X11: after [clear_registry] the cache is empty, whether or not the
    save succeeds; when the system calls of the save go well it succeeds,
    and a registry built afterwards over the file is empty too. *)
Theorem clear_registry_outcome (o : Utils.io_outcomes)
    (ld : Utils.load_outcomes) (r : t) :
  let out := clear_registry o r in
  get_all_bots (fst out) = []
  /\ (Utils.io_fine o ->
      snd out = Ok tt
      /\ (Utils.ld_read ld = None ->
          _cache (init ld (file r) (fs (fst out))) = ∅)).
Proof.
  unfold clear_registry.
  pose proof (save_cache o (with_cache r ∅)) as [Hcache _].
  split.
  - unfold get_all_bots. rewrite Hcache. cbn [_cache with_cache].
    now rewrite map_to_list_empty.
  - intros Hio.
    assert (Hok : snd (_save o (with_cache r ∅)) = Ok tt).
    { apply save_fine_ok; [exact Hio|apply map_Forall_empty]. }
    split; [exact Hok|]. intros Hread.
    apply (init_after_save o ld (with_cache r ∅));
      [apply map_Forall_empty|exact Hok|exact Hread].
Qed.

(** X12: when the save fails, [register_bot] raises the I/O error of the
    save but the record stays in the cache: [get_bot_by_id] finds it, the
    registry file is as it was, and a second [register_bot] of the record
    raises the "already exists" ValueError instead of saving it. *)
Theorem register_bot_failed_save (o o' : Utils.io_outcomes) (r : t)
    (b : pydict) :
  let out := register_bot o r b in
  bot_key b <> EmptyString ->
  _cache r !! bot_key b = None ->
  (forall tmp_path, Utils.io_mktemp o = Ok tmp_path -> file r <> tmp_path) ->
  snd out <> Ok (_normalize_for_json b) ->
  snd out = Raise (Utils.atomic_save_failed (file r))
  /\ _cache (fst out) !! bot_key b = Some (_normalize_for_json b)
  /\ Utils.files (fs (fst out)) !! file r = Utils.files (fs r) !! file r
  /\ register_bot o' (fst out) b
     = (fst out,
        Raise (Exn ValueError
                 ("Bot with ID '" +:+ bot_key b +:+ "' already exists"))).
Proof.
  intros out Hne Hfree Htmp Hfail.
  destruct (PyStr.is_empty (bot_key b)) eqn:E.
  { apply is_empty_true in E. contradiction. }
  set (r1 := with_cache r (<[bot_key b := _normalize_for_json b]> (_cache r))).
  assert (Hout : out = match _save o r1 with
                       | (r', Ok _) => (r', Ok (_normalize_for_json b))
                       | (r', Raise e) => (r', Raise e)
                       end).
  { unfold out, register_bot. rewrite E.
    rewrite bool_decide_eq_false_2 by (rewrite Hfree; apply is_Some_None).
    reflexivity. }
  clearbody out.
  pose proof (save_cache o r1) as [Hcache Hfile].
  pose proof (save_result o r1) as Hres.
  assert (Hfs : snd (_save o r1) <> Ok tt ->
                Utils.files (fs (fst (_save o r1))) !! file r
                = Utils.files (fs r) !! file r).
  { unfold _save.
    pose proof (atomic_save_json_files_kept o (fs r1) (file r1)
                  (registry_document o r1) (file r) Htmp) as Hkept.
    destruct (Utils.atomic_save_json _ _ _ _). exact Hkept. }
  destruct (_save o r1) as [r2 res]. cbn [fst snd] in *. subst out.
  destruct Hres as [-> | ->]; [now contradiction Hfail|].
  cbn [fst snd].
  assert (Hlook : _cache r2 !! bot_key b = Some (_normalize_for_json b)).
  { rewrite Hcache. apply lookup_insert_eq. }
  split; [reflexivity|]. split; [exact Hlook|].
  split; [now apply Hfs|].
  unfold register_bot. rewrite E.
  rewrite bool_decide_eq_true_2; [reflexivity|]. rewrite Hlook. eauto.
Qed.

(** X13: [update_bot] of a record whose id the cache does not hold raises
    the "not found" ValueError and changes nothing.  Of a known id, the
    cache holds the normalized record under that id afterwards, whether or
    not the save succeeds, the other records are untouched, and a call that
    returns gives the normalized record, which [get_bot_by_id] then finds. *)
Theorem update_bot_outcome (o : Utils.io_outcomes) (r : t) (b : pydict) :
  let out := update_bot o r b in
  bot_key b <> EmptyString ->
  (_cache r !! bot_key b = None ->
   out = (r, Raise (Exn ValueError
                      ("Bot with ID '" +:+ bot_key b
                         +:+ "' not found in registry"))))
  /\ (is_Some (_cache r !! bot_key b) ->
      _cache (fst out) !! bot_key b = Some (_normalize_for_json b)
      /\ (forall k, k <> bot_key b -> _cache (fst out) !! k = _cache r !! k)
      /\ (forall stored, snd out = Ok stored ->
            stored = _normalize_for_json b
            /\ get_bot_by_id (fst out) (bot_key b) = Some stored)).
Proof.
  intros out Hne. subst out. unfold update_bot.
  destruct (PyStr.is_empty (bot_key b)) eqn:E.
  { apply is_empty_true in E. contradiction. }
  split.
  - intros Hnone. rewrite bool_decide_eq_false_2; [reflexivity|].
    rewrite Hnone. apply is_Some_None.
  - intros Hin. rewrite bool_decide_eq_true_2 by exact Hin. cbn [negb].
    set (r1 := with_cache r _).
    pose proof (save_cache o r1) as [Hcache _].
    destruct (_save o r1) as [r2 res]. cbn [fst snd] in *.
    assert (Hc2 : _cache (fst (match res with
                               | Ok _ => (r2, Ok (_normalize_for_json b))
                               | Raise e => (r2, Raise e)
                               end))
                  = <[bot_key b := _normalize_for_json b]> (_cache r)).
    { destruct res; exact Hcache. }
    rewrite Hc2. split; [apply lookup_insert_eq|].
    split; [intros k Hk; now apply lookup_insert_ne|].
    intros stored Hs. destruct res as [[]|e]; [|discriminate].
    injection Hs as <-. split; [reflexivity|].
    unfold get_bot_by_id. cbn [fst]. rewrite Hcache. cbn [_cache with_cache r1].
    rewrite lookup_insert_eq.
    destruct (_normalize_for_json b) eqn:En; [|reflexivity].
    destruct b; [|discriminate]. vm_compute in E. discriminate.
Qed.

End RegistryExtras3.

Lemma sample_registry_consistent :
  @keys_consistent sample_runtime (SecureRegistry._cache sample_registry).
Proof.
  apply map_Forall_to_list. vm_compute.
  repeat constructor. discriminate.
Qed.

(** X9: the sample registry exported, then imported by another registry
    over the same files. *)
Lemma export_then_import_witness :
  let r1 := fst (SecureRegistry.export_registry
                   (io_good "backup.json.e1.tmp") sample_registry "backup.json") in
  let r2 := {| SecureRegistry.file := "other.json";
               SecureRegistry._cache := ∅;
               SecureRegistry.fs := SecureRegistry.fs r1 |} in
  SecureRegistry._cache
    (fst (@SecureRegistry.import_registry sample_runtime
            {| Utils.ld_read := None; Utils.ld_partial := None |}
            (io_good "other.json.e2.tmp") r2 "backup.json" false))
  = SecureRegistry._cache sample_registry.
Proof.
  intros r1 r2.
  apply (@export_then_import sample_runtime (io_good "backup.json.e1.tmp")
           (io_good "other.json.e2.tmp")
           {| Utils.ld_read := None; Utils.ld_partial := None |}
           sample_registry r1 r2 "backup.json" false).
  - exact sample_registry_consistent.
  - reflexivity.
  - reflexivity.
  - reflexivity.
Defined.

(** X10 at the sample registry: the import empties it. *)
Lemma import_registry_missing_file_witness :
  SecureRegistry._cache
    (fst (@SecureRegistry.import_registry sample_runtime
            {| Utils.ld_read := None; Utils.ld_partial := None |}
            (io_good "registry.json.e3.tmp") sample_registry "nowhere.json"
            false))
  = ∅.
Proof.
  apply (@import_registry_missing_file sample_runtime
           {| Utils.ld_read := None; Utils.ld_partial := None |}
           (io_good "registry.json.e3.tmp") sample_registry "nowhere.json"
           false).
  reflexivity.
Defined.

(** X12 where the rename of the save fails. *)
Lemma register_bot_failed_save_witness :
  let out := @SecureRegistry.register_bot sample_runtime
               (io_rename_fails "registry.json.e4.tmp") empty_registry
               sample_bot in
  snd out = Raise (Utils.atomic_save_failed "registry.json")
  /\ SecureRegistry.get_bot_by_id (fst out) "b1"
     = Some (@_normalize_for_json sample_runtime sample_bot).
Proof.
  intros out.
  destruct (@register_bot_failed_save sample_runtime
              (io_rename_fails "registry.json.e4.tmp")
              (io_good "registry.json.e5.tmp") empty_registry sample_bot)
    as (Hraise & Hcache & _).
  - vm_compute. discriminate.
  - reflexivity.
  - intros tmp_path Htmp. injection Htmp as <-. vm_compute. discriminate.
  - vm_compute. discriminate.
  - split; [exact Hraise|].
    unfold SecureRegistry.get_bot_by_id.
    change "b1"%string with (@bot_key sample_runtime sample_bot).
    fold out in Hcache. rewrite Hcache. reflexivity.
Defined.

(** X13 at the sample registry. *)
Lemma update_bot_outcome_witness :
  SecureRegistry._cache
    (fst (@SecureRegistry.update_bot sample_runtime
            (io_good "registry.json.e6.tmp") sample_registry
            (Dict.set "status" (VStr "running") sample_bot))) !! "b1"
  = Some (@_normalize_for_json sample_runtime
            (Dict.set "status" (VStr "running") sample_bot)).
Proof.
  destruct (@update_bot_outcome sample_runtime (io_good "registry.json.e6.tmp")
              sample_registry (Dict.set "status" (VStr "running") sample_bot))
    as [_ Hknown].
  - vm_compute. discriminate.
  - destruct Hknown as [Hc _]; [eexists; vm_compute; reflexivity|exact Hc].
Defined.

(* ===================================================================== *)
(** * The container engine *)
(* ===================================================================== *)

Section EngineFacts.
Context `{PyRuntime}.
Import ContainerEngine.

Lemma start_keeps_identity (os : Container.start_os) (c : Container.t) :
  let c' := fst (Container.start os c) in
  Container.config c' = Container.config c
  /\ md_name (Container.metadata c') = md_name (Container.metadata c)
  /\ container_id (Container.metadata c') = container_id (Container.metadata c)
  /\ md_image (Container.metadata c') = md_image (Container.metadata c)
  /\ created_at (Container.metadata c') = created_at (Container.metadata c)
  /\ root_path (Container.metadata c') = root_path (Container.metadata c).
Proof.
  unfold Container.start, Container.start_failed.
  destruct (Container.st_setup os); [done|].
  destruct (environment (Container.config c)); try done.
  destruct (Container.st_popen os); done.
Qed.

Lemma stop_keeps_identity (os : Container.stop_os) (c : Container.t) :
  let c' := fst (Container.stop os c) in
  Container.config c' = Container.config c
  /\ md_name (Container.metadata c') = md_name (Container.metadata c)
  /\ container_id (Container.metadata c') = container_id (Container.metadata c)
  /\ md_image (Container.metadata c') = md_image (Container.metadata c)
  /\ created_at (Container.metadata c') = created_at (Container.metadata c)
  /\ root_path (Container.metadata c') = root_path (Container.metadata c).
Proof.
  unfold Container.stop.
  destruct (Container.process c); [|done].
  destruct (Container.so_sigterm os); [done|].
  destruct (_ && _); [done|].
  destruct (_ && _); done.
Qed.

(** X14: [create_container] under a name the engine already holds raises
    the "already exists" ValueError and changes nothing.  Under a new name,
    when making the container's directory fails, what [mkdir] raised
    reaches the caller and the engine is unchanged; when it works, the call
    returns a container in state CREATED, without process, named as the
    configuration says, which [get_container_info] then finds under that
    name, and the other containers are untouched. *)
Theorem create_container_outcome (mkdir : option exn) (digest12 : string)
    (now : Z) (e : t) (cfg : ContainerConfig) :
  let out := create_container mkdir digest12 now e cfg in
  (is_Some (containers e !! name cfg) ->
   out = (e, Raise (Exn ValueError
                      ("Container " +:+ name cfg +:+ " already exists"))))
  /\ (containers e !! name cfg = None ->
      (forall ex, mkdir = Some ex -> out = (e, Raise ex))
      /\ (mkdir = None ->
          exists c,
            snd out = Ok c
            /\ get_container_info (fst out) (name cfg)
               = Some (Container.metadata c)
            /\ state (Container.metadata c) = ContainerState.CREATED
            /\ md_name (Container.metadata c) = name cfg
            /\ container_id (Container.metadata c) = digest12
            /\ Container.process c = None
            /\ forall k, k <> name cfg ->
                 containers (fst out) !! k = containers e !! k)).
Proof.
  unfold create_container. split.
  - intros Hin. now rewrite bool_decide_eq_true_2.
  - intros Hnone.
    rewrite bool_decide_eq_false_2 by (rewrite Hnone; apply is_Some_None).
    split.
    + intros ex ->. reflexivity.
    + intros ->. cbn [Container.construct].
      eexists. split; [reflexivity|]. cbn [fst].
      unfold get_container_info. cbn [containers with_containers].
      rewrite lookup_insert_eq. repeat split.
      intros k Hk. now apply lookup_insert_ne.
Qed.

(** X15: [start_container] of an unknown name raises the "not found"
    ValueError and changes nothing.  Of a known name it never raises: it
    answers [True] with the container RUNNING and its pid recorded, or
    [False] with the container FAILED, the error text recorded and no
    process attached by this call; the other containers are untouched. *)
Theorem start_container_outcome (os : Container.start_os) (e : t)
    (container_name : string) :
  let out := start_container os e container_name in
  (containers e !! container_name = None ->
   out = (e, Raise (not_found container_name)))
  /\ (forall c, containers e !! container_name = Some c ->
      exists c' started,
        containers (fst out) !! container_name = Some c'
        /\ snd out = Ok started
        /\ (started = true ->
            state (Container.metadata c') = ContainerState.RUNNING
            /\ exists pid,
                 Container.st_popen os = Ok pid
                 /\ Container.process c' = Some pid
                 /\ process_id (Container.metadata c') = Some pid)
        /\ (started = false ->
            state (Container.metadata c') = ContainerState.FAILED
            /\ is_Some (error_message (Container.metadata c'))
            /\ Container.process c' = Container.process c)
        /\ forall k, k <> container_name ->
             containers (fst out) !! k = containers e !! k).
Proof.
  unfold start_container. split.
  - intros ->. reflexivity.
  - intros c ->.
    assert (Hothers : forall c' k, k <> container_name ->
              <[container_name := c']> (containers e) !! k = containers e !! k).
    { intros c' k Hk. now apply lookup_insert_ne. }
    unfold Container.start, Container.start_failed.
    destruct (Container.st_setup os).
    { eexists _, false. cbn. rewrite lookup_insert_eq. naive_solver. }
    destruct (environment (Container.config c));
      try (eexists _, false; cbn; rewrite lookup_insert_eq; naive_solver).
    destruct (Container.st_popen os) as [pid|].
    + eexists _, true. cbn. rewrite lookup_insert_eq. naive_solver.
    + eexists _, false. cbn. rewrite lookup_insert_eq. naive_solver.
Qed.

(** X16: [remove_container] of an unknown name raises the "not found"
    ValueError and changes nothing.  Of a known name, the container is gone
    from the engine whether the stop worked or not and whether the clean-up
    raised or not, the other containers are untouched, the call answers
    [True] unless the clean-up raised, and the name is free again:
    [create_container] under it returns a container when the directory can
    be made, and raises what [mkdir] raised otherwise, never the "already
    exists" error. *)
Theorem remove_container_outcome (os : remove_os) (e : t)
    (container_name : string) :
  let out := remove_container os e container_name in
  (containers e !! container_name = None ->
   out = (e, Raise (not_found container_name)))
  /\ (is_Some (containers e !! container_name) ->
      get_container_info (fst out) container_name = None
      /\ (forall k, k <> container_name ->
            containers (fst out) !! k = containers e !! k)
      /\ (rm_cleanup os = None -> snd out = Ok true)
      /\ (forall ex, rm_cleanup os = Some ex -> snd out = Raise ex)
      /\ forall mkdir digest12 now cfg,
           name cfg = container_name ->
           (mkdir = None ->
            is_ok (snd (create_container mkdir digest12 now (fst out) cfg))
            = true)
           /\ (forall ex', mkdir = Some ex' ->
                 snd (create_container mkdir digest12 now (fst out) cfg)
                 = Raise ex')).
Proof.
  unfold remove_container. split.
  - intros ->. reflexivity.
  - intros [c ->]. destruct (Container.stop (rm_stop os) c) as [c' b].
    assert (Hgone : forall res : result bool,
              containers (fst (with_containers e
                                 (delete container_name (containers e)), res))
              !! container_name = None).
    { intros res. cbn. apply lookup_delete_eq. }
    destruct (rm_cleanup os) as [ex|].
    + unfold get_container_info. rewrite Hgone.
      split; [reflexivity|].
      split; [intros k Hk; cbn; now apply lookup_delete_ne|].
      split; [discriminate|]. split; [now intros ? [= <-]|].
      intros mk d n cfg <-. unfold create_container.
      rewrite bool_decide_eq_false_2
        by (rewrite Hgone; apply is_Some_None).
      split; [intros ->; reflexivity|intros ex' ->; reflexivity].
    + unfold get_container_info. rewrite Hgone.
      split; [reflexivity|].
      split; [intros k Hk; cbn; now apply lookup_delete_ne|].
      split; [reflexivity|]. split; [discriminate|].
      intros mk d n cfg <-. unfold create_container.
      rewrite bool_decide_eq_false_2
        by (rewrite Hgone; apply is_Some_None).
      split; [intros ->; reflexivity|intros ex' ->; reflexivity].
Qed.

Lemma cleanup_loop_deletes (os : string -> remove_os) (names : list string)
    (e : t) :
  (forall k, rm_cleanup (os k) = None) ->
  NoDup names ->
  (forall k, k ∈ names -> is_Some (containers e !! k)) ->
  cleanup_loop os names e
  = (with_containers e (foldr delete (containers e) (reverse names)), Ok tt).
Proof.
  intros Hos. revert e. induction names as [|k names IH]; intros e Hnd Hin.
  - cbn. destruct e. reflexivity.
  - apply NoDup_cons in Hnd as [Hk Hnd]. cbn [cleanup_loop].
    unfold remove_container.
    destruct (Hin k) as [c Hc]; [left|]. rewrite Hc.
    destruct (Container.stop (rm_stop (os k)) c) as [c' b]. rewrite Hos.
    rewrite IH; [|exact Hnd|].
    + cbn [containers with_containers storage_dir].
      rewrite reverse_cons, foldr_app. reflexivity.
    + intros k' Hk'. cbn [containers with_containers].
      rewrite lookup_delete_ne by (intros ->; contradiction).
      apply Hin. now right.
Qed.

Lemma foldr_delete_lookup (l : list string) (m : gmap string Container.t)
    (k : string) :
  foldr delete m l !! k = if decide (k ∈ l) then None else m !! k.
Proof.
  induction l as [|k' l IH]; [reflexivity|]. cbn [foldr].
  destruct (decide (k = k')) as [->|Hne].
  - rewrite lookup_delete_eq. rewrite decide_True; [reflexivity|left].
  - rewrite lookup_delete_ne by congruence. rewrite IH.
    destruct (decide (k ∈ l)) as [Hin|Hnin].
    + rewrite decide_True; [reflexivity|now right].
    + rewrite decide_False; [reflexivity|].
      intros [?|?]%elem_of_cons; contradiction.
Qed.

(** X17: when no clean-up raises, [cleanup_all] returns normally and
    leaves the engine without any container. *)
Theorem cleanup_all_empties (os : string -> remove_os) (e : t) :
  (forall k, rm_cleanup (os k) = None) ->
  snd (cleanup_all os e) = Ok tt
  /\ containers (fst (cleanup_all os e)) = ∅
  /\ list_containers (fst (cleanup_all os e)) = [].
Proof.
  intros Hos. unfold cleanup_all.
  rewrite cleanup_loop_deletes; [|exact Hos|apply NoDup_fst_map_to_list|].
  - cbn [fst snd containers with_containers].
    assert (Hempty : foldr delete (containers e)
                       (reverse (map fst (map_to_list (containers e)))) = ∅).
    { apply map_eq. intros k. rewrite foldr_delete_lookup, lookup_empty.
      destruct (decide _) as [|Hnin]; [reflexivity|].
      destruct (containers e !! k) as [c|] eqn:Ec; [|reflexivity].
      exfalso. apply Hnin. apply elem_of_reverse.
      apply list_elem_of_fmap. exists (k, c). split; [reflexivity|].
      now apply elem_of_map_to_list. }
    split; [reflexivity|]. split; [exact Hempty|].
    unfold list_containers. cbn [containers with_containers].
    rewrite Hempty. now rewrite map_to_list_empty.
  - intros k [[k' c] [-> Hin]]%list_elem_of_fmap.
    apply elem_of_map_to_list in Hin. cbn. eauto.
Qed.

(** X18: the four operations of the engine keep every container filed
    under the name its configuration and its metadata carry. *)
Theorem engine_names_consistent (e : t) :
  names_consistent e ->
  (forall mkdir digest12 now cfg,
     names_consistent (fst (create_container mkdir digest12 now e cfg)))
  /\ (forall os container_name,
        names_consistent (fst (start_container os e container_name)))
  /\ (forall os container_name,
        names_consistent (fst (stop_container os e container_name)))
  /\ (forall os container_name,
        names_consistent (fst (remove_container os e container_name))).
Proof.
  intros He. unfold names_consistent in *. repeat apply conj.
  - intros mk d n cfg. unfold create_container.
    destruct (bool_decide _); [exact He|].
    destruct mk; [exact He|]. cbn.
    apply map_Forall_insert_2; [done|exact He].
  - intros os k. unfold start_container.
    destruct (containers e !! k) as [c|] eqn:Ec; [|exact He].
    pose proof (start_keeps_identity os c) as (Hcfg & Hname & _).
    destruct (Container.start os c) as [c' b]. cbn in *.
    apply map_Forall_insert_2; [|exact He].
    rewrite Hcfg, Hname. exact (He k c Ec).
  - intros os k. unfold stop_container.
    destruct (containers e !! k) as [c|] eqn:Ec; [|exact He].
    pose proof (stop_keeps_identity os c) as (Hcfg & Hname & _).
    destruct (Container.stop os c) as [c' b]. cbn in *.
    apply map_Forall_insert_2; [|exact He].
    rewrite Hcfg, Hname. exact (He k c Ec).
  - intros os k. unfold remove_container.
    destruct (containers e !! k) as [c|] eqn:Ec; [|exact He].
    destruct (Container.stop (rm_stop os) c) as [c' b].
    destruct (rm_cleanup os); cbn; now apply map_Forall_delete.
Qed.

End EngineFacts.

(** X17 at the engine that holds the running sample container. *)
Lemma cleanup_all_empties_witness :
  ContainerEngine.containers
    (fst (@ContainerEngine.cleanup_all sample_runtime
            (fun _ => remove_os_good stop_os_quick) engine_with_running))
  = ∅.
Proof.
  apply (@cleanup_all_empties sample_runtime
           (fun _ => remove_os_good stop_os_quick) engine_with_running).
  reflexivity.
Defined.

(** X18 at the first container of an empty engine. *)
Lemma engine_names_consistent_witness :
  names_consistent
    (fst (@ContainerEngine.create_container sample_runtime None
            "0123456789ab" 3 empty_engine sample_config)).
Proof.
  apply (@engine_names_consistent sample_runtime empty_engine).
  apply map_Forall_empty.
Defined.

(* ===================================================================== *)
(** * The executor: what is tracked *)
(* ===================================================================== *)

Section ExecutorFacts.
Context `{PyRuntime}.
Import AdaptiveExecutor.

Lemma get_all_running_bots_running (e : t) (bot_id : string) :
  bot_id ∈ get_all_running_bots e <-> is_bot_running e bot_id = true.
Proof.
  unfold get_all_running_bots, is_bot_running.
  rewrite elem_of_elements, elem_of_union, !elem_of_dom, orb_true_iff.
  rewrite !bool_decide_eq_true. reflexivity.
Qed.

(** X19: [get_all_running_bots] lists every id once, and an id is listed
    exactly when [is_bot_running] answers true for it. *)
Theorem get_all_running_bots_spec (e : t) (bot_id : string) :
  NoDup (get_all_running_bots e)
  /\ (bot_id ∈ get_all_running_bots e <-> is_bot_running e bot_id = true).
Proof.
  split; [unfold get_all_running_bots; apply NoDup_elements|].
  apply get_all_running_bots_running.
Qed.

Lemma untrack_running (e : t) (k bot_id : string) :
  is_bot_running (untrack e k) bot_id = true ->
  is_bot_running e bot_id = true /\ bot_id <> k.
Proof.
  unfold is_bot_running, untrack. cbn.
  rewrite !orb_true_iff, !bool_decide_eq_true.
  destruct (decide (bot_id = k)) as [->|Hne].
  - rewrite !lookup_delete_eq. intros [[? [=]]|[? [=]]].
  - rewrite !lookup_delete_ne by congruence. tauto.
Qed.

(** The loop of [cleanup_all_bots] leaves none of its ids tracked and adds
    none; it counts at most one per id. *)
Lemma cleanup_bots_loop_outcome (scripts : string -> stop_script)
    (ids : list string) (count : Z) (sy : system) :
  let out := cleanup_bots_loop scripts ids count sy in
  (forall bot_id, is_bot_running (executor (fst out)) bot_id = true ->
     is_bot_running (executor sy) bot_id = true)
  /\ (forall n, snd out = Ok n ->
        count <= n <= count + Z.of_nat (length ids)
        /\ forall bot_id, bot_id ∈ ids ->
             is_bot_running (executor (fst out)) bot_id = false).
Proof.
  revert count sy. induction ids as [|k ids IH]; intros count sy.
  - cbn. split; [auto|]. intros n [= <-]. split; [lia|].
    intros b Hb. inversion Hb.
  - cbn [cleanup_bots_loop]. unfold mbind, M_bind.
    pose proof (stop_bot_executor (scripts k) k "Application shutdown" sy)
      as Hex.
    destruct (stop_bot (scripts k) k "Application shutdown" sy)
      as [sy1 [stopped|e]]; cbn [fst snd] in *.
    + destruct (IH (if stopped then count + 1 else count) sy1) as [Hsub Hret].
      split.
      * intros b Hb. apply Hsub in Hb. rewrite Hex in Hb.
        now apply untrack_running in Hb.
      * intros n Hn. destruct (Hret n Hn) as [Hcount Hids].
        split; [destruct stopped; cbn [length]; lia|].
        intros b [->|Hb]%elem_of_cons; [|now apply Hids].
        destruct (is_bot_running (executor (fst _)) k) eqn:Hrun; [|reflexivity].
        apply Hsub in Hrun. rewrite Hex in Hrun.
        apply untrack_running in Hrun as [_ Hne]. contradiction.
    + split; [|discriminate]. intros b Hb. rewrite Hex in Hb.
      now apply untrack_running in Hb.
Qed.

Lemma stop_bot_containers_only (s : stop_script) (bot_id reason : string)
    (sy : system) :
  running_processes (executor sy) !! bot_id = None ->
  exists stopped, snd (stop_bot s bot_id reason sy) = Ok stopped.
Proof.
  intros Hp. unfold stop_bot. rewrite Hp.
  destruct (truthy _); [|eauto].
  unfold stop_tracked_container, try_except.
  match goal with |- context [(?m ≫= ?f) ?x] => destruct ((m ≫= f) x) as [f' [ok|e]] end;
    cbn; eauto.
Qed.

Lemma cleanup_bots_loop_returns (scripts : string -> stop_script)
    (ids : list string) (count : Z) (sy : system) :
  running_processes (executor sy) = ∅ ->
  exists n, snd (cleanup_bots_loop scripts ids count sy) = Ok n.
Proof.
  revert count sy. induction ids as [|k ids IH]; intros count sy Hp.
  - cbn. eauto.
  - cbn [cleanup_bots_loop]. unfold mbind, M_bind.
    pose proof (stop_bot_executor (scripts k) k "Application shutdown" sy)
      as Hex.
    destruct (stop_bot_containers_only (scripts k) k "Application shutdown" sy)
      as [stopped Hs]; [now rewrite Hp|].
    destruct (stop_bot (scripts k) k "Application shutdown" sy) as [sy1 r].
    cbn [fst snd] in *. subst r. apply IH.
    rewrite Hex. unfold untrack. cbn. rewrite Hp. apply delete_empty.
Qed.

(** X20: when [cleanup_all_bots] returns, no bot is tracked any more and
    the count it returns is at most the number of bots that were; whether
    it returns or raises, it tracks no bot that was not tracked before.  It
    does return when every tracked bot runs in a container. *)
Theorem cleanup_all_bots_outcome (scripts : string -> stop_script)
    (sy : system) :
  let out := cleanup_all_bots scripts sy in
  (forall bot_id, is_bot_running (executor (fst out)) bot_id = true ->
     is_bot_running (executor sy) bot_id = true)
  /\ (forall n, snd out = Ok n ->
        get_all_running_bots (executor (fst out)) = []
        /\ 0 <= n <= Z.of_nat (length (get_all_running_bots (executor sy))))
  /\ (running_processes (executor sy) = ∅ -> exists n, snd out = Ok n).
Proof.
  unfold cleanup_all_bots, mbind, M_bind, gets. cbn [fst snd].
  destruct (cleanup_bots_loop_outcome scripts
              (get_all_running_bots (executor sy)) 0 sy) as [Hsub Hret].
  split; [exact Hsub|]. split.
  - intros n Hn. destruct (Hret n Hn) as [Hcount Hids]. split; [|lia].
    destruct (get_all_running_bots (executor (fst _))) as [|k l] eqn:El;
      [reflexivity|].
    assert (Hk : is_bot_running
                   (executor (fst (cleanup_bots_loop scripts
                      (get_all_running_bots (executor sy)) 0 sy))) k = true).
    { apply get_all_running_bots_running. rewrite El. left. }
    pose proof (Hsub k Hk) as Hbefore.
    apply get_all_running_bots_running in Hbefore.
    rewrite (Hids k Hbefore) in Hk. discriminate.
  - intros Hp. now apply cleanup_bots_loop_returns.
Qed.

(** X21: [stop_bot] of a bot tracked in a container never raises; when
    the engine's stop raises it answers [False] and leaves the registry as
    it was. *)
Theorem stop_bot_container_never_raises (s : stop_script)
    (bot_id reason container_name : string) (sy : system) :
  running_containers (executor sy) !! bot_id = Some container_name ->
  container_name <> EmptyString ->
  (exists stopped, snd (stop_bot s bot_id reason sy) = Ok stopped)
  /\ (forall e, sp_stop_container s = Raise e ->
        snd (stop_bot s bot_id reason sy) = Ok false
        /\ registry (fst (stop_bot s bot_id reason sy)) = registry sy).
Proof.
  intros Hc Hne. unfold stop_bot. rewrite Hc. cbn [from_option].
  assert (Ht : truthy (VStr container_name) = true).
  { cbn. destruct container_name; [contradiction|reflexivity]. }
  rewrite Ht. unfold stop_tracked_container, try_except. split.
  - match goal with
    | |- context [(?m ≫= ?f) ?x] => destruct ((m ≫= f) x) as [f' [ok|e]]
    end; cbn; eauto.
  - intros e He. rewrite He. cbn. split; reflexivity.
Qed.

End ExecutorFacts.

(** X21 at the sample bot tracked in a container. *)
Lemma stop_bot_container_never_raises_witness :
  exists stopped,
    snd (@AdaptiveExecutor.stop_bot sample_runtime stop_script_good "b1"
           "Manual stop" container_system) = Ok stopped.
Proof.
  apply (@stop_bot_container_never_raises sample_runtime stop_script_good "b1"
           "Manual stop" "bot-b1" container_system).
  - reflexivity.
  - discriminate.
Defined.

(* ===================================================================== *)
(** * The executor and the registry's entries *)
(* ===================================================================== *)

Section RegistryIds.
Context `{PyRuntime}.
Import AdaptiveExecutor.

Lemma save_ids (o : Utils.io_outcomes) (r : SecureRegistry.t) :
  registry_ids (fst (SecureRegistry._save o r)) = registry_ids r.
Proof.
  unfold registry_ids, SecureRegistry._save.
  now destruct (Utils.atomic_save_json _ _ _ _).
Qed.

Lemma update_bot_ids (o : Utils.io_outcomes) (r : SecureRegistry.t)
    (b : pydict) :
  registry_ids (fst (SecureRegistry.update_bot o r b)) = registry_ids r.
Proof.
  unfold SecureRegistry.update_bot.
  destruct (PyStr.is_empty (bot_key b)); [reflexivity|].
  case_bool_decide as Hin; cbn [negb]; [|reflexivity].
  match goal with
  | |- context [SecureRegistry._save o ?r1] =>
      pose proof (save_ids o r1) as Hs;
      destruct (SecureRegistry._save o r1) as [r2 [[]|e]]
  end; cbn [fst] in *; rewrite Hs; unfold registry_ids; cbn;
    rewrite dom_insert_L; apply elem_of_dom in Hin; set_solver.
Qed.

Lemma registry_update_bot_ids (o : Utils.io_outcomes) :
  preserves frame_ids (registry_update_bot o).
Proof.
  intros f. unfold registry_update_bot, frame_ids.
  pose proof (update_bot_ids o (registry (sys f)) (bot f)) as Hu.
  now destruct (SecureRegistry.update_bot o (registry (sys f)) (bot f)).
Qed.

Lemma stop_update_bot_ids (o : Utils.io_outcomes) (b : pydict) :
  preserves stop_frame_ids (stop_update_bot o b).
Proof.
  intros f. unfold stop_update_bot, stop_frame_ids.
  pose proof (update_bot_ids o (registry (sf_sys f)) b) as Hu.
  now destruct (SecureRegistry.update_bot o (registry (sf_sys f)) b).
Qed.

Lemma run_bot_locally_ids (s : local_script) (script_path : string) :
  preserves frame_ids (_run_bot_locally s script_path).
Proof.
  unfold _run_bot_locally, get_bot, bot_id_text, modify_executor, set_bot.
  repeat (apply registry_update_bot_ids || preserves_step).
Qed.

Lemma run_bot_in_container_ids (cfg : Settings) (s : container_script)
    (script_path : string) :
  preserves frame_ids (_run_bot_in_container cfg s script_path).
Proof.
  unfold _run_bot_in_container, get_bot, bot_id_text, modify_executor, set_bot.
  repeat (apply registry_update_bot_ids || preserves_step).
Qed.

Lemma bump_error_count_ids : preserves frame_ids bump_error_count.
Proof.
  unfold bump_error_count, get_bot, set_bot. repeat preserves_step.
Qed.

Lemma on_run_error_ids (o : Utils.io_outcomes) (e : exn) :
  preserves frame_ids (on_run_error o e).
Proof.
  unfold on_run_error, set_bot.
  repeat (apply registry_update_bot_ids || apply bump_error_count_ids
          || preserves_step).
Qed.

Lemma local_fallback_ids (s : run_script) (script_path : string) (e : exn) :
  preserves frame_ids (local_fallback s script_path e).
Proof.
  unfold local_fallback, set_bot.
  repeat (apply registry_update_bot_ids || apply bump_error_count_ids
          || apply run_bot_locally_ids || preserves_step).
Qed.

Lemma run_bot_body_ids (cfg : Settings) (s : run_script) :
  preserves frame_ids (run_bot_body cfg s).
Proof.
  unfold run_bot_body, get_bot, set_bot.
  repeat (apply registry_update_bot_ids || apply local_fallback_ids
          || apply run_bot_locally_ids || apply run_bot_in_container_ids
          || preserves_step).
Qed.

Lemma run_bot_ids (cfg : Settings) (s : run_script) (b : pydict) :
  preserves system_ids (run_bot cfg s b).
Proof.
  intros sy. unfold run_bot.
  pose proof (preserves_try_except frame_ids (run_bot_body cfg s)
                (on_run_error (ru_save_error s)) (run_bot_body_ids cfg s)
                (on_run_error_ids (ru_save_error s))
                {| sys := sy; bot := b |}) as Hp.
  destruct (try_except _ _ _) as [f r]. exact Hp.
Qed.

Lemma record_stopped_ids (s : stop_script) (reason : string) :
  preserves stop_frame_ids (record_stopped s reason).
Proof.
  unfold record_stopped, set_stop_bot.
  repeat (apply stop_update_bot_ids || preserves_step).
Qed.

Lemma stop_bot_ids (s : stop_script) (bot_id reason : string) :
  preserves system_ids (stop_bot s bot_id reason).
Proof.
  intros sy. unfold stop_bot.
  destruct (truthy _).
  - match goal with
    | |- context [stop_tracked_container s reason ?f] =>
        assert (Hp : stop_frame_ids (fst (stop_tracked_container s reason f))
                     = stop_frame_ids f);
        [|destruct (stop_tracked_container s reason f) as [f' r]; exact Hp]
    end.
    revert sy. intros sy.
    match goal with |- _ (fst (_ ?f)) = _ => generalize f end.
    change (preserves stop_frame_ids (stop_tracked_container s reason)).
    unfold stop_tracked_container.
    repeat (apply record_stopped_ids || preserves_step).
  - destruct (running_processes (executor sy) !! bot_id); [|reflexivity].
    match goal with
    | |- context [stop_local_process s reason ?f] =>
        assert (Hp : stop_frame_ids (fst (stop_local_process s reason f))
                     = stop_frame_ids f);
        [|destruct (stop_local_process s reason f) as [f' r]; exact Hp]
    end.
    match goal with |- _ (fst (_ ?f)) = _ => generalize f end.
    change (preserves stop_frame_ids (stop_local_process s reason)).
    unfold stop_local_process, or_else, set_stop_bot.
    repeat (apply record_stopped_ids || apply stop_update_bot_ids
            || preserves_step).
Qed.

Lemma system_update_bot_ids (o : Utils.io_outcomes) (b : pydict) :
  preserves system_ids (system_update_bot o b).
Proof.
  intros sy. unfold system_update_bot, system_ids.
  pose proof (update_bot_ids o (registry sy) b) as Hu.
  now destruct (SecureRegistry.update_bot o (registry sy) b).
Qed.

Lemma stop_bot_frame_sys (s : stop_script) (bot_id reason : string)
    (sy : system) :
  stop_bot s bot_id reason sy
  = (sf_sys (fst (stop_bot_frame s bot_id reason sy)),
     snd (stop_bot_frame s bot_id reason sy)).
Proof.
  unfold stop_bot, stop_bot_frame. cbv zeta.
  destruct (truthy _).
  - now destruct (stop_tracked_container s reason _).
  - destruct (running_processes (executor sy) !! bot_id); [|reflexivity].
    now destruct (stop_local_process s reason _).
Qed.

Lemma restart_bot_ids (cfg : Settings) (s : restart_script)
    (bot_id reason : string) :
  preserves system_ids (restart_bot cfg s bot_id reason).
Proof.
  intros sy. unfold restart_bot.
  destruct (SecureRegistry.get_bot_by_id (registry sy) bot_id) as [b|];
    [|reflexivity].
  pose proof (stop_bot_ids (rs_stop s) bot_id reason sy) as Hs.
  rewrite stop_bot_frame_sys in Hs. cbn [fst] in Hs.
  destruct (stop_bot_frame (rs_stop s) bot_id reason sy) as [f stopped].
  cbn [fst snd] in Hs. rewrite <- Hs. cbv zeta.
  generalize (sf_sys f).
  change (preserves system_ids
    (try_except
       (_ ← lift_result stopped;
        run_bot cfg (rs_run s) (seen_after_stop b (sf_bot f)))
       (fun e =>
          _ ← system_update_bot (rs_save_failed s)
                (Dict.set "last_error" (VStr ("Restart failed: " +:+ exn_msg e))
                   (Dict.set "status" (_status_value ERROR)
                      (seen_after_stop b (sf_bot f))));
          mret false))).
  repeat (apply run_bot_ids || apply system_update_bot_ids || preserves_step).
Qed.

Lemma cleanup_bots_loop_ids (scripts : string -> stop_script)
    (ids : list string) (count : Z) :
  preserves system_ids (cleanup_bots_loop scripts ids count).
Proof.
  revert count. induction ids as [|k ids IH]; intros count; cbn [cleanup_bots_loop].
  - apply preserves_ret.
  - apply preserves_bind; [apply stop_bot_ids|]. intros stopped. apply IH.
Qed.

(** X22: the executor never registers or unregisters a bot: after
    [run_bot], [stop_bot], [restart_bot] or [cleanup_all_bots], whether
    they return or raise, the registry knows exactly the ids it knew. *)
Theorem executor_keeps_registry_ids (cfg : Settings) (sy : system) :
  (forall s b, system_ids (fst (run_bot cfg s b sy)) = system_ids sy)
  /\ (forall s bot_id reason,
        system_ids (fst (stop_bot s bot_id reason sy)) = system_ids sy)
  /\ (forall s bot_id reason,
        system_ids (fst (restart_bot cfg s bot_id reason sy)) = system_ids sy)
  /\ (forall scripts,
        system_ids (fst (cleanup_all_bots scripts sy)) = system_ids sy).
Proof.
  split; [intros; apply run_bot_ids|].
  split; [intros; apply stop_bot_ids|].
  split; [intros; apply restart_bot_ids|].
  intros scripts. unfold cleanup_all_bots.
  apply (preserves_bind system_ids); [apply preserves_gets|].
  intros ids. apply cleanup_bots_loop_ids.
Qed.

End RegistryIds.

Section RestartFacts.
Context `{PyRuntime}.
Import AdaptiveExecutor.

Lemma wp_stop_update_bot (o : Utils.io_outcomes) (b : pydict)
    (Q : stop_frame -> result pydict -> Prop) (f : stop_frame) :
  (forall sy r, Q {| sf_sys := sy; sf_bot := sf_bot f |} r) ->
  wp (stop_update_bot o b) Q f.
Proof.
  intros HQ. unfold wp, stop_update_bot.
  destruct (SecureRegistry.update_bot o (registry (sf_sys f)) b). apply HQ.
Qed.

Lemma stop_bot_frame_performance (s : stop_script) (bot_id reason : string)
    (sy : system) (b : pydict) :
  SecureRegistry.get_bot_by_id (registry sy) bot_id = Some b ->
  exists sb,
    sf_bot (fst (stop_bot_frame s bot_id reason sy)) = Some sb
    /\ (Dict.get "performance" sb = Dict.get "performance" b
        \/ exists perf,
             append_log b (stopped_entry (sp_log_timestamp s) reason) = Ok perf
             /\ Dict.get "performance" sb = Some perf).
Proof.
  intros Hget. unfold stop_bot_frame. cbv zeta. cbn [registry]. rewrite Hget.
  match goal with
  | |- exists sb, sf_bot (fst ?m) = Some sb /\ @?P sb =>
      set (Q := fun (f' : stop_frame) (_ : result bool) =>
                  exists sb, sf_bot f' = Some sb /\ P sb);
      change (Q (fst m) (snd m))
  end.
  assert (Hleaf : forall sy' r sb,
            (Dict.get "performance" sb = Dict.get "performance" b
             \/ exists perf,
                  append_log b (stopped_entry (sp_log_timestamp s) reason)
                  = Ok perf
                  /\ Dict.get "performance" sb = Some perf) ->
            Q {| sf_sys := sy'; sf_bot := Some sb |} r).
  { intros sy' r sb Hsb. exists sb. split; [reflexivity|exact Hsb]. }
  destruct (truthy _);
    [|destruct (running_processes (executor sy) !! bot_id);
      [|apply Hleaf; now left]];
    match goal with
    | |- Q (fst (?m ?f)) _ => change (wp m Q f)
    end;
    unfold stop_tracked_container, stop_local_process, record_stopped,
      set_stop_bot, or_else, os_call;
    repeat (cbn [sf_bot sf_sys fmap option_fmap option_map default]
            || (apply wp_stop_update_bot; intros ? ?) || wp_step);
    apply Hleaf; rewrite ?dict_get_set; cbn [String.eqb Ascii.eqb Bool.eqb];
    first [left; reflexivity
          |right; eexists; split; [first [eassumption|reflexivity]|reflexivity]].
Qed.

Lemma stop_bot_frame_local_performance (s : stop_script)
    (bot_id reason : string) (sy : system) (b : pydict) (perf : value) :
  SecureRegistry.get_bot_by_id (registry sy) bot_id = Some b ->
  running_containers (executor sy) !! bot_id = None ->
  is_Some (running_processes (executor sy) !! bot_id) ->
  local_stop_ok s ->
  append_log b (stopped_entry (sp_log_timestamp s) reason) = Ok perf ->
  exists sb,
    sf_bot (fst (stop_bot_frame s bot_id reason sy)) = Some sb
    /\ Dict.get "performance" sb = Some perf.
Proof.
  intros Hget Hc [pid Hp] Hos Hperf. unfold stop_bot_frame. cbv zeta.
  cbn [registry]. rewrite Hget, Hc, Hp. cbn [from_option truthy].
  assert (Hb : truthy (VDict b) = true).
  { unfold SecureRegistry.get_bot_by_id in Hget.
    destruct (SecureRegistry._cache (registry sy) !! bot_id) as [b'|];
      [|discriminate].
    destruct (truthy (VDict b')) eqn:E; [|discriminate]. congruence. }
  match goal with
  | |- exists sb, sf_bot (fst (?m ?f)) = Some sb /\ @?P sb =>
      change (wp m (fun f' _ => exists sb, sf_bot f' = Some sb /\ P sb) f)
  end.
  unfold stop_local_process, record_stopped, set_stop_bot, or_else, os_call.
  destruct Hos as [Hterm Hwait].
  repeat (cbn [sf_bot sf_sys fmap option_fmap option_map default]
          || rewrite Hb || rewrite Hperf
          || (apply wp_stop_update_bot; intros ? ?) || wp_step).
  all: try (eexists; split; [reflexivity|]; rewrite ?dict_get_set;
            cbn [String.eqb Ascii.eqb Bool.eqb]; reflexivity).
  all: exfalso; destruct Hterm as [?|?];
    destruct Hwait as [?|(? & ? & ? & [?|?] & ?)]; congruence.
Qed.

Lemma seen_after_stop_other (b : pydict) (stopped : option pydict)
    (k : string) :
  k <> "performance" ->
  Dict.get k (seen_after_stop b stopped) = Dict.get k b.
Proof.
  intros Hk. unfold seen_after_stop. destruct stopped as [sb|]; [|reflexivity].
  destruct (truthy _); [|reflexivity].
  apply dict_get_set_ne. congruence.
Qed.

Lemma seen_after_stop_performance (b sb : pydict) :
  Dict.get "performance" (seen_after_stop b (Some sb))
  = if truthy (get_or_none "performance" b)
    then Some (get_or_none "performance" sb)
    else Dict.get "performance" b.
Proof.
  unfold seen_after_stop. destruct (truthy _); [|reflexivity].
  apply dict_get_set_eq.
Qed.

(** X23: when the stop or the start inside [restart_bot] raises, the
    handler stores the record the call fetched before the stop, as it
    reads after the stop, with status ERROR and the "Restart failed" text:
    whatever the stop and the start had stored under that id is replaced
    by it, and the call answers [False], or raises the I/O error when this
    last save fails.  After the stop the fetched record reads as before
    under every key but "performance"; it is the very same record when its
    performance is missing or falsy; otherwise its performance is the
    stored one or the one with the stop's log entry appended, and it is the
    latter whenever a tracked local process was stopped without a failing
    system call and the entry could be appended. *)
Theorem restart_bot_failure (cfg : Settings) (s : restart_script)
    (bot_id reason : string) (sy sy1 : system) (b : pydict) (e : exn) :
  let out := restart_bot cfg s bot_id reason sy in
  let seen :=
    seen_after_stop b
      (sf_bot (fst (stop_bot_frame (rs_stop s) bot_id reason sy))) in
  let entry := stopped_entry (sp_log_timestamp (rs_stop s)) reason in
  let marked := Dict.set "last_error" (VStr ("Restart failed: " +:+ exn_msg e))
                  (Dict.set "status" (_status_value ERROR) seen) in
  SecureRegistry.get_bot_by_id (registry sy) bot_id = Some b ->
  bot_key b = bot_id -> bot_id <> EmptyString ->
  (_ ← stop_bot (rs_stop s) bot_id reason; run_bot cfg (rs_run s) seen) sy
    = (sy1, Raise e) ->
  SecureRegistry._cache (registry (fst out)) !! bot_id
    = Some (_normalize_for_json marked)
  /\ executor (fst out) = executor sy1
  /\ (snd out = Ok false
      \/ snd out = Raise (Utils.atomic_save_failed
                            (SecureRegistry.file (registry sy1))))
  /\ (forall k, k <> "performance" -> Dict.get k seen = Dict.get k b)
  /\ (truthy (get_or_none "performance" b) = false -> seen = b)
  /\ (Dict.get "performance" seen = Dict.get "performance" b
      \/ exists perf,
           append_log b entry = Ok perf
           /\ Dict.get "performance" seen = Some perf)
  /\ (forall perf,
        truthy (get_or_none "performance" b) = true ->
        running_containers (executor sy) !! bot_id = None ->
        is_Some (running_processes (executor sy) !! bot_id) ->
        local_stop_ok (rs_stop s) ->
        append_log b entry = Ok perf ->
        Dict.get "performance" seen = Some perf).
Proof.
  intros out seen entry marked Hget Hkey Hne Hrun. subst out.
  assert (Hin : is_Some (SecureRegistry._cache (registry sy1) !! bot_id)).
  { apply elem_of_dom. change (bot_id ∈ system_ids sy1).
    assert (Hids : system_ids sy1 = system_ids sy).
    { pose proof (preserves_bind system_ids
                    (stop_bot (rs_stop s) bot_id reason)
                    (fun _ => run_bot cfg (rs_run s) seen)
                    (stop_bot_ids _ _ _) (fun _ => run_bot_ids _ _ _) sy) as Hp.
      now rewrite Hrun in Hp. }
    rewrite Hids. apply elem_of_dom. unfold SecureRegistry.get_bot_by_id in Hget.
    destruct (SecureRegistry._cache (registry sy) !! bot_id); [eauto|discriminate]. }
  assert (Hk : bot_key marked = bot_id).
  { unfold marked. rewrite !bot_key_set by reflexivity.
    unfold bot_key, get_or_none, seen in *.
    now rewrite seen_after_stop_other. }
  destruct (stop_bot_frame_performance (rs_stop s) bot_id reason sy b Hget)
    as (sb & Hsb & Hperf).
  split; [|split; [|split; [|split; [|split; [|split]]]]].
  4: { intros k Hk'. apply seen_after_stop_other. exact Hk'. }
  4: { intros Hf. unfold seen, seen_after_stop. rewrite Hf.
       now destruct (sf_bot _). }
  4: { unfold seen. rewrite Hsb, seen_after_stop_performance.
       destruct (truthy (get_or_none "performance" b)) eqn:Ht; [|now left].
       assert (Hb : exists v, Dict.get "performance" b = Some v).
       { unfold get_or_none in Ht.
         destruct (Dict.get "performance" b); [eauto|discriminate]. }
       destruct Hb as [v Hv].
       destruct Hperf as [Hp | (perf & Ha & Hp)].
       - left. unfold get_or_none. now rewrite Hp, Hv.
       - right. exists perf. split; [exact Ha|].
         unfold get_or_none. now rewrite Hp. }
  4: { intros perf Ht Hc Hp Hos Ha.
       destruct (stop_bot_frame_local_performance (rs_stop s) bot_id reason
                   sy b perf Hget Hc Hp Hos Ha) as (sb' & Hsb' & Hp').
       unfold seen. rewrite Hsb', seen_after_stop_performance, Ht.
       unfold get_or_none. now rewrite Hp'. }
  all: unfold restart_bot; rewrite Hget;
    unfold mbind, M_bind in Hrun; rewrite stop_bot_frame_sys in Hrun;
    fold seen in Hrun |- *;
    destruct (stop_bot_frame (rs_stop s) bot_id reason sy) as [f stopped];
    cbn [fst snd] in *; cbv zeta; unfold try_except, mbind, M_bind, lift_result;
    assert (Hrun' : match stopped with
                    | Ok _ => run_bot cfg (rs_run s) seen (sf_sys f)
                    | Raise e0 => (sf_sys f, Raise e0)
                    end = (sy1, Raise e)) by (destruct stopped; exact Hrun);
    fold seen; rewrite Hrun'; fold marked;
    unfold system_update_bot, SecureRegistry.update_bot;
    rewrite Hk; (destruct (PyStr.is_empty bot_id) eqn:E;
                 [apply is_empty_true in E; contradiction|]);
    rewrite bool_decide_eq_true_2 by exact Hin; cbn [negb];
    match goal with
    | |- context [SecureRegistry._save ?o ?r1] =>
        pose proof (save_cache o r1) as [Hcache Hfile];
        pose proof (save_result o r1) as Hres;
        destruct (SecureRegistry._save o r1) as [r2 res]
    end;
    cbn [fst snd] in *;
    destruct Hres as [-> | ->]; cbn; rewrite ?Hcache; cbn;
    rewrite ?lookup_insert_eq; auto.
Qed.
End RestartFacts.

Lemma restart_bot_failure_witness :
  SecureRegistry._cache
    (AdaptiveExecutor.registry
       (fst (@AdaptiveExecutor.restart_bot sample_runtime sample_settings
               restart_script_no_file "b1" "Automatic restart"
               measured_system))) !! "b1"
  = Some [("id", VStr "b1"); ("name", VStr "Bot1");
          ("blueprint", VStr "missing.py");
          ("performance",
           VDict [("logs",
                   VList [VDict [("timestamp", VStr "T30Z");
                                 ("event", VStr "Automatic restart");
                                 ("status", VStr "stopped")]]);
                  ("cpu_load", VInt 0)]);
          ("status", VStr "error");
          ("last_error",
           VStr "Restart failed: Bot script not found: bots/missing.py")].
Proof.
  destruct (@restart_bot_failure sample_runtime sample_settings
              restart_script_no_file "b1" "Automatic restart" measured_system
              (fst ((_ ← @AdaptiveExecutor.stop_bot sample_runtime
                          stop_script_good "b1" "Automatic restart";
                     @AdaptiveExecutor.run_bot sample_runtime sample_settings
                       run_script_no_file
                       (AdaptiveExecutor.seen_after_stop measured_bot
                          (AdaptiveExecutor.sf_bot
                             (fst (@AdaptiveExecutor.stop_bot_frame
                                     sample_runtime stop_script_good "b1"
                                     "Automatic restart" measured_system)))))
                      measured_system))
              measured_bot
              (Exn FileNotFoundError "Bot script not found: bots/missing.py"))
    as [Hcache _].
  - vm_compute. reflexivity.
  - vm_compute. reflexivity.
  - discriminate.
  - vm_compute. reflexivity.
  - etransitivity; [exact Hcache|]. vm_compute. reflexivity.
Defined.

(* ===================================================================== *)
(** * Starting and stopping a local process *)
(* ===================================================================== *)

Section LocalRun.
Context `{PyRuntime}.
Import AdaptiveExecutor.

Ltac frame_simpl :=
  cbn -[get_or_none get_in py_or registry_update_bot Dict.set
        _run_bot_in_container _run_bot_locally bump_error_count
        on_run_error local_fallback deployment_raw_of container_config_of
        error_count_of saved _normalize_for_json isoformat script_path_of
        truthy].

(** The local path on a good frame, when the spawn works. *)
Lemma run_bot_locally_ok (s : local_script) (script_path : string)
    (ex : AdaptiveExecutor.t) (r : SecureRegistry.t) (b : pydict)
    (ev : value) (d : pydict) (pid : Z) :
  let b2 := running_record pid (lo_started_at s) (lo_updated_at s) b in
  frame_ok (mk_frame ex r b) ->
  get_in (get_or_none "deployment_config" b) "environment_vars" = Ok ev ->
  py_or ev (VDict []) = VDict d ->
  lo_popen s = Ok pid -> lo_psutil s = None ->
  Utils.io_fine (lo_save s) ->
  _run_bot_locally s script_path (mk_frame ex r b)
  = (mk_frame (track_local (py_str (get_or_none "id" b)) pid (lo_created s) ex)
       (saved (lo_save s) r b2) b2, Ok true).
Proof.
  intros b2 Hf Hev Hd Hpopen Hps Hio. unfold _run_bot_locally.
  unfold mbind, M_bind, get_bot, gets, lift_result, raise, bot_id_text,
    modify_executor, modify, os_call, set_bot.
  frame_simpl. rewrite Hev, Hd. frame_simpl. rewrite Hpopen, Hps. frame_simpl.
  match goal with
  | |- context [registry_update_bot ?o ?fr] => assert (Hok : frame_ok fr)
  end.
  { do 4 (apply frame_ok_set; [|reflexivity|reflexivity]). exact Hf. }
  rewrite (registry_update_bot_saved _ _ Hok Hio). reflexivity.
Qed.

(** X25: in a local mode, with the script present, the spawn working and
    the saves going well, [run_bot] returns [True]; the bot is then tracked
    with its pid in the three process maps, [is_bot_running] answers true,
    and the registry has saved the record with status running and that
    pid. *)
Theorem run_bot_local_start (cfg : Settings) (s : run_script) (sy : system)
    (b : pydict) (bp raw : string) (ev : value) (d : pydict) (pid : Z) :
  let script_path := script_path_of cfg bp in
  let b1 := deploying_record (ru_deploying_at s) b in
  let r1 := saved (ru_save_deploying s) (registry sy) b1 in
  let b2 := running_record pid (lo_started_at (ru_local s))
              (lo_updated_at (ru_local s)) b1 in
  let bot_id := py_str (get_or_none "id" b) in
  let ex2 := track_local bot_id pid (lo_created (ru_local s)) (executor sy) in
  let r2 := saved (lo_save (ru_local s)) r1 b2 in
  Dict.get "blueprint" b = Some (VStr bp) ->
  bp <> EmptyString ->
  ru_exists s script_path = true ->
  frame_ok (mk_frame (executor sy) (registry sy) b) ->
  deployment_raw_of b = Ok raw ->
  is_container_mode raw = false ->
  get_in (get_or_none "deployment_config" b) "environment_vars" = Ok ev ->
  py_or ev (VDict []) = VDict d ->
  lo_popen (ru_local s) = Ok pid ->
  lo_psutil (ru_local s) = None ->
  Utils.io_fine (ru_save_deploying s) ->
  Utils.io_fine (lo_save (ru_local s)) ->
  run_bot cfg s b sy = ({| executor := ex2; registry := r2 |}, Ok true)
  /\ is_bot_running ex2 bot_id = true
  /\ running_processes ex2 !! bot_id = Some pid
  /\ on_disk r2 (_normalize_for_json b2)
  /\ Dict.get "status" b2 = Some (_status_value RUNNING)
  /\ Dict.get "process_id" b2 = Some (VInt pid).
Proof.
  intros script_path b1 r1 b2 bot_id ex2 r2 Hbp Hne Hex Hf Hraw Hmode Hev Hd
    Hpopen Hps Hio1 Hio2.
  destruct sy as [ex r]. cbn [executor registry] in *.
  assert (Hf1 : frame_ok (mk_frame ex r b1)).
  { unfold b1, deploying_record.
    do 2 (apply frame_ok_set; [|reflexivity|reflexivity]). exact Hf. }
  assert (Hf1' : frame_ok (mk_frame ex r1 b1)).
  { unfold r1. apply (frame_ok_saved _ ex); [exact Hf1|reflexivity|apply Hf1]. }
  assert (Hraw1 : deployment_raw_of b1 = Ok raw).
  { unfold b1, deploying_record. now rewrite !deployment_raw_of_set. }
  assert (Hdc1 : get_or_none "deployment_config" b1
                 = get_or_none "deployment_config" b).
  { unfold b1, deploying_record. now rewrite !get_or_none_set. }
  assert (Hid1 : py_str (get_or_none "id" b1) = bot_id).
  { unfold b1, deploying_record. now rewrite !get_or_none_set. }
  assert (Hemp : PyStr.is_empty bp = false).
  { destruct bp; [contradiction|reflexivity]. }
  assert (Hgb : get_or_none "blueprint" b = VStr bp).
  { unfold get_or_none. now rewrite Hbp. }
  assert (Hbody : run_bot_body cfg s (mk_frame ex r b)
                  = (mk_frame ex2 r2 b2, Ok true)).
  { unfold run_bot_body.
    unfold mbind at 1, M_bind at 1, get_bot at 1, gets at 1.
    change (get_or_none "blueprint" (bot (mk_frame ex r b)))
      with (get_or_none "blueprint" b).
    rewrite Hgb. cbn [truthy]. rewrite Hemp. cbn [negb].
    fold script_path. rewrite Hex. cbn [negb].
    unfold mbind at 1, M_bind at 1, set_bot at 1, modify at 1.
    unfold mbind at 1, M_bind at 1, set_bot at 1, modify at 1.
    unfold mbind at 1, M_bind at 1.
    change {| sys := sys {| sys := sys (mk_frame ex r b); bot := _ |};
              bot := _ |}
      with (mk_frame ex r b1).
    rewrite (registry_update_bot_saved _ _ Hf1 Hio1).
    change (mk_frame (executor (sys (mk_frame ex r b1)))
              (saved (ru_save_deploying s) (registry (sys (mk_frame ex r b1)))
                 (bot (mk_frame ex r b1))) (bot (mk_frame ex r b1)))
      with (mk_frame ex r1 b1).
    unfold mbind at 1, M_bind at 1, gets at 1.
    change (bot (mk_frame ex r1 b1)) with b1.
    unfold mbind at 1, M_bind at 1, lift_result at 1.
    rewrite Hraw1, Hmode.
    rewrite (run_bot_locally_ok (ru_local s) script_path ex r1 b1 ev d pid
               Hf1' ltac:(rewrite Hdc1; exact Hev) Hd Hpopen Hps Hio2).
    now rewrite Hid1. }
  split.
  { unfold run_bot, try_except.
    change {| sys := {| executor := ex; registry := r |}; bot := b |}
      with (mk_frame ex r b).
    rewrite Hbody. reflexivity. }
  split.
  { unfold is_bot_running, ex2, track_local. cbn.
    rewrite lookup_insert_eq. rewrite bool_decide_eq_true_2 by eauto.
    reflexivity. }
  split; [unfold ex2, track_local; cbn; apply lookup_insert_eq|].
  split.
  { unfold r2. apply saved_on_disk. apply Hio2. }
  unfold b2, running_record. rewrite !dict_get_set. split; reflexivity.
Qed.

(** X24: when the record names no blueprint, or the script it names does
    not exist, [run_bot] raises FileNotFoundError and starts nothing: the
    executor's maps are untouched, and the record is saved with status
    failed, the error text and the error count raised by one. *)
Theorem run_bot_script_missing (cfg : Settings) (s : run_script) (sy : system)
    (b : pydict) (n : Z) (e : exn) :
  frame_ok (mk_frame (executor sy) (registry sy) b) ->
  error_count_of b = Ok n ->
  Utils.io_fine (ru_save_error s) ->
  (truthy (get_or_none "blueprint" b) = false
   /\ e = Exn FileNotFoundError "Bot blueprint not set")
  \/ (exists bp,
        get_or_none "blueprint" b = VStr bp /\ bp <> EmptyString
        /\ ru_exists s (script_path_of cfg bp) = false
        /\ e = Exn FileNotFoundError
                 ("Bot script not found: " +:+ script_path_of cfg bp)) ->
  run_bot cfg s b sy
  = ({| executor := executor sy;
        registry := saved (ru_save_error s) (registry sy)
                      (run_error_record e n b) |}, Raise e)
  /\ Dict.get "status" (run_error_record e n b) = Some (_status_value FAILED)
  /\ Dict.get "last_error" (run_error_record e n b) = Some (VStr (exn_msg e))
  /\ Dict.get "error_count" (run_error_record e n b) = Some (VInt (n + 1)).
Proof.
  intros Hf Hn Hio Hcase. destruct sy as [ex r]. cbn [executor registry] in *.
  assert (Hbody : run_bot_body cfg s (mk_frame ex r b)
                  = (mk_frame ex r b, Raise e)
                  /\ exn_cls e = FileNotFoundError).
  { unfold run_bot_body.
    unfold mbind at 1, M_bind at 1, get_bot at 1, gets at 1.
    change (get_or_none "blueprint" (bot (mk_frame ex r b)))
      with (get_or_none "blueprint" b).
    destruct Hcase as [[Hbp ->]|(bp & Hbp & Hne & Hex & ->)].
    - rewrite Hbp. cbn [negb]. split; reflexivity.
    - rewrite Hbp. cbn [truthy].
      assert (Hemp : PyStr.is_empty bp = false).
      { destruct bp; [contradiction|reflexivity]. }
      rewrite Hemp, Hex. cbn [negb]. split; reflexivity. }
  destruct Hbody as [Hbody Hcls]. split.
  { unfold run_bot.
    change {| sys := {| executor := ex; registry := r |}; bot := b |}
      with (mk_frame ex r b).
    rewrite (try_raise _ _ _ _ _ Hbody).
    rewrite (on_run_error_eq _ e ex r b n Hf Hn Hio). reflexivity. }
  unfold run_error_record. rewrite !dict_get_set. cbn [String.eqb Ascii.eqb Bool.eqb].
  rewrite Hcls. rewrite decide_True by reflexivity. repeat split.
Qed.

End LocalRun.

Section LocalStop.
Context `{PyRuntime}.
Import AdaptiveExecutor.

Lemma get_or_none_serializable (k : string) (d : pydict) :
  json_serializable (VDict d) = true ->
  json_serializable (get_or_none k d) = true.
Proof.
  unfold get_or_none. induction d as [|[k0 v0] d IH]; [reflexivity|].
  cbn. intros [H0 Hd]%andb_true_iff.
  destruct (String.eqb k0 k); [exact H0|]. now apply IH.
Qed.

Lemma append_log_serializable (b : pydict) (entry perf : value) :
  json_serializable (VDict b) = true -> json_serializable entry = true ->
  append_log b entry = Ok perf -> json_serializable perf = true.
Proof.
  intros Hb He. unfold append_log.
  pose proof (get_or_none_serializable "performance" b Hb) as Hp.
  unfold py_or at 1. destruct (truthy (get_or_none "performance" b)).
  - destruct (get_or_none "performance" b) as [| | | | |?|perf0]; try discriminate.
    pose proof (get_or_none_serializable "logs" perf0 Hp) as Hl.
    unfold py_or. destruct (truthy (get_or_none "logs" perf0)).
    + destruct (get_or_none "logs" perf0) as [| | | | |logs|?]; try discriminate.
      intros [= <-]. apply serializable_set; [exact Hp|].
      cbn in *. rewrite forallb_app, Hl. cbn. now rewrite He.
    + intros [= <-]. apply serializable_set; [exact Hp|]. cbn. now rewrite He.
  - unfold py_or. cbn. intros [= <-]. cbn. now rewrite He.
Qed.

Lemma normalize_serializable (b : pydict) :
  json_serializable (VDict b) = true -> _normalize_for_json b = b.
Proof.
  unfold _normalize_for_json. induction b as [|[k v] b IH]; [reflexivity|].
  cbn. intros [Hv Hb]%andb_true_iff. rewrite IH by exact Hb.
  now destruct v.
Qed.

Lemma local_stop_ok_calls {A} (s : stop_script) (k : unit -> M stop_frame A)
    (f : stop_frame) :
  local_stop_ok s ->
  (or_else (sp_killpg_term s) (sp_terminate s) ≫=
     (fun _ =>
        match sp_wait s with
        | None => mret tt
        | Some e =>
            if decide (exn_cls e = TimeoutError) then
              _ ← or_else (sp_killpg_kill s) (sp_kill s);
              os_call (sp_wait_again s)
            else raise e
        end ≫= k)) f = k tt f.
Proof.
  intros [Hterm Hwait]. unfold mbind, M_bind, or_else, os_call.
  assert (E1 : match sp_killpg_term s with
               | Some _ => match sp_terminate s with
                           | Some e => raise e
                           | None => mret tt
                           end
               | None => mret tt
               end f = (f, Ok tt)).
  { destruct Hterm as [-> | ->]; [reflexivity|].
    now destruct (sp_killpg_term s). }
  rewrite E1.
  destruct Hwait as [-> | (e & -> & Hcls & Hkill & Hagain)]; [reflexivity|].
  rewrite decide_True by exact Hcls. rewrite Hagain.
  destruct Hkill as [-> | ->]; [reflexivity|].
  now destruct (sp_killpg_kill s).
Qed.

(** X26: [stop_bot] of a bot that runs as a local process, when the
    signals and the wait go well and the save goes well: it answers
    [True], the bot is in none of the tracking maps, and the registry has
    saved the record with status stopped, the time of the stop and one
    more entry in its performance log. *)
Theorem stop_bot_local_success (s : stop_script) (bot_id reason : string)
    (sy : system) (pid : Z) (rec : pydict) (perf : value) :
  let b3 := stopped_record s perf rec in
  truthy (from_option VStr VNone (running_containers (executor sy) !! bot_id))
    = false ->
  running_processes (executor sy) !! bot_id = Some pid ->
  SecureRegistry._cache (registry sy) !! bot_id = Some rec ->
  bot_key rec = bot_id ->
  bot_id <> EmptyString ->
  cache_ok (SecureRegistry._cache (registry sy)) ->
  append_log rec (stopped_entry (sp_log_timestamp s) reason) = Ok perf ->
  local_stop_ok s ->
  Utils.io_fine (sp_save s) ->
  stop_bot s bot_id reason sy
  = ({| executor := untrack (executor sy) bot_id;
        registry := saved (sp_save s) (registry sy) b3 |}, Ok true)
  /\ is_bot_running (untrack (executor sy) bot_id) bot_id = false
  /\ on_disk (saved (sp_save s) (registry sy) b3) (_normalize_for_json b3)
  /\ Dict.get "status" b3 = Some (_status_value STOPPED)
  /\ Dict.get "performance" b3 = Some perf.
Proof.
  intros b3 Hc Hp Hrec Hkey Hne Hcache Hlog Hos Hio.
  assert (Hser : json_serializable (VDict rec) = true) by exact (Hcache _ _ Hrec).
  assert (Htruthy : truthy (VDict rec) = true).
  { destruct rec; [|reflexivity]. exfalso. apply Hne. rewrite <- Hkey.
    reflexivity. }
  assert (Hperf : json_serializable perf = true).
  { eapply append_log_serializable; [exact Hser| |exact Hlog]. reflexivity. }
  assert (Hb3 : storable b3).
  { unfold b3, stopped_record.
    do 3 (apply storable_set; [|try reflexivity; exact Hperf]).
    unfold storable. now rewrite normalize_serializable. }
  assert (Hk3 : bot_key b3 = bot_id).
  { unfold b3, stopped_record. now rewrite !bot_key_set. }
  assert (Hupd : SecureRegistry.update_bot (sp_save s) (registry sy) b3
                 = (saved (sp_save s) (registry sy) b3,
                    Ok (_normalize_for_json b3))).
  { apply update_bot_saved; rewrite ?Hk3; try assumption. rewrite Hrec. eauto. }
  split.
  { unfold stop_bot. rewrite Hc, Hp. cbn [registry executor].
    unfold SecureRegistry.get_bot_by_id. rewrite Hrec, Htruthy.
    unfold stop_local_process, try_except.
    match goal with
    | |- context [(?m ≫= ?k) ?f] =>
        assert (Hrun : (m ≫= k) f
                       = ({| sf_sys := {| executor := untrack (executor sy) bot_id;
                                          registry := saved (sp_save s)
                                                        (registry sy) b3 |};
                             sf_bot := Some b3 |}, Ok true));
        [|rewrite Hrun; reflexivity]
    end.
    rewrite (local_stop_ok_calls s _ _ Hos).
    unfold record_stopped, mbind, M_bind, gets, set_stop_bot, modify,
      lift_result, stop_update_bot.
    cbn -[append_log Dict.set SecureRegistry.update_bot truthy isoformat
          stopped_entry untrack saved].
    rewrite Htruthy.
    cbn -[append_log Dict.set SecureRegistry.update_bot truthy isoformat
          stopped_entry untrack saved].
    rewrite Hlog.
    cbn -[append_log Dict.set SecureRegistry.update_bot truthy isoformat
          stopped_entry untrack saved].
    fold (stopped_record s perf rec). fold b3. rewrite Hupd. reflexivity. }
  split.
  { unfold is_bot_running, untrack. cbn. rewrite !lookup_delete_eq.
    rewrite (bool_decide_eq_false_2 (is_Some None)) by apply is_Some_None.
    reflexivity. }
  split; [apply saved_on_disk, Hio|].
  unfold b3, stopped_record. rewrite !dict_get_set. split; reflexivity.
Qed.

End LocalStop.

Lemma local_frame_ok :
  @frame_ok sample_runtime (mk_frame idle_executor sample_registry local_bot).
Proof.
  unfold local_bot.
  apply (@frame_ok_set sample_runtime); [exact sample_frame_ok| |]; reflexivity.
Qed.

(** X25 at the sample bot in the local mode. *)
Lemma run_bot_local_start_witness :
  snd (@AdaptiveExecutor.run_bot sample_runtime sample_settings
         (run_script_with failing_engine local_good) local_bot idle_system)
  = Ok true
  /\ AdaptiveExecutor.is_bot_running
       (AdaptiveExecutor.executor running_system) "b1" = true.
Proof.
  destruct (@run_bot_local_start sample_runtime sample_settings
              (run_script_with failing_engine local_good) idle_system
              local_bot "ok.py" "local_process" VNone [] 4242)
    as (Hrun & Htracked & _).
  - reflexivity.
  - discriminate.
  - reflexivity.
  - exact local_frame_ok.
  - reflexivity.
  - reflexivity.
  - reflexivity.
  - reflexivity.
  - reflexivity.
  - reflexivity.
  - repeat split.
  - repeat split.
  - unfold running_system. rewrite Hrun. split; [reflexivity|].
    cbn [fst AdaptiveExecutor.executor]. exact Htracked.
Defined.

(** X24 at the sample bot, its script missing. *)
Lemma run_bot_script_missing_witness :
  snd (@AdaptiveExecutor.run_bot sample_runtime sample_settings
         run_script_no_file sample_bot idle_system)
  = Raise (Exn FileNotFoundError "Bot script not found: bots/ok.py").
Proof.
  destruct (@run_bot_script_missing sample_runtime sample_settings
              run_script_no_file idle_system sample_bot 0
              (Exn FileNotFoundError "Bot script not found: bots/ok.py"))
    as [Hrun _].
  - exact sample_frame_ok.
  - reflexivity.
  - repeat split.
  - right. exists "ok.py"%string. repeat split. discriminate.
  - rewrite Hrun. reflexivity.
Defined.

Lemma running_system_cache_ok :
  cache_ok (SecureRegistry._cache (AdaptiveExecutor.registry running_system)).
Proof. apply map_Forall_to_list. vm_compute. repeat constructor. Qed.

(** X26 at the sample bot once it runs: started, then stopped. *)
Lemma stop_bot_local_success_witness :
  snd (@AdaptiveExecutor.stop_bot sample_runtime stop_script_good "b1"
         "Manual stop" running_system) = Ok true
  /\ AdaptiveExecutor.is_bot_running
       (AdaptiveExecutor.executor
          (fst (@AdaptiveExecutor.stop_bot sample_runtime stop_script_good "b1"
                  "Manual stop" running_system))) "b1" = false.
Proof.
  set (rec := default []
                (SecureRegistry._cache (AdaptiveExecutor.registry running_system)
                   !! "b1")).
  set (perf := VDict [("logs",
                       VList [AdaptiveExecutor.stopped_entry "T30Z" "Manual stop"])]).
  destruct (@stop_bot_local_success sample_runtime stop_script_good "b1"
              "Manual stop" running_system 4242 rec perf)
    as (Hstop & Hgone & _).
  - vm_compute. reflexivity.
  - vm_compute. reflexivity.
  - vm_compute. reflexivity.
  - vm_compute. reflexivity.
  - discriminate.
  - exact running_system_cache_ok.
  - vm_compute. reflexivity.
  - split; left; reflexivity.
  - repeat split.
  - rewrite Hstop. split; [reflexivity|exact Hgone].
Defined.

(* ===================================================================== *)
(** * The supervisor: log, tick and failure count *)
(* ===================================================================== *)

Lemma incident_tail_length (limit : Z) (log : list Incident.t) :
  length (IncidentLog.tail limit log)
  = Nat.min (Z.to_nat limit) (length log).
Proof.
  unfold IncidentLog.tail.
  destruct (Z.max 0 limit <=? 0) eqn:E.
  - apply Z.leb_le in E. cbn. replace (Z.to_nat limit) with 0%nat by lia.
    reflexivity.
  - apply Z.leb_gt in E. rewrite length_map, length_drop.
    replace (Z.max 0 limit) with limit by lia. lia.
Qed.

(** X27: [IncidentLog.tail] returns nothing for a limit of zero or less;
    otherwise it returns the last [limit] incidents of the log, or all of
    them when there are fewer, oldest first; and after an [append] that
    worked, the new incident is the last one returned, preceded by what a
    [tail] of one less returned before. *)
Theorem incident_log_tail (limit : Z) (log : list Incident.t)
    (i : Incident.t) :
  (limit <= 0 -> IncidentLog.tail limit log = [])
  /\ length (IncidentLog.tail limit log)
     = Nat.min (Z.to_nat limit) (length log)
  /\ (exists older,
        map IncidentLog.asdict log = older ++ IncidentLog.tail limit log)
  /\ (forall log',
        IncidentLog.append None i log = (log', Ok tt) -> 1 <= limit ->
        IncidentLog.tail limit log'
        = IncidentLog.tail (limit - 1) log ++ [IncidentLog.asdict i]).
Proof.
  split; [|split; [apply incident_tail_length|split]].
  - intros Hl. unfold IncidentLog.tail.
    replace (Z.max 0 limit) with 0 by lia. reflexivity.
  - unfold IncidentLog.tail. destruct (Z.max 0 limit <=? 0).
    + exists (map IncidentLog.asdict log). now rewrite app_nil_r.
    + exists (map IncidentLog.asdict
                (take (length log - Z.to_nat (Z.max 0 limit)) log)).
      rewrite <- map_app. now rewrite take_drop.
  - intros log' Happ Hl. unfold IncidentLog.append in Happ.
    destruct (json_serializable _); [|discriminate].
    injection Happ as <-. unfold IncidentLog.tail.
    replace (Z.max 0 limit <=? 0) with false by (symmetry; apply Z.leb_gt; lia).
    replace (Z.max 0 limit) with limit by lia.
    rewrite length_app. cbn [length].
    rewrite drop_app, map_app.
    replace (length log + 1 - Z.to_nat limit)%nat
      with (length log - Z.to_nat (limit - 1))%nat by lia.
    replace (length log - Z.to_nat (limit - 1) - length log)%nat with 0%nat
      by lia.
    cbn [drop map].
    destruct (Z.max 0 (limit - 1) <=? 0) eqn:E.
    + apply Z.leb_le in E. replace (Z.to_nat (limit - 1)) with 0%nat by lia.
      rewrite Nat.sub_0_r, drop_all. reflexivity.
    + apply Z.leb_gt in E. replace (Z.max 0 (limit - 1)) with (limit - 1) by lia.
      reflexivity.
Qed.

Section SupervisorExtras.
Context `{PyRuntime}.
Variable cfg : Settings.
Import AdaptiveExecutor BotSupervisor.

Lemma tick_loop_skips (now : Z) (scripts : nat -> tick_script)
    (bots : list pydict) :
  Forall (fun b => supervised b = false) bots ->
  forall i w, tick_loop cfg now scripts i bots w = (w, Ok tt).
Proof.
  induction 1 as [|b bots Hb _ IH]; intros i w; [reflexivity|].
  cbn [tick_loop]. rewrite Hb. unfold mbind, M_bind. cbn. apply IH.
Qed.

(** X28: a tick over a registry in which no bot has the status running or
    deploying does nothing at all: no bot is checked, stopped or started,
    no incident is written, and the supervisor's state is as before. *)
Theorem tick_skips_unsupervised (now : Z) (scripts : nat -> tick_script)
    (w : world) :
  (forall b, b ∈ SecureRegistry.get_all_bots (registry (system_ w)) ->
     py_str (get_or_none "status" b) <> "running"
     /\ py_str (get_or_none "status" b) <> "deploying") ->
  tick cfg now scripts w = (w, Ok tt).
Proof.
  intros Hbots. unfold tick, mbind, M_bind, gets. cbn [fst snd].
  apply tick_loop_skips. apply Forall_forall. intros b Hb.
  destruct (Hbots b Hb) as [Hr Hd]. unfold supervised. cbn [status_value].
  apply orb_false_iff. split; apply String.eqb_neq; assumption.
Qed.

(** X29: every handling of an unhealthy bot that passes the gate raises
    the bot's failure count by exactly one, whatever the restart did, also
    when it worked: the count is never reset.  A handling behind the gate
    leaves it as it is.  Neither changes the limit. *)
Theorem handle_unhealthy_counts (s : heal_script) (b : pydict) (now : Z)
    (w : world) :
  let bot_id := py_str (get_or_none "id" b) in
  let w' := fst (_handle_unhealthy cfg s b now w) in
  RestartState.failures (restart_state_of w' bot_id)
  = RestartState.failures (restart_state_of w bot_id)
    + (if gate_closed (restart_state_of w bot_id) now then 0 else 1)
  /\ max_failures (sup w') = max_failures (sup w).
Proof.
  intros bot_id w'.
  destruct (gate_closed (restart_state_of w bot_id) now) eqn:Hgate.
  - destruct (gate_closed_true w bot_id now Hgate) as (st & d & Hst & Hd & Hlt).
    unfold w'. rewrite (handle_unhealthy_gate_closed cfg s b now w st d Hst Hd Hlt).
    cbn [fst]. split; [lia|reflexivity].
  - pose proof (handle_unhealthy_handled cfg s b now w Hgate) as Hh.
    split; [apply (hd_failures _ _ _ _ Hh)|apply (hd_max _ _ _ _ Hh)].
Qed.

End SupervisorExtras.

(** X28 at the sample world, whose only bot has no status. *)
Lemma tick_skips_unsupervised_witness :
  @BotSupervisor.tick sample_runtime sample_settings 0
    (fun _ => {| BotSupervisor.tk_health :=
                   {| BotSupervisor.hs_meta := None;
                      BotSupervisor.hs_process_alive := false |};
                 BotSupervisor.tk_heal := heal_script_good |})
    (sample_world 5)
  = (sample_world 5, Ok tt).
Proof.
  apply (@tick_skips_unsupervised sample_runtime sample_settings).
  intros b Hb. vm_compute in Hb.
  apply list_elem_of_singleton in Hb. subst b. vm_compute.
  split; discriminate.
Defined.

Section SupervisorIds.
Context `{PyRuntime}.
Variable cfg : Settings.
Import AdaptiveExecutor BotSupervisor.

Lemma on_system_ids {A} (m : M system A) :
  preserves system_ids m -> preserves world_ids (on_system m).
Proof.
  intros Hm w. unfold on_system, world_ids. specialize (Hm (system_ w)).
  now destruct (m (system_ w)).
Qed.

Lemma registry_update_ids (o : Utils.io_outcomes) (b : pydict) :
  preserves world_ids (registry_update o b).
Proof.
  unfold registry_update. apply on_system_ids. intros sy. unfold system_ids.
  pose proof (update_bot_ids o (registry sy) b) as Hu.
  now destruct (SecureRegistry.update_bot o (registry sy) b).
Qed.

Lemma record_ids (rs : record_script) (b : pydict) (kind message : string)
    (data : pydict) :
  preserves world_ids (_record rs b kind message data).
Proof. unfold _record. repeat preserves_step. Qed.

Lemma set_restart_state_ids (bot_id : string) (st : RestartState.t) :
  preserves world_ids (set_restart_state bot_id st).
Proof. unfold set_restart_state. repeat preserves_step. Qed.

Lemma get_restart_state_ids (bot_id : string) :
  preserves world_ids (_get_restart_state bot_id).
Proof.
  intros w. unfold _get_restart_state.
  now destruct (_restart_state (sup w) !! bot_id).
Qed.

Ltac ids_step :=
  first
    [ apply registry_update_ids
    | apply record_ids
    | apply set_restart_state_ids
    | apply get_restart_state_ids
    | apply on_system_ids; first [apply run_bot_ids | apply stop_bot_ids]
    | preserves_step ].

Lemma fallback_step_ids (s : heal_script) (b : pydict) (now : Z)
    (bot_id : string) (st : RestartState.t) :
  preserves world_ids (fallback_step cfg s b now bot_id st).
Proof. unfold fallback_step. repeat ids_step. Qed.

Lemma handle_unhealthy_ids (s : heal_script) (b : pydict) (now : Z) :
  preserves world_ids (_handle_unhealthy cfg s b now).
Proof.
  unfold _handle_unhealthy. repeat (apply fallback_step_ids || ids_step).
Qed.

Lemma is_bot_healthy_ids (hs : health_script) (b : pydict) :
  preserves world_ids (_is_bot_healthy hs b).
Proof. unfold _is_bot_healthy. repeat ids_step. Qed.

Lemma tick_loop_ids (now : Z) (scripts : nat -> tick_script)
    (bots : list pydict) :
  forall i, preserves world_ids (tick_loop cfg now scripts i bots).
Proof.
  induction bots as [|b bots IH]; intros i; cbn [tick_loop].
  - apply preserves_ret.
  - apply preserves_bind; [|intros _; apply IH].
    destruct (supervised b); [|apply preserves_ret].
    apply preserves_bind; [apply is_bot_healthy_ids|].
    intros [|]; [apply preserves_ret|apply handle_unhealthy_ids].
Qed.

(** X30: the supervisor never registers or unregisters a bot: after a
    tick, and after any handling of an unhealthy bot, whether they return
    or raise, the registry knows exactly the ids it knew. *)
Theorem supervisor_keeps_registry_ids (now : Z) (w : world) :
  (forall scripts, world_ids (fst (tick cfg now scripts w)) = world_ids w)
  /\ (forall s b,
        world_ids (fst (_handle_unhealthy cfg s b now w)) = world_ids w).
Proof.
  split.
  - intros scripts. unfold tick.
    apply (preserves_bind world_ids); [apply preserves_gets|].
    intros bots. apply tick_loop_ids.
  - intros s b. apply handle_unhealthy_ids.
Qed.

End SupervisorIds.
